(** * Edit-war detection engine of Wikipedia_Stats: a shallow embedding

    The development follows the Python sources
      - [edit_war_analyzer.py]   (class [EditWarAnalyzer]),
      - [edit_war_summary.py]    (class [EditWarSummary]),
      - [quick_edit_war_stats.py] (module-level functions).

    Conventions of the embedding.
      - A revision is the JSON object returned by the MediaWiki API, i.e. a
        Python dict in which every key may be absent.  It is a record of
        options; [d['k']] is a fallible read ([KeyError]), [d.get('k', v)] a
        read with a default.
      - A timestamp is the ISO-8601 string of the API with a resolution of one
        second.  It is kept in parsed form, as the number of seconds since the
        epoch ([Z]); the lexicographic order of the strings is the order of
        these numbers.
      - Python floats are replaced by exact rationals ([Q]): an hour gap is
        [seconds / 3600], a size ratio is [size_diff / max(size, 1)].  A
        quotient of two integers is the rational that the float rounds, so
        comparisons with integer bounds carry over to the floats; an equation
        between quantities that the code rounds separately (a sum of
        percentages, an average times a count) holds of the rationals and of
        the floats only up to rounding.
      - Comments are strings of 8-bit characters; [str.lower] acts on the
        letters A-Z.
      - A Python [dict] (also [Counter], [defaultdict]) keeps its keys in
        insertion order; it is an association list without duplicate keys. *)

From Stdlib Require Import List ZArith QArith Qabs String Ascii Bool Lia Arith Sorted.
Import ListNotations.

Set Implicit Arguments.

(** ** Python exceptions and the error monad *)

Inductive exn : Type :=
| KeyError (key : string)
| IndexError
| ValueError
| ZeroDivisionError.

Inductive result (A : Type) : Type :=
| Ok (a : A)
| Raise (e : exn).

Arguments Ok {A} a.
Arguments Raise {A} e.

Definition bind {A B : Type} (m : result A) (k : A -> result B) : result B :=
  match m with
  | Ok a => k a
  | Raise e => Raise e
  end.

Notation "x <- m ;; k" := (bind m (fun x => k))
  (at level 61, m at next level, right associativity).

Definition subscript {A : Type} (key : string) (field : option A) : result A :=
  match field with
  | Some v => Ok v
  | None => Raise (KeyError key)
  end.

Definition get_or {A : Type} (field : option A) (default : A) : A :=
  match field with
  | Some v => v
  | None => default
  end.

Definition is_ok {A : Type} (m : result A) : bool :=
  match m with Ok _ => true | Raise _ => false end.

(** ** Strings: [str.lower] and the [in] operator *)

Definition lower_char (c : ascii) : ascii :=
  let n := nat_of_ascii c in
  if (65 <=? n)%nat && (n <=? 90)%nat then ascii_of_nat (n + 32) else c.

Fixpoint lower (s : string) : string :=
  match s with
  | EmptyString => EmptyString
  | String c s' => String (lower_char c) (lower s')
  end.

(** [str_in needle hay] is Python's [needle in hay]. *)
Fixpoint str_in (needle hay : string) : bool :=
  String.prefix needle hay ||
  match hay with
  | EmptyString => false
  | String _ hay' => str_in needle hay'
  end.

(** [any(indicator in comment for indicator in indicators)] *)
Definition any_in (indicators : list string) (comment : string) : bool :=
  existsb (fun indicator => str_in indicator comment) indicators.

(** ** Rationals standing for floats *)

Definition Qlt_bool (x y : Q) : bool := negb (Qle_bool y x).

(** [(current_time - prev_time).total_seconds() / 3600] *)
Definition hours_between (current_time prev_time : Z) : Q :=
  (current_time - prev_time) # 3600.

(** [(current_time - prev_time).total_seconds() / 60] *)
Definition minutes_between (current_time prev_time : Z) : Q :=
  (current_time - prev_time) # 60.

(** ** Revisions *)

Record Revision : Type := mkRevision {
  timestamp : option Z;
  user : option string;
  comment : option string;
  size : option Z;
  revid : option Z;
  parentid : option Z
}.

(** [rev.get('user', 'Anonymous')] *)
Definition get_user (rev : Revision) : string := get_or (user rev) "Anonymous"%string.

(** [rev.get('comment', '')] *)
Definition get_comment (rev : Revision) : string := get_or (comment rev) ""%string.

(** ** RevertClassifier, [EditWarAnalyzer.detect_reverts] *)

(** The dict appended to [reverts] by [EditWarAnalyzer.detect_reverts]. *)
Record Revert : Type := mkRevert {
  rv_timestamp : Z;
  rv_user : string;
  rv_comment : string;
  rv_size : Z;
  rv_revid : Z;
  rv_parentid : option Z;
  rv_reverted_to_size : Z
}.

Module Analyzer.

Definition revert_indicators : list string :=
  ["revert"; "undo"; "rv"; "rollback"; "restore"]%string.

(** [size_diff / max(current_rev['size'], 1) < 0.1], the literal [0.1] read
    as the rational 1/10. *)
Definition size_similar (current_size previous_size : Z) : bool :=
  let size_diff := Z.abs (current_size - previous_size) in
  let size_ratio := size_diff # Z.to_pos (Z.max current_size 1) in
  Qlt_bool size_ratio (1 # 10).

Definition is_revert (current_rev : Revision) : bool :=
  any_in revert_indicators (lower (get_comment current_rev)).

(** The dict literal; its items are evaluated in source order, so a missing
    ['timestamp'] is reported before a missing ['revid']. *)
Definition make_revert (current_rev : Revision) (current_size previous_size : Z)
  : result Revert :=
  ts <- subscript "timestamp" (timestamp current_rev) ;;
  rid <- subscript "revid" (revid current_rev) ;;
  Ok {| rv_timestamp := ts;
        rv_user := get_user current_rev;
        rv_comment := get_comment current_rev;
        rv_size := current_size;
        rv_revid := rid;
        rv_parentid := parentid current_rev;
        rv_reverted_to_size := previous_size |}.

(** One iteration of the [for i in range(1, len(revisions))] loop. *)
Definition detect_step (previous_rev current_rev : Revision) (reverts : list Revert)
  : result (list Revert) :=
  match size current_rev, size previous_rev with
  | Some current_size, Some previous_size =>
      if size_similar current_size previous_size then
        if is_revert current_rev then
          r <- make_revert current_rev current_size previous_size ;;
          Ok (reverts ++ [r])
        else Ok reverts
      else Ok reverts
  | _, _ => Ok reverts
  end.

Fixpoint detect_loop (previous_rev : Revision) (rest : list Revision)
  (reverts : list Revert) : result (list Revert) :=
  match rest with
  | [] => Ok reverts
  | current_rev :: rest' =>
      reverts' <- detect_step previous_rev current_rev reverts ;;
      detect_loop current_rev rest' reverts'
  end.

Definition detect_reverts (revisions : list Revision) : result (list Revert) :=
  match revisions with
  | [] => Ok []
  | first :: rest => detect_loop first rest []
  end.

End Analyzer.

(** ** RevertClassifier, [detect_reverts_quick] and [EditWarSummary.detect_reverts]

    The two functions have the same body, statement for statement. *)

Record QuickRevert : Type := mkQuickRevert {
  q_timestamp : Z;
  q_user : string;
  q_comment : string;
  q_size : Z
}.

Module Quick.

Definition revert_indicators : list string :=
  ["revert"; "undo"; "rv"; "rollback"; "restore"; "reverted"]%string.

Definition is_revert (current_rev : Revision) : bool :=
  any_in revert_indicators (lower (get_comment current_rev)).

Definition make_revert (current_rev : Revision) : result QuickRevert :=
  ts <- subscript "timestamp" (timestamp current_rev) ;;
  Ok {| q_timestamp := ts;
        q_user := get_user current_rev;
        q_comment := get_comment current_rev;
        q_size := get_or (size current_rev) 0%Z |}.

Definition detect_step (previous_rev current_rev : Revision)
  (reverts : list QuickRevert) : result (list QuickRevert) :=
  if is_revert current_rev then
    r <- make_revert current_rev ;;
    Ok (reverts ++ [r])
  else Ok reverts.

Fixpoint detect_loop (previous_rev : Revision) (rest : list Revision)
  (reverts : list QuickRevert) : result (list QuickRevert) :=
  match rest with
  | [] => Ok reverts
  | current_rev :: rest' =>
      reverts' <- detect_step previous_rev current_rev reverts ;;
      detect_loop current_rev rest' reverts'
  end.

Definition detect_reverts_quick (revisions : list Revision)
  : result (list QuickRevert) :=
  match revisions with
  | [] => Ok []
  | first :: rest => detect_loop first rest []
  end.

End Quick.

(** ** EpisodeGrouper

    [EditWarAnalyzer._group_reverts_by_time] reads its two parameters from
    the instance ([self.time_window_hours], [self.revert_threshold]); the
    loops of [EditWarSummary.analyze_edit_war_patterns] and
    [analyze_edit_war_patterns_quick] are the same loop with the literals
    [24] and [3].  The loop only reads the timestamp of a revert, so it is
    written once, over any record that has one. *)

Section Grouping.

Variable R : Type.
Variable time_of : R -> Z.
Variable time_window_hours : Q.
Variable revert_threshold : Z.

(** [if len(current_group) >= threshold: groups.append(current_group)] *)
Definition close_group (current_group : list R) (groups : list (list R))
  : list (list R) :=
  if (revert_threshold <=? Z.of_nat (List.length current_group))%Z
  then groups ++ [current_group]
  else groups.

(** The [for i in range(1, len(reverts))] loop; [prev] is [reverts[i-1]]. *)
Fixpoint group_loop (prev : R) (rest : list R) (current_group : list R)
  (groups : list (list R)) : list (list R) :=
  match rest with
  | [] => close_group current_group groups
  | r :: rest' =>
      let time_diff := hours_between (time_of r) (time_of prev) in
      if Qle_bool time_diff time_window_hours
      then group_loop r rest' (current_group ++ [r]) groups
      else group_loop r rest' [r] (close_group current_group groups)
  end.

Definition _group_reverts_by_time (reverts : list R) : list (list R) :=
  match reverts with
  | [] => []
  | first :: rest => group_loop first rest [first] []
  end.

End Grouping.

Module Summary.

(** The grouping part of [EditWarSummary.analyze_edit_war_patterns] (and of
    [analyze_edit_war_patterns_quick]): [None] is the early [return None]. *)
Definition revert_groups (reverts : list QuickRevert)
  : option (list (list QuickRevert)) :=
  if (List.length reverts <? 3)%nat then None
  else
    match reverts with
    | [] => None
    | first :: rest =>
        match group_loop q_timestamp (24 # 1) 3 first rest [first] [] with
        | [] => None
        | groups => Some groups
        end
    end.

End Summary.

(** ** EpisodeStatistics, [EditWarAnalyzer._analyze_edit_war_group] *)

Definition Qsum (l : list Q) : Q := fold_left Qplus l 0.

(** [numpy.mean], [numpy.median]: on an empty array NumPy answers [nan]
    (with a warning); the rationals have no such value, and the callers
    below never pass an empty list. *)
Definition np_mean (l : list Q) : Q := Qsum l / inject_Z (Z.of_nat (List.length l)).

Fixpoint Qinsert (x : Q) (sorted : list Q) : list Q :=
  match sorted with
  | [] => [x]
  | y :: sorted' => if Qle_bool x y then x :: sorted else y :: Qinsert x sorted'
  end.

Definition Qsort (l : list Q) : list Q := fold_right Qinsert [] l.

Definition np_median (l : list Q) : Q :=
  let s := Qsort l in
  let n := List.length s in
  if Nat.even n
  then (nth (n / 2 - 1) s 0 + nth (n / 2) s 0) / 2
  else nth (n / 2) s 0.

(** The builtins [min] and [max] raise [ValueError] on an empty sequence. *)
Definition py_min (l : list Q) : result Q :=
  match l with
  | [] => Raise ValueError
  | x :: l' => Ok (fold_left (fun m y => if Qlt_bool y m then y else m) l' x)
  end.

Definition py_max (l : list Q) : result Q :=
  match l with
  | [] => Raise ValueError
  | x :: l' => Ok (fold_left (fun m y => if Qlt_bool m y then y else m) l' x)
  end.

(** [a / n] for an integer [n] raises [ZeroDivisionError] when [n] is 0. *)
Definition true_div (a : Q) (n : Z) : result Q :=
  if (n =? 0)%Z then Raise ZeroDivisionError else Ok (a / inject_Z n).

(** [bool(intervals)]: a list is true when it is not empty. *)
Definition truthy {A : Type} (l : list A) : bool :=
  match l with [] => false | _ => true end.

(** [list(set(editors))]; the order of a Python set is unspecified, the
    order of first occurrence is taken here. *)
Fixpoint unique (editors : list string) : list string :=
  match editors with
  | [] => []
  | e :: editors' =>
      e :: filter (fun e' => negb (String.eqb e' e)) (unique editors')
  end.

Section Intervals.

Variable R : Type.
Variable time_of : R -> Z.

(** The interval loop, [for i in range(1, len(revert_group))]. *)
Fixpoint intervals_loop (prev : R) (rest : list R) (intervals : list Q) : list Q :=
  match rest with
  | [] => intervals
  | r :: rest' =>
      let interval := minutes_between (time_of r) (time_of prev) in
      intervals_loop r rest' (intervals ++ [interval])
  end.

Definition intervals_of (revert_group : list R) : list Q :=
  match revert_group with
  | [] => []
  | first :: rest => intervals_loop first rest []
  end.

End Intervals.

Record WarData : Type := mkWarData {
  start_time : Z;
  end_time : Z;
  duration_hours : Q;
  revert_count : nat;
  unique_editors : nat;
  editors : list string;
  avg_interval_minutes : Q;
  median_interval_minutes : Q;
  min_interval_minutes : Q;
  max_interval_minutes : Q
}.

(** [revert_group[0]] raises [IndexError] on an empty group.  The second
    parameter of the method, [all_revisions], is not read by its body. *)
Definition _analyze_edit_war_group (revert_group : list Revert) : result WarData :=
  match revert_group with
  | [] => Raise IndexError
  | first :: _ =>
      let last_revert := last revert_group first in
      let duration := hours_between (rv_timestamp last_revert) (rv_timestamp first) in
      let unique_editors := unique (map rv_user revert_group) in
      let intervals := intervals_of rv_timestamp revert_group in
      let avg := if truthy intervals then np_mean intervals else 0 in
      let median := if truthy intervals then np_median intervals else 0 in
      min_interval <- (if truthy intervals then py_min intervals else Ok 0) ;;
      max_interval <- (if truthy intervals then py_max intervals else Ok 0) ;;
      Ok {| start_time := rv_timestamp first;
            end_time := rv_timestamp last_revert;
            duration_hours := duration;
            revert_count := List.length revert_group;
            unique_editors := List.length unique_editors;
            editors := unique_editors;
            avg_interval_minutes := avg;
            median_interval_minutes := median;
            min_interval_minutes := min_interval;
            max_interval_minutes := max_interval |}
  end.

(** The per-group record of [analyze_edit_war_patterns_quick]; of the
    interval statistics it keeps the mean only, computed with the builtins:
    [sum(intervals) / len(intervals) if intervals else 0]. *)
Record QuickWarData : Type := mkQuickWarData {
  qw_revert_count : nat;
  qw_duration_hours : Q;
  qw_unique_editors : nat;
  qw_editors : list string;
  qw_avg_interval_minutes : Q;
  qw_start_time : Z;
  qw_end_time : Z
}.

Definition quick_war_data (group : list QuickRevert) : result QuickWarData :=
  match group with
  | [] => Raise IndexError
  | first :: _ =>
      let last_revert := last group first in
      let duration := hours_between (q_timestamp last_revert) (q_timestamp first) in
      let users := unique (map q_user group) in
      let intervals := intervals_of q_timestamp group in
      avg <- (if truthy intervals
              then true_div (Qsum intervals) (Z.of_nat (List.length intervals))
              else Ok 0) ;;
      Ok {| qw_revert_count := List.length group;
            qw_duration_hours := duration;
            qw_unique_editors := List.length users;
            qw_editors := users;
            qw_avg_interval_minutes := avg;
            qw_start_time := q_timestamp first;
            qw_end_time := q_timestamp last_revert |}
  end.

(** ** Python dicts in insertion order *)

Section Dict.

Variable V : Type.

Definition dict : Type := list (string * V).

Fixpoint dict_get (d : dict) (k : string) : option V :=
  match d with
  | [] => None
  | (k', v) :: d' => if String.eqb k' k then Some v else dict_get d' k
  end.

(** [d[k] = v]: an existing key keeps its place, a new key goes last. *)
Fixpoint dict_set (d : dict) (k : string) (v : V) : dict :=
  match d with
  | [] => [(k, v)]
  | (k', v') :: d' =>
      if String.eqb k' k then (k', v) :: d' else (k', v') :: dict_set d' k v
  end.

Definition keys (d : dict) : list string := map fst d.
Definition values (d : dict) : list V := map snd d.

End Dict.

(** [counter[k] += 1] on a [collections.Counter] *)
Definition counter_incr (c : dict Z) (k : string) : dict Z :=
  dict_set c k (get_or (dict_get c k) 0 + 1)%Z.

(** [d[k].append(x)] on a [defaultdict(list)] *)
Definition dict_append {A : Type} (d : dict (list A)) (k : string) (x : A)
  : dict (list A) :=
  dict_set d k (get_or (dict_get d k) [] ++ [x]).

Definition Zsum (l : list Z) : Z := fold_left Z.add l 0%Z.

(** ** ParticipationAnalyzer, [EditWarAnalyzer._analyze_editor_participation] *)

Inductive experience : Type := new | intermediate | veteran.

Definition experience_eqb (a b : experience) : bool :=
  match a, b with
  | new, new | intermediate, intermediate | veteran, veteran => true
  | _, _ => false
  end.

Record EditorProfile : Type := mkEditorProfile {
  total_edits : Z;
  reverts : Z;
  experience_level : experience;
  edit_percentage : Q
}.

Record Participation : Type := mkParticipation {
  total_editors : nat;
  editor_breakdown : dict EditorProfile;
  new_editors : nat;
  intermediate_editors : nat;
  veteran_editors : nat
}.

Definition count_edits (revisions : list Revision) : dict Z :=
  fold_left (fun editor_edits rev => counter_incr editor_edits (get_user rev))
            revisions [].

(** The reverts were built by [detect_reverts], which always sets ['user']. *)
Definition count_reverts (reverts : list Revert) : dict Z :=
  fold_left (fun editor_reverts revert => counter_incr editor_reverts (rv_user revert))
            reverts [].

Definition level_of (edit_count : Z) : experience :=
  if (edit_count <? 10)%Z then new
  else if (edit_count <? 100)%Z then intermediate
  else veteran.

Definition profile_of (editor_reverts : dict Z) (total_edits : Z)
  (editor : string) (edit_count : Z) : EditorProfile :=
  {| total_edits := edit_count;
     reverts := get_or (dict_get editor_reverts editor) 0%Z;
     experience_level := level_of edit_count;
     edit_percentage :=
       if (0 <? total_edits)%Z
       then (inject_Z edit_count / inject_Z total_edits) * inject_Z 100
       else 0 |}.

(** [for editor, edit_count in editor_edits.items(): editor_experience[editor] = ...] *)
Definition build_experience (editor_edits editor_reverts : dict Z) (total_edits : Z)
  : dict EditorProfile :=
  fold_left
    (fun editor_experience item =>
       dict_set editor_experience (fst item)
                (profile_of editor_reverts total_edits (fst item) (snd item)))
    editor_edits [].

Definition count_level (lvl : experience) (editor_experience : dict EditorProfile) : nat :=
  List.length
    (filter (fun e => experience_eqb (experience_level e) lvl)
            (values editor_experience)).

Definition _analyze_editor_participation (revisions : list Revision)
  (reverts : list Revert) : Participation :=
  let editor_edits := count_edits revisions in
  let editor_reverts := count_reverts reverts in
  let total_edits := Zsum (values editor_edits) in
  let editor_experience := build_experience editor_edits editor_reverts total_edits in
  {| total_editors := List.length editor_edits;
     editor_breakdown := editor_experience;
     new_editors := count_level new editor_experience;
     intermediate_editors := count_level intermediate editor_experience;
     veteran_editors := count_level veteran editor_experience |}.

(** ** ThreeRevertRuleScanner, [EditWarAnalyzer._detect_three_revert_violations] *)

Record Violation : Type := mkViolation {
  v_user : string;
  v_timestamp : Z;
  v_revert_count : Z;
  v_time_window_hours : Q
}.

Definition group_by_user (revisions : list Revision) : dict (list Revision) :=
  fold_left (fun user_revisions rev => dict_append user_revisions (get_user rev) rev)
            revisions [].

(** [user_revs.sort(key=lambda x: x['timestamp'])]: the keys are computed
    first, a revision without timestamp raises [KeyError]; the sort is
    stable. *)
Fixpoint timestamp_keys (revs : list Revision) : result (list (Z * Revision)) :=
  match revs with
  | [] => Ok []
  | rev :: revs' =>
      k <- subscript "timestamp" (timestamp rev) ;;
      ks <- timestamp_keys revs' ;;
      Ok ((k, rev) :: ks)
  end.

Fixpoint insert_keyed (x : Z * Revision) (sorted : list (Z * Revision))
  : list (Z * Revision) :=
  match sorted with
  | [] => [x]
  | y :: sorted' =>
      if (fst x <=? fst y)%Z then x :: sorted else y :: insert_keyed x sorted'
  end.

Definition sort_keyed (l : list (Z * Revision)) : list (Z * Revision) :=
  fold_right insert_keyed [] l.

Definition sort_by_timestamp (user_revs : list Revision) : result (list Revision) :=
  ks <- timestamp_keys user_revs ;;
  Ok (map snd (sort_keyed ks)).

(** The size test of the scanner: both sizes present and
    [abs(size_i - size_prev) < 100]. *)
Definition revert_like (current_rev previous_rev : Revision) : bool :=
  match size current_rev, size previous_rev with
  | Some current_size, Some previous_size =>
      (Z.abs (current_size - previous_size) <? 100)%Z
  | _, _ => false
  end.

(** The inner loop, [for i in range(1, len(user_revs))]; [Some] is the
    [violations.append(...)] followed by [break]. *)
Fixpoint scan_loop (user : string) (prev : Revision) (rest : list Revision)
  (revert_count : Z) : result (option Violation) :=
  match rest with
  | [] => Ok None
  | current_rev :: rest' =>
      current_time <- subscript "timestamp" (timestamp current_rev) ;;
      prev_time <- subscript "timestamp" (timestamp prev) ;;
      let time_diff := hours_between current_time prev_time in
      let revert_count :=
        if revert_like current_rev prev then (revert_count + 1)%Z else revert_count in
      if Qle_bool time_diff (24 # 1) && (3 <=? revert_count)%Z
      then Ok (Some {| v_user := user;
                       v_timestamp := current_time;
                       v_revert_count := revert_count;
                       v_time_window_hours := time_diff |})
      else scan_loop user current_rev rest' revert_count
  end.

Definition scan_user (user : string) (user_revs : list Revision)
  : result (option Violation) :=
  if (4 <=? List.length user_revs)%nat then
    sorted <- sort_by_timestamp user_revs ;;
    match sorted with
    | [] => Ok None
    | first :: rest => scan_loop user first rest 0%Z
    end
  else Ok None.

(** The outer loop, [for user, user_revs in user_revisions.items()]. *)
Fixpoint scan_users (items : dict (list Revision)) (violations : list Violation)
  : result (list Violation) :=
  match items with
  | [] => Ok violations
  | (user, user_revs) :: items' =>
      found <- scan_user user user_revs ;;
      scan_users items'
        (match found with
         | Some v => violations ++ [v]
         | None => violations
         end)
  end.

Definition _detect_three_revert_violations (revisions : list Revision)
  : result (list Violation) :=
  scan_users (group_by_user revisions) [].

(** * Vocabulary of the properties

    Predicates and reference functions the statements below are written
    with.  They are not part of the program. *)

Section GroupingSpec.

Variable R : Type.
Variable time_of : R -> Z.
Variable time_window_hours : Q.

(** [b] comes right after [a] and its gap to [a] is at most the window. *)
Definition within (a b : R) : Prop :=
  (hours_between (time_of b) (time_of a) <= time_window_hours)%Q.

(** Every two neighbours of [l] are within the window. *)
Definition chained (l : list R) : Prop :=
  forall l1 a b l2, l = l1 ++ a :: b :: l2 -> within a b.

(** If [l1] ends in [a] and [l2] starts with [b], the gap exceeds the window. *)
Definition separated (l1 l2 : list R) : Prop :=
  forall l1' a b l2', l1 = l1' ++ [a] -> l2 = b :: l2' -> ~ within a b.

(** [g] is a maximal run of [reverts]. *)
Definition maximal_run (reverts g : list R) : Prop :=
  exists before after,
    reverts = before ++ g ++ after /\
    g <> [] /\ chained g /\ separated before g /\ separated g after.

End GroupingSpec.

(** ** Sample data *)

Definition sample_revert (t : Z) (editor : string) : Revert :=
  {| rv_timestamp := t; rv_user := editor; rv_comment := "rv"%string;
     rv_size := 1000; rv_revid := 1; rv_parentid := None;
     rv_reverted_to_size := 1000 |}.

(** Reverts at 0h, 1h and 2h by A, B and A. *)
Definition sample_war : list Revert :=
  [sample_revert 0 "A"; sample_revert 3600 "B"; sample_revert 7200 "A"].

(** The same war, followed more than a day later by a lone revert. *)
Definition sample_war_then_one : list Revert :=
  sample_war ++ [sample_revert 180000 "C"].

(** ** Vocabulary of the RevertClassifier claims *)

(** The indicator substrings as the specification lists them. *)
Definition indicator_set : list string :=
  ["revert"; "undo"; "rv"; "rollback"; "restore"; "reverted"]%string.

Definition substring_of (sub s : string) : Prop :=
  exists before after, s = (before ++ sub ++ after)%string.

(** Comment heuristic: the lower-cased comment (the empty string when the
    comment is missing) contains one of the indicators. *)
Definition comment_positive (rev : Revision) : Prop :=
  exists indicator,
    In indicator indicator_set /\
    substring_of indicator (lower (get_comment rev)).

(** Size heuristic, in exact arithmetic: both sizes are present and
    [|size_i - size_prev| / max(size_i, 1) < 1/10]. *)
Definition size_positive (previous_rev current_rev : Revision) : Prop :=
  exists current_size previous_size,
    size current_rev = Some current_size /\
    size previous_rev = Some previous_size /\
    (10 * Z.abs (current_size - previous_size) < Z.max current_size 1)%Z.

(** The pairs [(revisions[i-1], revisions[i])] for [i >= 1], in order. *)
Definition adjacent_pairs (revisions : list Revision) : list (Revision * Revision) :=
  combine revisions (tl revisions).

(** The test under which [EditWarAnalyzer.detect_reverts] reaches its
    [reverts.append]. *)
Definition analyzer_classifies (pair : Revision * Revision) : bool :=
  match size (snd pair), size (fst pair) with
  | Some current_size, Some previous_size =>
      Analyzer.size_similar current_size previous_size && Analyzer.is_revert (snd pair)
  | _, _ => false
  end.

(** The event [ev] was built from the revision [rev]. *)
Definition quick_event_of (rev : Revision) (ev : QuickRevert) : Prop :=
  timestamp rev = Some (q_timestamp ev) /\
  q_user ev = get_user rev /\
  q_comment ev = get_comment rev /\
  q_size ev = get_or (size rev) 0%Z.

Definition event_of (pair : Revision * Revision) (ev : Revert) : Prop :=
  timestamp (snd pair) = Some (rv_timestamp ev) /\
  rv_user ev = get_user (snd pair) /\
  rv_comment ev = get_comment (snd pair) /\
  size (snd pair) = Some (rv_size ev) /\
  revid (snd pair) = Some (rv_revid ev) /\
  rv_parentid ev = parentid (snd pair) /\
  size (fst pair) = Some (rv_reverted_to_size ev).

Definition has_timestamp (rev : Revision) : bool :=
  match timestamp rev with Some _ => true | None => false end.

Definition has_revid (rev : Revision) : bool :=
  match revid rev with Some _ => true | None => false end.

(** The revision of the pair carries the two keys that
    [EditWarAnalyzer.detect_reverts] reads with a subscript. *)
Definition complete_pair (pair : Revision * Revision) : bool :=
  has_timestamp (snd pair) && has_revid (snd pair).

(** The revision of the pair carries a timestamp. *)
Definition pair_has_timestamp (pair : Revision * Revision) : bool :=
  has_timestamp (snd pair).

(** Sample revisions. *)
Definition sample_rev (t : Z) (editor comment : string) (sz : option Z) : Revision :=
  {| timestamp := Some t; user := Some editor; comment := Some comment;
     size := sz; revid := Some 7%Z; parentid := Some 6%Z |}.

(** A matching comment without size data. *)
Definition revs_comment_only : list Revision :=
  [sample_rev 0 "A" "initial text" None;
   sample_rev 60 "B" "Reverted edits by A" None].

(** A matching comment on a revision that doubles the page. *)
Definition revs_size_far : list Revision :=
  [sample_rev 0 "A" "initial text" (Some 1000%Z);
   sample_rev 60 "B" "rv vandalism" (Some 2000%Z)].

(** A matching comment and close sizes. *)
Definition revs_revert : list Revision :=
  [sample_rev 0 "A" "initial text" (Some 1000%Z);
   sample_rev 60 "B" "Undo revision 6" (Some 1001%Z)].

(** The revert event of [revs_revert]. *)
Definition events_of_revs_revert : list Revert :=
  [{| rv_timestamp := 60; rv_user := "B"; rv_comment := "Undo revision 6";
      rv_size := 1001; rv_revid := 7; rv_parentid := Some 6%Z;
      rv_reverted_to_size := 1000 |}].

(** As [revs_revert], the second revision without ['revid']. *)
Definition revs_no_revid : list Revision :=
  [sample_rev 0 "A" "initial text" (Some 1000%Z);
   {| timestamp := Some 60%Z; user := Some "B"%string;
      comment := Some "Undo revision 6"%string; size := Some 1001%Z;
      revid := None; parentid := Some 6%Z |}].

(** An ordinary edit without ['timestamp']. *)
Definition revs_no_timestamp : list Revision :=
  [sample_rev 0 "A" "initial text" (Some 1000%Z);
   {| timestamp := None; user := Some "B"%string;
      comment := Some "typo fix"%string; size := Some 1001%Z;
      revid := Some 8%Z; parentid := Some 7%Z |}].

(** As [revs_revert], the second revision without ['timestamp']. *)
Definition revs_revert_no_timestamp : list Revision :=
  [sample_rev 0 "A" "initial text" (Some 1000%Z);
   {| timestamp := None; user := Some "B"%string;
      comment := Some "Undo revision 6"%string; size := Some 1001%Z;
      revid := Some 7%Z; parentid := Some 6%Z |}].

(** ** Vocabulary of the ParticipationAnalyzer claims *)

(** How often [editor] occurs in a list of editor names. *)
Definition occurrences (editor : string) (names : list string) : Z :=
  Z.of_nat (List.length (filter (String.eqb editor) names)).

(** Number of revisions by [editor], the Anonymous default applied. *)
Definition edits_by (editor : string) (revisions : list Revision) : Z :=
  occurrences editor (map get_user revisions).

(** Number of revert events by [editor]. *)
Definition reverts_by (editor : string) (reverts : list Revert) : Z :=
  occurrences editor (map rv_user reverts).

(** Experience tier as the specification defines it. *)
Definition tier_of (total_edits : Z) (tier : experience) : Prop :=
  match tier with
  | new => (total_edits < 10)%Z
  | intermediate => (10 <= total_edits < 100)%Z
  | veteran => (100 <= total_edits)%Z
  end.


(** ** Vocabulary of the ThreeRevertRuleScanner claims *)

(** The revisions of one editor, in input order. *)
Definition revisions_of (editor : string) (revisions : list Revision) : list Revision :=
  filter (fun rev => String.eqb (get_user rev) editor) revisions.

(** [a] is not later than [b]. *)
Definition not_later (a b : Revision) : Prop :=
  exists ta tb, timestamp a = Some ta /\ timestamp b = Some tb /\ (ta <= tb)%Z.

(** A chronologically ordered sequence: every revision has a timestamp and
    no revision is later than its successor (ties are permitted). *)
Definition chronological (revisions : list Revision) : Prop :=
  Forall (fun rev => has_timestamp rev = true) revisions /\
  forall before a b after, revisions = before ++ a :: b :: after -> not_later a b.

(** The size condition of the scan, in the words of the specification:
    both revisions of the pair carry a size, and the absolute size delta is
    below 100 bytes. *)
Definition size_delta_below_100 (prev cur : Revision) : Prop :=
  exists s_prev s_cur,
    size prev = Some s_prev /\ size cur = Some s_cur /\
    (Z.abs (s_cur - s_prev) < 100)%Z.

(** The same condition on a pair [(prev, cur)], decided. *)
Definition size_delta_below_100b (pair : Revision * Revision) : bool :=
  match size (fst pair), size (snd pair) with
  | Some s_prev, Some s_cur => (Z.abs (s_cur - s_prev) <? 100)%Z
  | _, _ => false
  end.

(** The value of a counter that starts at 0, is incremented at every
    neighbouring pair of [revs] that meets the size condition, and is never
    reset: the number of such pairs. *)
Definition similar_pairs (revs : list Revision) : Z :=
  Z.of_nat (List.length (filter size_delta_below_100b (adjacent_pairs revs))).

(** The pair [(prev, cur)], which follows the revisions [before] of the same
    editor, meets the condition of the scanner: the gap between the two is
    at most 24 hours, i.e. at most 86400 seconds, and the running counter
    has reached 3. *)
Definition fires (before : list Revision) (prev cur : Revision) : Prop :=
  exists t_prev t_cur,
    timestamp prev = Some t_prev /\ timestamp cur = Some t_cur /\
    (t_cur - t_prev <= 24 * 3600)%Z /\
    (3 <= similar_pairs (before ++ [prev; cur]))%Z.

(** The violation record of the pair [(prev, cur)]: the editor, the timestamp
    of [cur], the value of the running counter and the gap in hours, the
    seconds between the two timestamps over 3600. *)
Definition violation_at (editor : string) (before : list Revision)
  (prev cur : Revision) (v : Violation) : Prop :=
  exists t_prev t_cur,
    timestamp prev = Some t_prev /\ timestamp cur = Some t_cur /\
    v = {| v_user := editor;
           v_timestamp := t_cur;
           v_revert_count := similar_pairs (before ++ [prev; cur]);
           v_time_window_hours := (t_cur - t_prev) # 3600 |}.

(** [v] is the violation of the first pair of [revs] that fires. *)
Definition first_violation (editor : string) (revs : list Revision) (v : Violation)
  : Prop :=
  exists before prev cur after,
    revs = before ++ prev :: cur :: after /\
    fires before prev cur /\
    violation_at editor before prev cur v /\
    forall before' prev' cur' after',
      revs = before' ++ prev' :: cur' :: after' ->
      (List.length before' < List.length before)%nat ->
      ~ fires before' prev' cur'.

(** Some pair of [revs] fires. *)
Definition some_pair_fires (revs : list Revision) : Prop :=
  exists before prev cur after,
    revs = before ++ prev :: cur :: after /\ fires before prev cur.

(** The violations found in the entries of [user_revisions], in order. *)
Definition found_in (items : dict (list Revision)) : list Violation :=
  flat_map (fun item =>
              match scan_user (fst item) (snd item) with
              | Ok (Some v) => [v]
              | _ => []
              end) items.

(** The sort key of a revision that has a timestamp. *)
Definition keyed (rev : Revision) : Z * Revision := (get_or (timestamp rev) 0%Z, rev).

(** A decision procedure for [chronological]. *)
Fixpoint ascendingb (revisions : list Revision) : bool :=
  match revisions with
  | a :: (b :: _) as revisions' =>
      match timestamp a, timestamp b with
      | Some ta, Some tb => (ta <=? tb)%Z
      | _, _ => false
      end && ascendingb revisions'
  | _ => true
  end.

Definition chronologicalb (revisions : list Revision) : bool :=
  forallb has_timestamp revisions && ascendingb revisions.

(** Five edits of one editor, an hour apart, each five bytes longer, among
    three edits of somebody else. *)
Definition sample_history : list Revision :=
  [sample_rev 0 "A" "start" (Some 1000%Z);
   sample_rev 1800 "B" "copyedit" (Some 5000%Z);
   sample_rev 3600 "A" "more" (Some 1005%Z);
   sample_rev 7200 "A" "more" (Some 1010%Z);
   sample_rev 9000 "B" "copyedit" (Some 5400%Z);
   sample_rev 10800 "A" "more" (Some 1015%Z);
   sample_rev 12600 "B" "copyedit" (Some 5800%Z);
   sample_rev 14400 "A" "more" (Some 1020%Z)].


(** * The callers of the engine

    The functions below fetch the revisions of a page over HTTP.  The fetch
    ([get_page_revisions], [get_page_revisions_quick]) wraps the request in
    [try/except] and answers a list, empty on any failure; it is a parameter
    here, as is the clock read by [datetime.now()]. *)

(** [ys = []; for x in xs: ys.append(f(x))], with [f] fallible. *)
Fixpoint mapM {A B : Type} (f : A -> result B) (l : list A) : result (list B) :=
  match l with
  | [] => Ok []
  | x :: l' =>
      y <- f x ;;
      ys <- mapM f l' ;;
      Ok (y :: ys)
  end.

(** ** [EditWarAnalyzer.detect_edit_wars] *)

Record EditWarData : Type := mkEditWarData {
  page_title : string;
  total_revisions : nat;
  total_reverts : nat;
  revert_rate : Q;
  edit_wars : list WarData;
  revert_intervals : list Q;
  editor_participation : Participation;
  three_revert_violations : list Violation
}.

Section DetectEditWars.

Variable get_page_revisions : string -> list Revision.
Variable revert_threshold : Z.
Variable time_window_hours : Q.

(** The body of [if len(reverts) >= self.revert_threshold:]; a group is
    analysed only if it passes the test on its length once more. *)
Fixpoint analyze_groups (revert_groups : list (list Revert)) (wars : list WarData)
  : result (list WarData) :=
  match revert_groups with
  | [] => Ok wars
  | group :: revert_groups' =>
      if (revert_threshold <=? Z.of_nat (List.length group))%Z then
        war_data <- _analyze_edit_war_group group ;;
        analyze_groups revert_groups' (wars ++ [war_data])
      else analyze_groups revert_groups' wars
  end.

(** [None] is the empty dict returned for a page without revisions. *)
Definition detect_edit_wars (title : string) : result (option EditWarData) :=
  let revisions := get_page_revisions title in
  if negb (truthy revisions) then Ok None
  else
    reverts <- Analyzer.detect_reverts revisions ;;
    rate <- (if truthy revisions
             then true_div (inject_Z (Z.of_nat (List.length reverts)))
                           (Z.of_nat (List.length revisions))
             else Ok 0) ;;
    wars <- (if (revert_threshold <=? Z.of_nat (List.length reverts))%Z
             then analyze_groups
                    (_group_reverts_by_time rv_timestamp time_window_hours
                                            revert_threshold reverts) []
             else Ok []) ;;
    let participation := _analyze_editor_participation revisions reverts in
    violations <- _detect_three_revert_violations revisions ;;
    Ok (Some {| page_title := title;
                total_revisions := List.length revisions;
                total_reverts := List.length reverts;
                revert_rate := rate;
                edit_wars := wars;
                revert_intervals := [];
                editor_participation := participation;
                three_revert_violations := violations |}).

End DetectEditWars.

(** ** [analyze_edit_war_patterns_quick], [EditWarSummary.analyze_edit_war_patterns]

    The two functions differ in the limit they pass to the fetch. *)

Record QuickAnalysis : Type := mkQuickAnalysis {
  qa_title : string;
  qa_total_revisions : nat;
  qa_total_reverts : nat;
  qa_revert_rate : Q;
  qa_edit_wars : list QuickWarData;
  qa_unique_editors : nat
}.

Section QuickPatterns.

Variable get_page_revisions_quick : string -> list Revision.

Definition analyze_edit_war_patterns_quick (title : string)
  : result (option QuickAnalysis) :=
  let revisions := get_page_revisions_quick title in
  if negb (truthy revisions) then Ok None
  else
    reverts <- Quick.detect_reverts_quick revisions ;;
    let revert_users := map q_user reverts in
    match Summary.revert_groups reverts with
    | None => Ok None
    | Some revert_groups =>
        wars <- mapM quick_war_data revert_groups ;;
        rate <- true_div (inject_Z (Z.of_nat (List.length reverts)))
                         (Z.of_nat (List.length revisions)) ;;
        Ok (Some {| qa_title := title;
                    qa_total_revisions := List.length revisions;
                    qa_total_reverts := List.length reverts;
                    qa_revert_rate := rate;
                    qa_edit_wars := wars;
                    qa_unique_editors := List.length (unique revert_users) |})
    end.

End QuickPatterns.

(** ** [detect_three_revert_violations_quick] *)

Record QuickViolation : Type := mkQuickViolation {
  qv_article : string;
  qv_editor : string;
  qv_revert_count : Z;
  qv_time_window : Q
}.

(** [Counter(names)] *)
Definition Counter (names : list string) : dict Z := fold_left counter_incr names [].

(** [for editor, count in editor_revert_counts.items(): if count >= 3: ...] *)
Definition war_violations (article : QuickAnalysis) (war : QuickWarData)
  (violations : list QuickViolation) : list QuickViolation :=
  let editor_revert_counts := Counter (qw_editors war) in
  fold_left
    (fun violations item =>
       if (3 <=? snd item)%Z
       then violations ++ [{| qv_article := qa_title article;
                              qv_editor := fst item;
                              qv_revert_count := snd item;
                              qv_time_window := qw_duration_hours war |}]
       else violations)
    editor_revert_counts violations.

Definition detect_three_revert_violations_quick (contested_articles : list QuickAnalysis)
  : list QuickViolation :=
  fold_left
    (fun violations article =>
       fold_left (fun violations war => war_violations article war violations)
                 (qa_edit_wars article) violations)
    contested_articles [].

(** ** [analyze_editor_behavior_quick] *)

(** [sorted(items, key=count, reverse=True)]: descending and stable. *)
Fixpoint insert_by_count (x : string * Z) (sorted : list (string * Z))
  : list (string * Z) :=
  match sorted with
  | [] => [x]
  | y :: sorted' =>
      if (snd y <=? snd x)%Z then x :: sorted else y :: insert_by_count x sorted'
  end.

(** [counter.most_common(n)], which is [heapq.nlargest(n, items, key=count)],
    the first [n] items of the descending stable sort. *)
Definition most_common (n : nat) (counter : dict Z) : dict Z :=
  firstn n (fold_right insert_by_count [] counter).

Record EditorBehavior : Type := mkEditorBehavior {
  eb_total_unique_editors : nat;
  eb_new_editors : nat;
  eb_repeat_editors : nat;
  eb_most_active_editors : dict Z;
  eb_editor_revert_counts : dict Z
}.

(** The two nested loops; the state is [(all_editors, editor_reverts)]. *)
Definition collect_editors (contested_articles : list QuickAnalysis)
  : list string * dict Z :=
  fold_left
    (fun state article =>
       fold_left
         (fun state war =>
            (fst state ++ qw_editors war,
             fold_left counter_incr (qw_editors war) (snd state)))
         (qa_edit_wars article) state)
    contested_articles ([], []).

Definition analyze_editor_behavior_quick (contested_articles : list QuickAnalysis)
  : EditorBehavior :=
  let state := collect_editors contested_articles in
  let all_editors := fst state in
  let editor_reverts := snd state in
  let editor_counts := Counter all_editors in
  {| eb_total_unique_editors := List.length editor_counts;
     eb_new_editors :=
       List.length (filter (fun e => (e =? 1)%Z) (values editor_counts));
     eb_repeat_editors :=
       List.length (filter (fun e => (1 <? e)%Z) (values editor_counts));
     eb_most_active_editors := most_common 5 editor_counts;
     eb_editor_revert_counts := most_common 5 editor_reverts |}.

(** ** [EditWarAnalyzer.get_talk_page_activity] *)

Inductive activity : Type := activity_low | activity_medium | activity_high.

(** The two shapes of the answer: [{'has_talk_page': False, 'activity_level':
    'none'}], or the full record. *)
Inductive TalkActivity : Type :=
| NoTalkPage
| TalkPage (talk_total_revisions : nat) (recent_activity : Z)
           (activity_level : activity) (last_edit : Z).

Section TalkPage.

Variable get_page_revisions : string -> list Revision.
(** [clock k] is the reading of [datetime.now()] in the [k]-th iteration,
    in seconds. *)
Variable clock : nat -> Z.

(** [(now - rev_time).days <= 30]; [timedelta.days] rounds down. *)
Fixpoint recent_loop (k : nat) (revs : list Revision) (recent_activity : Z)
  : result Z :=
  match revs with
  | [] => Ok recent_activity
  | rev :: revs' =>
      rev_time <- subscript "timestamp" (timestamp rev) ;;
      let days := ((clock k - rev_time) / 86400)%Z in
      recent_loop (S k) revs'
        (if (days <=? 30)%Z then (recent_activity + 1)%Z else recent_activity)
  end.

(** [talk_revisions[-10:]] *)
Definition last_ten {A : Type} (l : list A) : list A :=
  skipn (List.length l - 10) l.

Definition get_talk_page_activity (title : string) : result TalkActivity :=
  let talk_title := ("Talk:" ++ title)%string in
  let talk_revisions := get_page_revisions talk_title in
  match talk_revisions with
  | [] => Ok NoTalkPage
  | first :: _ =>
      recent_activity <- recent_loop 0 (last_ten talk_revisions) 0%Z ;;
      let activity_level :=
        if (5 <=? recent_activity)%Z then activity_high
        else if (2 <=? recent_activity)%Z then activity_medium
        else activity_low in
      last_edit <- subscript "timestamp" (timestamp (last talk_revisions first)) ;;
      Ok (TalkPage (List.length talk_revisions) recent_activity activity_level
                   last_edit)
  end.

End TalkPage.

(** ** Vocabulary of the further properties *)

(** The test of [close_group] on a finished group. *)
Definition long_enough {R : Type} (revert_threshold : Z) (g : list R) : bool :=
  (revert_threshold <=? Z.of_nat (List.length g))%Z.

(** The timestamp of a revision, 0 when it is missing. *)
Definition time_or_zero (rev : Revision) : Z := get_or (timestamp rev) 0%Z.

(** A page on which three reverts follow each other within three hours. *)
Definition sample_contested : list Revision :=
  [sample_rev 0 "A" "start" (Some 1000%Z);
   sample_rev 3600 "B" "rv unsourced" (Some 900%Z);
   sample_rev 7200 "A" "Undo revision by B" (Some 1000%Z);
   sample_rev 10800 "B" "revert again" (Some 900%Z)].

(** A page of stable size on which three reverts follow each other, an hour
    apart: every revert is within a byte of the revision before it, so both
    classifiers find all three. *)
Definition sample_revert_chain : list Revision :=
  [sample_rev 0 "A" "start" (Some 1000%Z);
   sample_rev 3600 "B" "rv unsourced" (Some 1001%Z);
   sample_rev 5400 "C" "copyedit" (Some 1002%Z);
   sample_rev 7200 "A" "Undo revision by B" (Some 1001%Z);
   sample_rev 10800 "B" "revert again" (Some 1000%Z)].

(** The editors named by the wars of the articles, in order. *)
Definition war_editors (contested_articles : list QuickAnalysis) : list string :=
  flat_map (fun article => flat_map qw_editors (qa_edit_wars article))
           contested_articles.

(** ** [find_contested_articles_quick], [EditWarAnalyzer.find_contested_articles]

    Both functions ask the API for random pages inside a [try] whose
    [except Exception] only prints: any exception raised in the loop ends the
    loop, and the articles collected so far are sorted and returned.  The
    parameter [pages] is the list [data['query']['random']], each page given
    by its ['title'] entry if it has one; when the request fails the loop is
    not entered, which is the case of an empty list. *)

Section SortDescending.

Variable A : Type.
Variable key : A -> Q.

(** [l.sort(key=key, reverse=True)]: descending, and stable also when
    reversed. *)
Fixpoint insert_desc (x : A) (sorted : list A) : list A :=
  match sorted with
  | [] => [x]
  | y :: sorted' =>
      if Qle_bool (key y) (key x) then x :: sorted else y :: insert_desc x sorted'
  end.

Definition sort_desc (l : list A) : list A := fold_right insert_desc [] l.

End SortDescending.

Section ContestedQuick.

Variable get_page_revisions_quick : string -> list Revision.

(** One iteration of [for page in pages:], up to the [append]. *)
Definition contested_step (page : option string) (contested : list QuickAnalysis)
  : result (list QuickAnalysis) :=
  title <- subscript "title" page ;;
  analysis <- analyze_edit_war_patterns_quick get_page_revisions_quick title ;;
  match analysis with
  | Some a => if truthy (qa_edit_wars a) then Ok (contested ++ [a]) else Ok contested
  | None => Ok contested
  end.

(** The loop with its [break] at ten articles; [Raise] leaves it through the
    [except] clause. *)
Fixpoint contested_loop (pages : list (option string)) (contested : list QuickAnalysis)
  : list QuickAnalysis :=
  match pages with
  | [] => contested
  | page :: pages' =>
      match contested_step page contested with
      | Raise _ => contested
      | Ok contested' =>
          if (10 <=? List.length contested')%nat then contested'
          else contested_loop pages' contested'
      end
  end.

Definition find_contested_articles_quick (pages : list (option string))
  : list QuickAnalysis :=
  sort_desc qa_revert_rate (contested_loop pages []).

End ContestedQuick.

Record ContestedArticle : Type := mkContestedArticle {
  ca_title : string;
  ca_edit_wars : list WarData;
  ca_total_reverts : nat;
  ca_revert_rate : Q;
  ca_editor_participation : Participation;
  ca_three_revert_violations : list Violation;
  ca_protected : bool;
  ca_talk_activity : TalkActivity
}.

Section Contested.

Variable get_page_revisions : string -> list Revision.
Variable revert_threshold : Z.
Variable time_window_hours : Q.
(** The ['protected'] entry of [get_page_protection_status], which catches
    every exception itself. *)
Variable page_protected : string -> bool.
(** The clock during the analysis of a page. *)
Variable clock : string -> nat -> Z.

(** One iteration; [edit_war_data.get('edit_wars')] is false for the empty
    answer and for an empty list. *)
Definition analyzer_contested_step (page : option string)
  (contested : list ContestedArticle) : result (list ContestedArticle) :=
  title <- subscript "title" page ;;
  edit_war_data <- detect_edit_wars get_page_revisions revert_threshold
                                    time_window_hours title ;;
  match edit_war_data with
  | Some data =>
      if truthy (edit_wars data) then
        let protected := page_protected title in
        talk_activity <- get_talk_page_activity get_page_revisions (clock title) title ;;
        Ok (contested ++
            [{| ca_title := title;
                ca_edit_wars := edit_wars data;
                ca_total_reverts := total_reverts data;
                ca_revert_rate := revert_rate data;
                ca_editor_participation := editor_participation data;
                ca_three_revert_violations := three_revert_violations data;
                ca_protected := protected;
                ca_talk_activity := talk_activity |}])
      else Ok contested
  | None => Ok contested
  end.

Fixpoint analyzer_contested_loop (pages : list (option string))
  (contested : list ContestedArticle) : list ContestedArticle :=
  match pages with
  | [] => contested
  | page :: pages' =>
      match analyzer_contested_step page contested with
      | Raise _ => contested
      | Ok contested' => analyzer_contested_loop pages' contested'
      end
  end.

Definition find_contested_articles (pages : list (option string))
  : list ContestedArticle :=
  sort_desc ca_revert_rate (analyzer_contested_loop pages []).

End Contested.

(** An article found by [find_contested_articles_quick]: the analysis of one
    of the pages, with at least one edit war. *)
Definition quick_found (get_page_revisions_quick : string -> list Revision)
  (pages : list (option string)) (article : QuickAnalysis) : Prop :=
  qa_edit_wars article <> [] /\
  exists title,
    In (Some title) pages /\
    analyze_edit_war_patterns_quick get_page_revisions_quick title
    = Ok (Some article).

(** An article found by [EditWarAnalyzer.find_contested_articles]: it is
    assembled from the answers of [detect_edit_wars],
    [get_page_protection_status] and [get_talk_page_activity] for one of
    the pages, and it has at least one edit war. *)
Definition analyzer_found (get_page_revisions : string -> list Revision)
  (revert_threshold : Z) (time_window_hours : Q) (page_protected : string -> bool)
  (clock : string -> nat -> Z) (pages : list (option string))
  (article : ContestedArticle) : Prop :=
  ca_edit_wars article <> [] /\
  exists data,
    In (Some (ca_title article)) pages /\
    detect_edit_wars get_page_revisions revert_threshold time_window_hours
                     (ca_title article) = Ok (Some data) /\
    ca_edit_wars article = edit_wars data /\
    ca_total_reverts article = total_reverts data /\
    ca_revert_rate article = revert_rate data /\
    ca_editor_participation article = editor_participation data /\
    ca_three_revert_violations article = three_revert_violations data /\
    ca_protected article = page_protected (ca_title article) /\
    get_talk_page_activity get_page_revisions (clock (ca_title article))
                           (ca_title article)
    = Ok (ca_talk_activity article).

(** ** [EditWarAnalyzer.generate_edit_war_report] *)

Record OverallStatistics : Type := mkOverallStatistics {
  articles_analyzed : nat;
  articles_with_edit_wars : nat;
  total_edit_wars : nat;
  os_total_reverts : nat;
  total_three_revert_violations : nat;
  avg_reverts_per_article : Q;
  avg_edit_wars_per_article : Q
}.

Record EditorBehaviorPatterns : Type := mkEditorBehaviorPatterns {
  total_unique_editors : nat;
  most_active_editors : dict Z;
  single_war : nat;
  multiple_wars : nat
}.

Record ProtectionAnalysis : Type := mkProtectionAnalysis {
  protected_articles : nat;
  protection_rate : Q
}.

Record TalkPageCorrelation : Type := mkTalkPageCorrelation {
  articles_with_talk_activity : nat;
  talk_activity_rate : Q
}.

(** The four dictionaries that the report fills when there are contested
    articles; they stay empty otherwise. *)
Record ReportStatistics : Type := mkReportStatistics {
  overall_statistics : OverallStatistics;
  editor_behavior_patterns : EditorBehaviorPatterns;
  protection_analysis : ProtectionAnalysis;
  talk_page_correlation : TalkPageCorrelation
}.

Record Report : Type := mkReport {
  report_timestamp : string;
  analysis_parameters : Z * Q * Z;
  contested_articles : list ContestedArticle;
  report_statistics : option ReportStatistics
}.

(** [article['talk_activity']['activity_level'] in ['high', 'medium']] *)
Definition talk_active (article : ContestedArticle) : bool :=
  match ca_talk_activity article with
  | NoTalkPage => false
  | TalkPage _ _ activity_high _ => true
  | TalkPage _ _ activity_medium _ => true
  | TalkPage _ _ activity_low _ => false
  end.

(** [x / len(contested) if contested else 0] *)
Definition guarded_mean (x : nat) (contested : list ContestedArticle) : result Q :=
  if truthy contested
  then true_div (inject_Z (Z.of_nat x)) (Z.of_nat (List.length contested))
  else Ok 0.

(** [(x / len(contested)) * 100 if contested else 0] *)
Definition guarded_rate (x : nat) (contested : list ContestedArticle) : result Q :=
  if truthy contested
  then q <- true_div (inject_Z (Z.of_nat x)) (Z.of_nat (List.length contested)) ;;
       Ok (q * 100)
  else Ok 0.

(** The editors named by the edit wars of the articles, in order. *)
Definition report_editors (contested : list ContestedArticle) : list string :=
  flat_map (fun article => flat_map editors (ca_edit_wars article)) contested.

(** The body of [if contested_articles:]. *)
Definition compute_statistics (contested : list ContestedArticle)
  : result ReportStatistics :=
  let wars_total := list_sum (map (fun article => List.length (ca_edit_wars article))
                                  contested) in
  let reverts_total := list_sum (map ca_total_reverts contested) in
  let violations_total :=
    list_sum (map (fun article => List.length (ca_three_revert_violations article))
                  contested) in
  let all_editors :=
    fold_left (fun all_editors article =>
                 fold_left (fun all_editors war => all_editors ++ editors war)
                           (ca_edit_wars article) all_editors)
              contested [] in
  let editor_counts := Counter all_editors in
  let protected_count := List.length (filter ca_protected contested) in
  let talk_active_count := List.length (filter talk_active contested) in
  avg_reverts <- guarded_mean reverts_total contested ;;
  avg_wars <- guarded_mean wars_total contested ;;
  prot_rate <- guarded_rate protected_count contested ;;
  talk_rate <- guarded_rate talk_active_count contested ;;
  Ok {| overall_statistics :=
          {| articles_analyzed := List.length contested;
             articles_with_edit_wars :=
               List.length (filter (fun a => truthy (ca_edit_wars a)) contested);
             total_edit_wars := wars_total;
             os_total_reverts := reverts_total;
             total_three_revert_violations := violations_total;
             avg_reverts_per_article := avg_reverts;
             avg_edit_wars_per_article := avg_wars |};
        editor_behavior_patterns :=
          {| total_unique_editors := List.length editor_counts;
             most_active_editors := most_common 10 editor_counts;
             single_war :=
               List.length (filter (fun e => (e =? 1)%Z) (values editor_counts));
             multiple_wars :=
               List.length (filter (fun e => (1 <? e)%Z) (values editor_counts)) |};
        protection_analysis :=
          {| protected_articles := protected_count;
             protection_rate := prot_rate |};
        talk_page_correlation :=
          {| articles_with_talk_activity := talk_active_count;
             talk_activity_rate := talk_rate |} |}.

Section Report.

Variable get_page_revisions : string -> list Revision.
Variable revert_threshold : Z.
Variable time_window_hours : Q.
Variable min_editors : Z.
Variable page_protected : string -> bool.
Variable clock : string -> nat -> Z.
(** [datetime.now().isoformat()] *)
Variable now_isoformat : string.

Definition generate_edit_war_report (pages : list (option string)) : result Report :=
  let contested :=
    find_contested_articles get_page_revisions revert_threshold time_window_hours
                            page_protected clock pages in
  statistics <- (if truthy contested
                 then s <- compute_statistics contested ;; Ok (Some s)
                 else Ok None) ;;
  Ok {| report_timestamp := now_isoformat;
        analysis_parameters := (revert_threshold, time_window_hours, min_editors);
        contested_articles := contested;
        report_statistics := statistics |}.

End Report.
(** * Properties *)

(** ** EpisodeGrouper: emitted groups are maximal runs of sufficient size *)

Section GroupingFacts.

Variable R : Type.
Variable tm : R -> Z.
Variable win : Q.
Variable thr : Z.


Lemma chained_single (r : R) : chained tm win [r].
Proof.
  intros l1 a b l2 E.
  destruct l1 as [|x [|y l1]]; simpl in E; discriminate.
Qed.

Lemma chained_snoc (l : list R) (a b : R) :
  chained tm win (l ++ [a]) -> within tm win a b -> chained tm win ((l ++ [a]) ++ [b]).
Proof.
  intros Hc Hab l1 x y l2 E.
  induction l2 as [|z l2 _] using rev_ind.
  - change (l1 ++ [x; y]) with (l1 ++ [x] ++ [y]) in E.
    rewrite app_assoc in E.
    apply app_inj_tail in E as [E ->].
    apply app_inj_tail in E as [_ ->].
    exact Hab.
  - apply (Hc l1 x y l2).
    change (l1 ++ x :: y :: l2 ++ [z]) with (l1 ++ (x :: y :: l2) ++ [z]) in E.
    rewrite app_assoc in E.
    apply app_inj_tail in E as [E _].
    exact E.
Qed.

Lemma separated_nil_r (l : list R) : separated tm win l [].
Proof. intros l1' a b l2' _ E. discriminate. Qed.

Lemma separated_grow (before l : list R) (a b : R) :
  separated tm win before (l ++ [a]) -> separated tm win before ((l ++ [a]) ++ [b]).
Proof.
  intros Hs l1' x y l2' E1 E2.
  destruct l as [|h l]; simpl in E2; injection E2 as <- _;
    eapply Hs; eauto; reflexivity.
Qed.

Lemma separated_end (before l : list R) (a b : R) (after : list R) :
  ~ within tm win a b -> separated tm win (before ++ l ++ [a]) (b :: after).
Proof.
  intros Hn l1' x y l2' E1 E2.
  injection E2 as <- _.
  rewrite app_assoc in E1.
  apply app_inj_tail in E1 as [_ <-].
  exact Hn.
Qed.

Lemma within_reflect (a b : R) :
  Qle_bool (hours_between (tm b) (tm a)) win = true
  <-> within tm win a b.
Proof. apply Qle_bool_iff. Qed.

Lemma In_close_group (current_group : list R) (groups : list (list R)) (g : list R) :
  In g (close_group thr current_group groups) ->
  In g groups \/
  (g = current_group /\ (thr <= Z.of_nat (List.length g))%Z).
Proof.
  unfold close_group.
  destruct (thr <=? Z.of_nat (List.length current_group))%Z eqn:E.
  - intros H. apply in_app_or in H as [H | [H | []]]; [now left|].
    right. subst g. split; [reflexivity|]. now apply Z.leb_le.
  - now left.
Qed.

(** The loop invariant: [before] has been dealt with, [cur ++ [prev]] is the
    open group, [rest] is still to come. *)
Lemma group_loop_invariant (rest : list R) :
  forall (prev : R) (cur : list R) (groups : list (list R)) (before : list R),
    chained tm win (cur ++ [prev]) ->
    separated tm win before (cur ++ [prev]) ->
    forall g,
      In g (group_loop tm win thr
                       prev rest (cur ++ [prev]) groups) ->
      In g groups \/
      ((thr <= Z.of_nat (List.length g))%Z /\
       exists b' a',
         before ++ (cur ++ [prev]) ++ rest = b' ++ g ++ a' /\
         g <> [] /\ chained tm win g /\ separated tm win b' g /\ separated tm win g a').
Proof.
  induction rest as [|r rest IH]; intros prev cur groups before Hc Hs g Hin.
  - simpl in Hin. apply In_close_group in Hin as [Hin | [-> Hlen]]; [now left|].
    right. split; [exact Hlen|].
    exists before, []. repeat split; auto using separated_nil_r.
    now destruct cur.
  - simpl in Hin.
    destruct (Qle_bool (hours_between (tm r) (tm prev)) win)
      eqn:E.
    + apply within_reflect in E.
      apply (IH r (cur ++ [prev]) groups before) in Hin.
      * destruct Hin as [Hin | [Hlen (b' & a' & Heq & Hrest)]]; [now left|].
        right. split; [exact Hlen|]. exists b', a'. split; [|exact Hrest].
        rewrite <- Heq. now rewrite <- !app_assoc.
      * now apply chained_snoc.
      * now apply separated_grow.
    + assert (Hn : ~ within tm win prev r).
      { intros H. apply within_reflect in H. congruence. }
      apply (IH r [] (close_group thr (cur ++ [prev]) groups)
                (before ++ cur ++ [prev])) in Hin.
      * destruct Hin as [Hin | [Hlen (b' & a' & Heq & Hrest)]].
        -- apply In_close_group in Hin as [Hin | [-> Hlen]]; [now left|].
           right. split; [exact Hlen|].
           exists before, (r :: rest). repeat split; auto.
           ++ now destruct cur.
           ++ intros l1' x y l2' E1 E2. injection E2 as <- _.
              apply app_inj_tail in E1 as [_ <-]. exact Hn.
        -- right. split; [exact Hlen|]. exists b', a'. split; [|exact Hrest].
           rewrite <- Heq. simpl. now rewrite <- !app_assoc.
      * apply chained_single.
      * now apply separated_end.
Qed.

Lemma group_reverts_spec (reverts g : list R) :
  In g (_group_reverts_by_time tm win thr reverts) ->
  (thr <= Z.of_nat (List.length g))%Z /\ maximal_run tm win reverts g.
Proof.
  destruct reverts as [|first rest]; simpl; [intros []|].
  intros Hin.
  apply group_loop_invariant with (cur := []) (before := []) in Hin.
  - destruct Hin as [[] | [Hlen Hrun]]. split; [exact Hlen|exact Hrun].
  - apply chained_single.
  - intros l1' a b l2' E. now destruct l1'.
Qed.

Lemma maximal_run_length (reverts g : list R) :
  maximal_run tm win reverts g -> (List.length g <= List.length reverts)%nat.
Proof.
  intros (b & a & -> & _). rewrite !length_app. lia.
Qed.

End GroupingFacts.

(** ** Claims on EpisodeGrouper *)

Lemma summary_groups_inv (reverts : list QuickRevert) (groups : list (list QuickRevert)) :
  Summary.revert_groups reverts = Some groups ->
  groups = _group_reverts_by_time q_timestamp (24 # 1) 3 reverts.
Proof.
  unfold Summary.revert_groups.
  destruct (List.length reverts <? 3)%nat; [discriminate|].
  destruct reverts as [|first rest]; [discriminate|].
  simpl. destruct (group_loop _ _ _ _ _ _ _); [discriminate|].
  now intros [= <-].
Qed.

(** C2. Minimum-size invariant of EpisodeGrouper: for every window and
    threshold, every group emitted by [_group_reverts_by_time] has at least
    [min_reverts] members; when the input has fewer than [min_reverts]
    reverts, or none at all, nothing is emitted, whatever the timestamps are.
    The loop of [EditWarSummary.analyze_edit_war_patterns], with its literals
    24 and 3, obeys the same invariant ([None] is its empty answer). *)
Theorem C2_minimum_size :
  forall (window_hours : Q) (min_reverts : Z)
         (reverts : list Revert) (quick_reverts : list QuickRevert),
    (forall g,
        In g (_group_reverts_by_time rv_timestamp window_hours min_reverts reverts) ->
        (min_reverts <= Z.of_nat (List.length g))%Z) /\
    ((Z.of_nat (List.length reverts) < min_reverts)%Z ->
     _group_reverts_by_time rv_timestamp window_hours min_reverts reverts = []) /\
    _group_reverts_by_time rv_timestamp window_hours min_reverts [] = [] /\
    (forall groups g,
        Summary.revert_groups quick_reverts = Some groups ->
        In g groups -> (3 <= List.length g)%nat) /\
    ((List.length quick_reverts < 3)%nat ->
     Summary.revert_groups quick_reverts = None).
Proof.
  intros window_hours min_reverts reverts quick_reverts.
  split; [|split; [|split; [|split]]].
  - intros g Hin. now apply group_reverts_spec in Hin.
  - intros Hlt.
    destruct (_group_reverts_by_time _ _ _ reverts) as [|g gs] eqn:E; [reflexivity|].
    assert (Hin : In g (_group_reverts_by_time rv_timestamp window_hours
                                              min_reverts reverts))
      by (rewrite E; now left).
    apply group_reverts_spec in Hin as [Hlen Hrun].
    apply maximal_run_length in Hrun. lia.
  - reflexivity.
  - intros groups g Hsome Hin.
    apply summary_groups_inv in Hsome. subst groups.
    apply group_reverts_spec in Hin as [Hlen _]. lia.
  - intros Hlt. unfold Summary.revert_groups.
    apply Nat.ltb_lt in Hlt. now rewrite Hlt.
Qed.

Lemma C2_witness :
  (3 <= Z.of_nat (List.length sample_war))%Z /\
  _group_reverts_by_time rv_timestamp (24 # 1) 5 sample_war = [].
Proof.
  destruct (C2_minimum_size (24 # 1) 3 sample_war []) as [Hmin _].
  destruct (C2_minimum_size (24 # 1) 5 sample_war []) as (_ & Hfew & _).
  split.
  - apply Hmin. vm_compute. left. reflexivity.
  - apply Hfew. vm_compute. reflexivity.
Defined.

(** The examples of the specification: the comparison is inclusive, it
    looks at the previous revert and not at the start of the group, and a
    gap beyond the window splits. *)
Example gap_equal_to_window_stays :
  _group_reverts_by_time rv_timestamp (24 # 1) 2
    [sample_revert 0 "A"; sample_revert 86400 "B"]
  = [[sample_revert 0 "A"; sample_revert 86400 "B"]].
Proof. reflexivity. Qed.

Example gap_to_previous_revert :
  _group_reverts_by_time rv_timestamp (24 # 1) 3
    [sample_revert 0 "A"; sample_revert 72000 "B"; sample_revert 144000 "A"]
  = [[sample_revert 0 "A"; sample_revert 72000 "B"; sample_revert 144000 "A"]].
Proof. reflexivity. Qed.

Example gap_beyond_window_splits :
  _group_reverts_by_time rv_timestamp (24 # 1) 1
    [sample_revert 0 "A"; sample_revert 108000 "B"]
  = [[sample_revert 0 "A"]; [sample_revert 108000 "B"]] /\
  _group_reverts_by_time rv_timestamp (24 # 1) 3
    [sample_revert 0 "A"; sample_revert 108000 "B"]
  = [].
Proof. split; reflexivity. Qed.

(** C3. EpisodeGrouper compares every revert with the one just before it,
    inclusively: every emitted group is a maximal run of the input.  It is a
    contiguous, non-empty stretch of the input in which every two neighbours
    are at most [window_hours] apart (a gap equal to the window included),
    and the revert just before it and the revert just after it, when there
    are such, are more than [window_hours] away from its first and its last
    member: two neighbouring reverts at most [window_hours] apart are never
    split.  The same holds of the loop of [analyze_edit_war_patterns_quick]
    with the window of 24 hours. *)
Theorem C3_maximal_runs :
  forall (window_hours : Q) (min_reverts : Z)
         (reverts : list Revert) (quick_reverts : list QuickRevert),
    (forall g,
        In g (_group_reverts_by_time rv_timestamp window_hours min_reverts reverts) ->
        maximal_run rv_timestamp window_hours reverts g) /\
    (forall groups g,
        Summary.revert_groups quick_reverts = Some groups ->
        In g groups ->
        maximal_run q_timestamp (24 # 1) quick_reverts g).
Proof.
  intros window_hours min_reverts reverts quick_reverts. split.
  - intros g Hin. now apply group_reverts_spec in Hin.
  - intros groups g Hsome Hin.
    apply summary_groups_inv in Hsome. subst groups.
    now apply group_reverts_spec in Hin.
Qed.

Lemma C3_witness :
  maximal_run rv_timestamp (24 # 1) sample_war_then_one sample_war.
Proof.
  apply (proj1 (C3_maximal_runs (24 # 1) 3 sample_war_then_one [])).
  vm_compute. left. reflexivity.
Defined.

(** ** Claims on EpisodeStatistics *)

Lemma intervals_loop_length (R : Type) (time_of : R -> Z) (rest : list R) :
  forall (prev : R) (intervals : list Q),
    List.length (intervals_loop time_of prev rest intervals)
    = (List.length intervals + List.length rest)%nat.
Proof.
  induction rest as [|r rest IH]; intros prev intervals; simpl.
  - lia.
  - rewrite IH, length_app. simpl. lia.
Qed.

(** On a non-empty list the guarded builtins do not raise. *)
Lemma guarded_min_ok (l : list Q) :
  exists m, (if truthy l then py_min l else Ok 0) = Ok m.
Proof. destruct l; simpl; eauto. Qed.

Lemma guarded_max_ok (l : list Q) :
  exists m, (if truthy l then py_max l else Ok 0) = Ok m.
Proof. destruct l; simpl; eauto. Qed.

Lemma guarded_div_ok (l : list Q) :
  exists m,
    (if truthy l then true_div (Qsum l) (Z.of_nat (List.length l)) else Ok 0) = Ok m.
Proof.
  destruct l as [|x l]; [simpl; eauto|].
  unfold truthy, true_div.
  destruct (Z.of_nat (List.length (x :: l)) =? 0)%Z eqn:E; [|eauto].
  apply Z.eqb_eq in E. simpl List.length in E. lia.
Qed.

(** C8. EpisodeStatistics: for an episode of [n >= 1] members the interval
    list has exactly [n - 1] entries and the statistics are computed without
    an exception; for a single-member episode the interval list is empty and
    the mean, median, minimum and maximum are all 0 (the mean alone in
    [analyze_edit_war_patterns_quick], which keeps no other). *)
Theorem C8_interval_statistics :
  (forall (first : Revert) (rest : list Revert),
      List.length (intervals_of rv_timestamp (first :: rest)) = List.length rest /\
      exists w, _analyze_edit_war_group (first :: rest) = Ok w /\
                revert_count w = S (List.length rest)) /\
  (forall (first : QuickRevert) (rest : list QuickRevert),
      List.length (intervals_of q_timestamp (first :: rest)) = List.length rest /\
      exists w, quick_war_data (first :: rest) = Ok w /\
                qw_revert_count w = S (List.length rest)) /\
  (forall r : Revert,
      intervals_of rv_timestamp [r] = [] /\
      exists w, _analyze_edit_war_group [r] = Ok w /\
                avg_interval_minutes w = 0 /\
                median_interval_minutes w = 0 /\
                min_interval_minutes w = 0 /\
                max_interval_minutes w = 0) /\
  (forall r : QuickRevert,
      intervals_of q_timestamp [r] = [] /\
      exists w, quick_war_data [r] = Ok w /\ qw_avg_interval_minutes w = 0).
Proof.
  repeat split.
  - simpl. now rewrite intervals_loop_length.
  - unfold _analyze_edit_war_group.
    destruct (guarded_min_ok (intervals_of rv_timestamp (first :: rest))) as [mn ->].
    destruct (guarded_max_ok (intervals_of rv_timestamp (first :: rest))) as [mx ->].
    simpl. eexists. split; reflexivity.
  - simpl. now rewrite intervals_loop_length.
  - unfold quick_war_data.
    destruct (guarded_div_ok (intervals_of q_timestamp (first :: rest))) as [avg ->].
    simpl. eexists. split; reflexivity.
  - simpl. eexists. repeat split.
  - simpl. eexists. repeat split.
Qed.

(** ** Strings *)

Lemma prefix_spec (needle hay : string) :
  String.prefix needle hay = true <-> exists after, hay = (needle ++ after)%string.
Proof.
  revert hay. induction needle as [|c needle IH]; intros hay.
  - split; [intros _; now exists hay | intros _; now destruct hay].
  - destruct hay as [|d hay]; simpl.
    + split; [discriminate | intros [after H]; discriminate].
    + destruct (ascii_dec c d) as [->|Hne].
      * rewrite IH. split; intros [after H]; exists after; congruence.
      * split; [discriminate | intros [after H]; congruence].
Qed.

Lemma str_in_spec (needle hay : string) :
  str_in needle hay = true <-> substring_of needle hay.
Proof.
  unfold substring_of. induction hay as [|d hay IH].
  - cbn [str_in]. rewrite orb_false_r, prefix_spec. split.
    + intros [after H]. now exists ""%string, after.
    + intros (before & after & H). exists after.
      destruct before; [exact H | discriminate].
  - cbn [str_in]. rewrite orb_true_iff, prefix_spec, IH. split.
    + intros [[after H] | (before & after & H)].
      * now exists ""%string, after.
      * exists (String d before), after. simpl. now rewrite H.
    + intros (before & after & H). destruct before as [|b before].
      * left. now exists after.
      * right. simpl in H. injection H as _ H. now exists before, after.
Qed.

Lemma append_assoc (a b c : string) :
  ((a ++ b) ++ c = a ++ b ++ c)%string.
Proof. induction a as [|x a IH]; simpl; [reflexivity | now rewrite IH]. Qed.

Lemma substring_of_trans (a b c : string) :
  substring_of a b -> substring_of b c -> substring_of a c.
Proof.
  intros (p & q & ->) (p' & q' & ->).
  exists (p' ++ p)%string, (q ++ q')%string.
  now rewrite !append_assoc.
Qed.

Lemma any_in_spec (indicators : list string) (s : string) :
  any_in indicators s = true <->
  exists indicator, In indicator indicators /\ substring_of indicator s.
Proof.
  unfold any_in. rewrite existsb_exists.
  split; intros (i & Hin & H); exists i; split; auto; now apply str_in_spec.
Qed.

Lemma quick_is_revert_spec (rev : Revision) :
  Quick.is_revert rev = true <-> comment_positive rev.
Proof. apply any_in_spec. Qed.

(** The five indicators of [EditWarAnalyzer] match the same comments as the
    six of the other call sites: "reverted" contains "revert". *)
Lemma analyzer_is_revert_quick (rev : Revision) :
  Analyzer.is_revert rev = Quick.is_revert rev.
Proof.
  apply eq_true_iff_eq.
  unfold Analyzer.is_revert, Quick.is_revert. rewrite !any_in_spec.
  split; intros (i & Hin & H).
  - exists i. split; [|exact H]. simpl in *. tauto.
  - simpl in Hin.
    destruct Hin as [<-|[<-|[<-|[<-|[<-|[<-|[]]]]]]];
      try (eexists; split; [|exact H]; simpl; tauto).
    exists "revert"%string. split; [simpl; tauto|].
    eapply substring_of_trans; [|exact H].
    now exists ""%string, "ed"%string.
Qed.

Lemma missing_comment_negative (rev : Revision) :
  comment rev = None -> Quick.is_revert rev = false.
Proof.
  intros H. unfold Quick.is_revert, get_comment. now rewrite H.
Qed.

Lemma size_similar_spec (current_size previous_size : Z) :
  Analyzer.size_similar current_size previous_size = true <->
  (10 * Z.abs (current_size - previous_size) < Z.max current_size 1)%Z.
Proof.
  unfold Analyzer.size_similar, Qlt_bool.
  rewrite negb_true_iff, <- not_true_iff_false, Qle_bool_iff.
  unfold Qle. simpl Qnum. simpl Qden.
  rewrite Z2Pos.id by lia. lia.
Qed.

Lemma analyzer_classifies_spec (previous_rev current_rev : Revision) :
  analyzer_classifies (previous_rev, current_rev) = true <->
  size_positive previous_rev current_rev /\ comment_positive current_rev.
Proof.
  unfold analyzer_classifies, size_positive. simpl.
  rewrite <- quick_is_revert_spec, <- analyzer_is_revert_quick.
  destruct (size current_rev) as [c|], (size previous_rev) as [p|].
  - rewrite andb_true_iff, size_similar_spec. split.
    + intros [H1 H2]. split; [|exact H2]. now exists c, p.
    + intros [(c' & p' & [= <-] & [= <-] & H1) H2]. now split.
  - split; [discriminate | intros [(c' & p' & _ & [=] & _) _]].
  - split; [discriminate | intros [(c' & p' & [=] & _) _]].
  - split; [discriminate | intros [(c' & p' & [=] & _) _]].
Qed.

(** ** RevertClassifier: what the two loops compute *)

Lemma quick_make_revert_ok (rev : Revision) (ev : QuickRevert) :
  Quick.make_revert rev = Ok ev -> quick_event_of rev ev.
Proof.
  unfold Quick.make_revert, quick_event_of.
  destruct (timestamp rev) as [t|]; simpl; [|discriminate].
  intros [= <-]. simpl. auto.
Qed.

Lemma quick_make_revert_status (rev : Revision) :
  match Quick.make_revert rev with
  | Ok _ => has_timestamp rev = true
  | Raise e => has_timestamp rev = false /\ e = KeyError "timestamp"
  end.
Proof.
  unfold Quick.make_revert, has_timestamp.
  destruct (timestamp rev); simpl; auto.
Qed.

Lemma quick_loop_spec (rest : list Revision) :
  forall (prev : Revision) (acc : list QuickRevert),
    match Quick.detect_loop prev rest acc with
    | Ok out =>
        forallb has_timestamp (filter Quick.is_revert rest) = true /\
        exists evs, out = acc ++ evs /\
                    Forall2 quick_event_of (filter Quick.is_revert rest) evs
    | Raise e =>
        forallb has_timestamp (filter Quick.is_revert rest) = false /\
        e = KeyError "timestamp"
    end.
Proof.
  induction rest as [|cur rest IH]; intros prev acc; simpl.
  - split; [reflexivity|]. exists []. now rewrite app_nil_r.
  - unfold Quick.detect_step.
    destruct (Quick.is_revert cur) eqn:Hrev; simpl.
    + pose proof (quick_make_revert_status cur) as Hst.
      pose proof (@quick_make_revert_ok cur) as Hok.
      destruct (Quick.make_revert cur) as [ev|e]; simpl.
      * rewrite Hst. simpl.
        specialize (IH cur (acc ++ [ev])).
        destruct (Quick.detect_loop cur rest (acc ++ [ev])) as [out|e].
        -- destruct IH as [Hall (evs & -> & HF)]. split; [exact Hall|].
           exists (ev :: evs). rewrite <- app_assoc. split; [reflexivity|].
           constructor; auto.
        -- exact IH.
      * destruct Hst as [-> ->]. now split.
    + apply IH.
Qed.

Lemma analyzer_make_revert_ok (prev cur : Revision) (c p : Z) (ev : Revert) :
  size cur = Some c -> size prev = Some p ->
  Analyzer.make_revert cur c p = Ok ev -> event_of (prev, cur) ev.
Proof.
  unfold Analyzer.make_revert, event_of. intros Hc Hp.
  destruct (timestamp cur) as [t|] eqn:Ht; simpl; [|discriminate].
  destruct (revid cur) as [i|] eqn:Hi; simpl; [|discriminate].
  intros [= <-]. simpl. repeat (split; [solve [auto]|]). assumption.
Qed.

Lemma analyzer_make_revert_status (cur : Revision) (c p : Z) :
  match Analyzer.make_revert cur c p with
  | Ok _ => has_timestamp cur && has_revid cur = true
  | Raise e =>
      has_timestamp cur && has_revid cur = false /\
      (e = KeyError "timestamp" \/ e = KeyError "revid")
  end.
Proof.
  unfold Analyzer.make_revert, has_timestamp, has_revid.
  destruct (timestamp cur); simpl; auto.
  destruct (revid cur); simpl; auto.
Qed.

Lemma analyzer_loop_spec (rest : list Revision) :
  forall (prev : Revision) (acc : list Revert),
    let hits := filter analyzer_classifies (combine (prev :: rest) rest) in
    match Analyzer.detect_loop prev rest acc with
    | Ok out =>
        forallb complete_pair hits = true /\
        exists evs, out = acc ++ evs /\ Forall2 event_of hits evs
    | Raise e =>
        forallb complete_pair hits = false /\
        (e = KeyError "timestamp" \/ e = KeyError "revid")
    end.
Proof.
  induction rest as [|cur rest IH]; intros prev acc.
  - simpl. split; [reflexivity|]. exists []. now rewrite app_nil_r.
  - change (combine (prev :: cur :: rest) (cur :: rest))
      with ((prev, cur) :: combine (cur :: rest) rest).
    cbn [filter Analyzer.detect_loop]. cbv zeta.
    specialize (IH cur). cbv zeta in IH.
    set (hits := filter analyzer_classifies (combine (cur :: rest) rest)) in *.
    unfold Analyzer.detect_step, analyzer_classifies. cbn [fst snd].
    destruct (size cur) as [c|] eqn:Hc, (size prev) as [p|] eqn:Hp;
      try apply IH.
    destruct (Analyzer.size_similar c p); cbn [andb bind]; [|apply IH].
    destruct (Analyzer.is_revert cur); cbn [andb bind]; [|apply IH].
    pose proof (analyzer_make_revert_status cur c p) as Hst.
    pose proof (@analyzer_make_revert_ok prev cur c p) as Hok.
    destruct (Analyzer.make_revert cur c p) as [ev|e]; cbn [bind forallb].
    + unfold complete_pair at 1 3. cbn [fst snd]. rewrite Hst. cbn [andb].
      specialize (IH (acc ++ [ev])).
      destruct (Analyzer.detect_loop cur rest (acc ++ [ev])) as [out|e].
      * destruct IH as [Hall (evs & -> & HF)]. split; [exact Hall|].
        exists (ev :: evs). rewrite <- app_assoc. split; [reflexivity|].
        constructor; auto.
      * exact IH.
    + unfold complete_pair at 1. cbn [fst snd]. destruct Hst as [-> He]. now split.
Qed.

Lemma forallb_filter_weaken (A : Type) (p q : A -> bool) (l : list A) :
  forallb p l = true -> forallb p (filter q l) = true.
Proof.
  rewrite !forallb_forall. intros H x Hx.
  apply filter_In in Hx as [Hx _]. auto.
Qed.

Lemma forallb_tl (A : Type) (p : A -> bool) (l : list A) :
  forallb p l = true -> forallb p (tl l) = true.
Proof. destruct l; simpl; [auto|]. now intros [_ H]%andb_prop. Qed.

Lemma complete_adjacent_pairs (revisions : list Revision) :
  forallb has_timestamp revisions = true ->
  forallb has_revid revisions = true ->
  forallb complete_pair (adjacent_pairs revisions) = true.
Proof.
  intros Ht Hr. apply forallb_forall. intros [prev cur] Hin.
  apply in_combine_r in Hin.
  assert (Hcur : In cur revisions) by (destruct revisions; [easy | now right]).
  rewrite forallb_forall in Ht, Hr.
  unfold complete_pair. simpl. now rewrite Ht, Hr.
Qed.

(** ** Claims on RevertClassifier *)

(** C1, as the code has it.  [detect_reverts_quick] (and, with the same body,
    [EditWarSummary.detect_reverts]) classifies the revision at an index
    [i > 0] as a revert exactly when its lower-cased comment contains one of
    the six indicators; sizes play no part.  [EditWarAnalyzer.detect_reverts]
    classifies it exactly when, in addition, the revision and its predecessor
    both carry a size and [|size_i - size_prev| / max(size_i, 1) < 1/10]; its
    list of five indicators matches the same comments.  In both, the output
    holds one event per classified revision, in order, built from it; and
    both return when every revision has a timestamp (and, for
    [EditWarAnalyzer], a revision id). *)
Theorem C1_classification :
  forall revisions : list Revision,
    (forall rev, Quick.is_revert rev = true <-> comment_positive rev) /\
    (forall prev cur,
        analyzer_classifies (prev, cur) = true <->
        size_positive prev cur /\ comment_positive cur) /\
    (forall out,
        Quick.detect_reverts_quick revisions = Ok out ->
        Forall2 quick_event_of (filter Quick.is_revert (tl revisions)) out) /\
    (forall out,
        Analyzer.detect_reverts revisions = Ok out ->
        Forall2 event_of (filter analyzer_classifies (adjacent_pairs revisions)) out) /\
    (forallb has_timestamp revisions = true ->
     exists out, Quick.detect_reverts_quick revisions = Ok out) /\
    (forallb has_timestamp revisions = true ->
     forallb has_revid revisions = true ->
     exists out, Analyzer.detect_reverts revisions = Ok out).
Proof.
  intros revisions.
  split; [exact quick_is_revert_spec|].
  split; [exact analyzer_classifies_spec|].
  destruct revisions as [|first rest].
  { simpl. repeat split; try (intros out [= <-]; constructor); eauto. }
  unfold adjacent_pairs. cbn [tl Quick.detect_reverts_quick Analyzer.detect_reverts].
  pose proof (quick_loop_spec rest first []) as HQ.
  pose proof (analyzer_loop_spec rest first []) as HA. cbv zeta in HA.
  repeat split.
  - intros out E. rewrite E in HQ. now destruct HQ as [_ (evs & -> & HF)].
  - intros out E. rewrite E in HA. now destruct HA as [_ (evs & -> & HF)].
  - intros Ht. destruct (Quick.detect_loop first rest []) as [out|e]; [eauto|].
    destruct HQ as [HQ _]. apply forallb_tl in Ht. simpl in Ht.
    now rewrite (forallb_filter_weaken _ _ _ Ht) in HQ.
  - intros Ht Hr. destruct (Analyzer.detect_loop first rest []) as [out|e]; [eauto|].
    destruct HA as [HA _].
    pose proof (complete_adjacent_pairs (first :: rest) Ht Hr) as Hc.
    unfold adjacent_pairs in Hc. cbn [tl] in Hc.
    now rewrite (forallb_filter_weaken _ _ _ Hc) in HA.
Qed.

Lemma C1_witness :
  exists out, Analyzer.detect_reverts revs_revert = Ok out.
Proof.
  apply (proj2 (proj2 (proj2 (proj2 (proj2 (C1_classification revs_revert)))))).
  - reflexivity.
  - reflexivity.
Defined.

(** C1 as the specification words it fails on [EditWarAnalyzer.detect_reverts]:
    a revision whose comment matches is not classified when size data is
    absent, nor when the size ratio is not below 0.10, although
    [detect_reverts_quick] classifies it. *)
Lemma C1_counterexample :
  (Quick.is_revert (nth 1 revs_comment_only (sample_rev 0 "" "" None)) = true /\
   List.length (filter Quick.is_revert (tl revs_comment_only)) = 1%nat /\
   Analyzer.detect_reverts revs_comment_only = Ok []) /\
  (Quick.is_revert (nth 1 revs_size_far (sample_rev 0 "" "" None)) = true /\
   List.length (filter Quick.is_revert (tl revs_size_far)) = 1%nat /\
   Analyzer.detect_reverts revs_size_far = Ok []).
Proof. vm_compute. repeat split. Qed.

(** With a revision id on every revision, the loop of
    [EditWarAnalyzer.detect_reverts] depends on the timestamps of the
    classified revisions alone. *)
Lemma analyzer_loop_timestamps (rest : list Revision) :
  forall (prev : Revision) (acc : list Revert),
    forallb has_revid rest = true ->
    let hits := filter analyzer_classifies (combine (prev :: rest) rest) in
    match Analyzer.detect_loop prev rest acc with
    | Ok _ => forallb pair_has_timestamp hits = true
    | Raise e =>
        forallb pair_has_timestamp hits = false /\ e = KeyError "timestamp"
    end.
Proof.
  induction rest as [|cur rest IH]; intros prev acc Hids; [reflexivity|].
  cbn [forallb] in Hids. apply andb_prop in Hids as [Hid Hids].
  change (combine (prev :: cur :: rest) (cur :: rest))
    with ((prev, cur) :: combine (cur :: rest) rest).
  cbn [filter Analyzer.detect_loop]. cbv zeta.
  pose proof (fun acc' => IH cur acc' Hids) as IH'. cbv zeta in IH'.
  set (hits := filter analyzer_classifies (combine (cur :: rest) rest)) in *.
  unfold Analyzer.detect_step, analyzer_classifies. cbn [fst snd].
  destruct (size cur) as [c|], (size prev) as [p|]; try apply IH'.
  destruct (Analyzer.size_similar c p); cbn [andb bind]; [|apply IH'].
  destruct (Analyzer.is_revert cur); cbn [andb bind]; [|apply IH'].
  change (forallb pair_has_timestamp ((prev, cur) :: hits))
    with (has_timestamp cur && forallb pair_has_timestamp hits).
  unfold Analyzer.make_revert, has_timestamp. unfold has_revid in Hid.
  destruct (timestamp cur) as [t|]; cbn [subscript bind andb]; [|now split].
  destruct (revid cur) as [i|]; [|discriminate]. cbn [subscript bind].
  apply IH'.
Qed.

(** C9, as the code has it by design.  A missing comment is read as the
    empty string and never matches; in [EditWarAnalyzer.detect_reverts] a
    revision is never classified when its size or its predecessor's size is
    missing.  There is no validation at the boundary: the timestamp is read
    only from a revision that is classified as a revert.  So
    [detect_reverts_quick] (like [EditWarSummary.detect_reverts]) returns
    exactly when every classified revision has a timestamp, and fails with
    [KeyError('timestamp')] otherwise; and on revisions that carry a
    revision id the same holds of [EditWarAnalyzer.detect_reverts].  The
    parent id plays no part, and a revision that is not classified is never
    rejected.  What [EditWarAnalyzer.detect_reverts] does with a revision
    that has no revision id is left out of this statement. *)
Theorem C9_failures :
  forall revisions : list Revision,
    (forall rev, comment rev = None ->
                 Quick.is_revert rev = false /\ Analyzer.is_revert rev = false) /\
    (forall prev cur, size cur = None \/ size prev = None ->
                      analyzer_classifies (prev, cur) = false) /\
    is_ok (Quick.detect_reverts_quick revisions)
      = forallb has_timestamp (filter Quick.is_revert (tl revisions)) /\
    (forall e, Quick.detect_reverts_quick revisions = Raise e ->
               e = KeyError "timestamp") /\
    (forallb has_revid revisions = true ->
     is_ok (Analyzer.detect_reverts revisions)
       = forallb pair_has_timestamp
           (filter analyzer_classifies (adjacent_pairs revisions)) /\
     (forall e, Analyzer.detect_reverts revisions = Raise e ->
                e = KeyError "timestamp")).
Proof.
  intros revisions.
  split.
  { intros rev H. rewrite analyzer_is_revert_quick.
    split; now apply missing_comment_negative. }
  split.
  { intros prev cur H. unfold analyzer_classifies. simpl.
    destruct H as [-> | ->]; [reflexivity | now destruct (size cur)]. }
  destruct revisions as [|first rest].
  { simpl. repeat split; discriminate. }
  unfold adjacent_pairs. cbn [tl Quick.detect_reverts_quick Analyzer.detect_reverts].
  pose proof (quick_loop_spec rest first []) as HQ.
  split; [|split].
  - destruct (Quick.detect_loop first rest []) as [qout|qe];
      destruct HQ as [HQ _]; now rewrite HQ.
  - intros e E. rewrite E in HQ. now destruct HQ.
  - intros Hids. apply forallb_tl in Hids. cbn [tl] in Hids.
    pose proof (analyzer_loop_timestamps rest first [] Hids) as HA. cbv zeta in HA.
    destruct (Analyzer.detect_loop first rest []) as [aout|ae].
    + rewrite HA. split; [reflexivity | discriminate].
    + destruct HA as [HA ->]. rewrite HA. split; [reflexivity|].
      now intros e [= <-].
Qed.

Lemma C9_witness :
  forallb has_revid revs_revert_no_timestamp = true /\
  is_ok (Analyzer.detect_reverts revs_revert_no_timestamp) = false /\
  Analyzer.detect_reverts revs_revert_no_timestamp = Raise (KeyError "timestamp").
Proof.
  assert (Hids : forallb has_revid revs_revert_no_timestamp = true) by reflexivity.
  destruct (C9_failures revs_revert_no_timestamp) as (_ & _ & _ & _ & Hanalyzer).
  destruct (Hanalyzer Hids) as [Hstatus Herror].
  split; [exact Hids|]. split.
  - rewrite Hstatus. reflexivity.
  - destruct (Analyzer.detect_reverts revs_revert_no_timestamp) as [out|e].
    + discriminate Hstatus.
    + now rewrite (Herror e eq_refl).
Defined.

(** C9 as the specification words it fails: a revision without timestamp is
    not rejected at the boundary.  Neither classifier reads the timestamp of
    an ordinary edit, so both return on a history that has one without
    timestamp. *)
Lemma C9_counterexample :
  forallb has_timestamp revs_no_timestamp = false /\
  Analyzer.detect_reverts revs_no_timestamp = Ok [] /\
  Quick.detect_reverts_quick revs_no_timestamp = Ok [].
Proof. vm_compute. repeat split. Qed.

(** [EditWarAnalyzer.detect_reverts] reads ['revid'] with a subscript (line
    108), where it reads ['parentid'] with [.get] (line 109) and where
    [EditWarVisualizer.detect_reverts] reads ['revid'] with [.get]: a revert
    without revision id raises [KeyError('revid')], although every timestamp
    is present. *)
Example analyzer_revid_subscript :
  forallb has_timestamp revs_no_revid = true /\
  Analyzer.detect_reverts revs_no_revid = Raise (KeyError "revid").
Proof. vm_compute. split; reflexivity. Qed.

(** ** Dictionaries *)

Section DictFacts.

Variable V : Type.
Implicit Types (d : dict V) (k : string) (v : V).

Lemma dict_get_set_same d k v : dict_get (dict_set d k v) k = Some v.
Proof.
  induction d as [|[k' v'] d IH]; simpl.
  - now rewrite String.eqb_refl.
  - destruct (String.eqb k' k) eqn:E; simpl; now rewrite E.
Qed.

Lemma dict_get_set_other d k k' v :
  k <> k' -> dict_get (dict_set d k v) k' = dict_get d k'.
Proof.
  intros Hne. induction d as [|[k0 v0] d IH]; simpl.
  - destruct (String.eqb k k') eqn:E; [|reflexivity].
    apply String.eqb_eq in E. contradiction.
  - destruct (String.eqb k0 k) eqn:E; simpl.
    + apply String.eqb_eq in E. subst k0.
      destruct (String.eqb k k') eqn:E'; [|reflexivity].
      apply String.eqb_eq in E'. contradiction.
    + now rewrite IH.
Qed.

Lemma dict_get_None_keys d k : dict_get d k = None <-> ~ In k (keys d).
Proof.
  induction d as [|[k' v'] d IH]; simpl.
  - tauto.
  - destruct (String.eqb k' k) eqn:E.
    + apply String.eqb_eq in E. split; [discriminate | tauto].
    + apply String.eqb_neq in E. rewrite IH. tauto.
Qed.

Lemma dict_get_In d k v : dict_get d k = Some v -> In (k, v) d.
Proof.
  induction d as [|[k' v'] d IH]; simpl; [discriminate|].
  destruct (String.eqb k' k) eqn:E.
  - apply String.eqb_eq in E. intros [= ->]. left. now subst.
  - auto.
Qed.

Lemma In_dict_get d k v : NoDup (keys d) -> In (k, v) d -> dict_get d k = Some v.
Proof.
  induction d as [|[k' v'] d IH]; simpl; [tauto|].
  intros Hnd [[= -> ->] | Hin].
  - now rewrite String.eqb_refl.
  - inversion Hnd as [|? ? Hnotin Hnd']; subst.
    destruct (String.eqb k' k) eqn:E; [|auto].
    apply String.eqb_eq in E. subst k'.
    exfalso. apply Hnotin. now apply (in_map fst) in Hin.
Qed.

(** A new key goes to the end. *)
Lemma dict_set_fresh d k v : ~ In k (keys d) -> dict_set d k v = d ++ [(k, v)].
Proof.
  induction d as [|[k' v'] d IH]; simpl; [reflexivity|].
  intros Hn. destruct (String.eqb k' k) eqn:E.
  - apply String.eqb_eq in E. tauto.
  - rewrite IH; tauto.
Qed.

(** A key that is present keeps its place. *)
Lemma keys_dict_set_present d k v : In k (keys d) -> keys (dict_set d k v) = keys d.
Proof.
  induction d as [|[k' v'] d IH]; simpl; [tauto|].
  intros Hin. destruct (String.eqb k' k) eqn:E; simpl; [reflexivity|].
  apply String.eqb_neq in E. f_equal. apply IH. tauto.
Qed.

Lemma keys_dict_set d k v :
  keys (dict_set d k v) = if in_dec string_dec k (keys d) then keys d else keys d ++ [k].
Proof.
  destruct (in_dec string_dec k (keys d)) as [Hin|Hn].
  - now apply keys_dict_set_present.
  - rewrite dict_set_fresh by exact Hn. unfold keys. now rewrite map_app.
Qed.

Lemma NoDup_snoc (A : Type) (l : list A) (x : A) :
  NoDup l -> ~ In x l -> NoDup (l ++ [x]).
Proof.
  intros Hnd Hn. induction Hnd as [|y l Hy Hnd IH]; simpl.
  - constructor; [easy | constructor].
  - constructor.
    + rewrite in_app_iff. simpl. intros [H | [-> | []]]; [contradiction|].
      apply Hn. now left.
    + apply IH. intros H. apply Hn. now right.
Qed.

Lemma NoDup_keys_dict_set d k v : NoDup (keys d) -> NoDup (keys (dict_set d k v)).
Proof.
  intros Hnd. rewrite keys_dict_set.
  destruct (in_dec string_dec k (keys d)); [exact Hnd | now apply NoDup_snoc].
Qed.

End DictFacts.

(** ** Counters *)

Lemma occurrences_nil (u : string) : occurrences u [] = 0%Z.
Proof. reflexivity. Qed.

Lemma occurrences_cons (u x : string) (l : list string) :
  occurrences u (x :: l)
  = ((if String.eqb u x then 1 else 0) + occurrences u l)%Z.
Proof.
  unfold occurrences. simpl. destruct (String.eqb u x); simpl List.length; lia.
Qed.

Lemma occurrences_nonneg (u : string) (l : list string) : (0 <= occurrences u l)%Z.
Proof. unfold occurrences. lia. Qed.

Lemma occurrences_pos_In (u : string) (l : list string) :
  (0 < occurrences u l)%Z <-> In u l.
Proof.
  induction l as [|x l IH].
  - rewrite occurrences_nil. simpl. lia.
  - rewrite occurrences_cons. simpl.
    pose proof (occurrences_nonneg u l).
    destruct (String.eqb u x) eqn:E.
    + apply String.eqb_eq in E. subst. split; [now left | lia].
    + apply String.eqb_neq in E. rewrite <- IH.
      split; [intros; right; lia | intros [Hx | Hx]; [congruence | lia]].
Qed.

Lemma counter_incr_get_same (c : dict Z) (k : string) :
  dict_get (counter_incr c k) k = Some (get_or (dict_get c k) 0 + 1)%Z.
Proof. apply dict_get_set_same. Qed.

Lemma counter_incr_get_other (c : dict Z) (k k' : string) :
  k <> k' -> dict_get (counter_incr c k) k' = dict_get c k'.
Proof. apply dict_get_set_other. Qed.

(** After counting the names of [names] on top of the counter [c]. *)
Lemma tally_get (names : list string) :
  forall (c : dict Z) (u : string),
    dict_get (fold_left counter_incr names c) u
    = if (occurrences u names =? 0)%Z then dict_get c u
      else Some (get_or (dict_get c u) 0 + occurrences u names)%Z.
Proof.
  induction names as [|x names IH]; intros c u.
  - reflexivity.
  - cbn [fold_left]. rewrite IH, occurrences_cons.
    pose proof (occurrences_nonneg u names) as Hpos.
    destruct (String.eqb u x) eqn:E.
    + apply String.eqb_eq in E. subst x. rewrite counter_incr_get_same.
      destruct (occurrences u names =? 0)%Z eqn:E0.
      * apply Z.eqb_eq in E0. rewrite E0. reflexivity.
      * destruct (1 + occurrences u names =? 0)%Z eqn:E1; [apply Z.eqb_eq in E1; lia|].
        cbn [get_or]. f_equal. lia.
    + apply String.eqb_neq in E.
      rewrite counter_incr_get_other by congruence.
      reflexivity.
Qed.

Lemma fold_left_Zadd (l : list Z) (a : Z) :
  fold_left Z.add l a = (a + fold_left Z.add l 0)%Z.
Proof.
  revert a. induction l as [|x l IH]; intros a; simpl; [lia|].
  rewrite IH, (IH x). lia.
Qed.

Lemma Zsum_cons (x : Z) (l : list Z) : Zsum (x :: l) = (x + Zsum l)%Z.
Proof. unfold Zsum. simpl. now rewrite fold_left_Zadd. Qed.

Lemma Zsum_app (l1 l2 : list Z) : Zsum (l1 ++ l2) = (Zsum l1 + Zsum l2)%Z.
Proof.
  induction l1 as [|x l1 IH]; simpl; [reflexivity|].
  rewrite !Zsum_cons, IH. lia.
Qed.

(** [counter[k] += 1] adds one to the sum of the counts. *)
Lemma Zsum_counter_incr (c : dict Z) (k : string) :
  Zsum (values (counter_incr c k)) = (Zsum (values c) + 1)%Z.
Proof.
  unfold counter_incr. induction c as [|[k' n] c IH].
  - reflexivity.
  - cbn [dict_get dict_set]. destruct (String.eqb k' k) eqn:E.
    + cbn [values map snd get_or]. rewrite !Zsum_cons. lia.
    + cbn [values map snd]. rewrite !Zsum_cons.
      unfold values in IH. rewrite IH. lia.
Qed.

Lemma Zsum_tally (names : list string) :
  forall c : dict Z,
    Zsum (values (fold_left counter_incr names c))
    = (Zsum (values c) + Z.of_nat (List.length names))%Z.
Proof.
  induction names as [|x names IH]; intros c.
  - simpl. lia.
  - cbn [fold_left]. rewrite IH, Zsum_counter_incr. simpl List.length. lia.
Qed.

Lemma NoDup_keys_tally (names : list string) :
  forall c : dict Z, NoDup (keys c) -> NoDup (keys (fold_left counter_incr names c)).
Proof.
  induction names as [|x names IH]; intros c Hnd; [exact Hnd|].
  cbn [fold_left]. apply IH. now apply NoDup_keys_dict_set.
Qed.

Lemma count_edits_tally (revisions : list Revision) :
  count_edits revisions = fold_left counter_incr (map get_user revisions) [].
Proof.
  unfold count_edits. generalize (@nil (string * Z)).
  induction revisions as [|rev revisions IH]; intros c; [reflexivity|].
  simpl. apply IH.
Qed.

Lemma count_reverts_tally (reverts : list Revert) :
  count_reverts reverts = fold_left counter_incr (map rv_user reverts) [].
Proof.
  unfold count_reverts. generalize (@nil (string * Z)).
  induction reverts as [|r reverts IH]; intros c; [reflexivity|].
  simpl. apply IH.
Qed.

Lemma count_edits_get (revisions : list Revision) (u : string) :
  dict_get (count_edits revisions) u
  = if (edits_by u revisions =? 0)%Z then None else Some (edits_by u revisions).
Proof.
  rewrite count_edits_tally, tally_get. unfold edits_by.
  destruct (occurrences u (map get_user revisions) =? 0)%Z; reflexivity.
Qed.

Lemma count_reverts_get (reverts : list Revert) (u : string) :
  get_or (dict_get (count_reverts reverts) u) 0%Z = reverts_by u reverts.
Proof.
  rewrite count_reverts_tally, tally_get. unfold reverts_by.
  destruct (occurrences u (map rv_user reverts) =? 0)%Z eqn:E; simpl.
  - apply Z.eqb_eq in E. now rewrite E.
  - reflexivity.
Qed.

Lemma Zsum_count_edits (revisions : list Revision) :
  Zsum (values (count_edits revisions)) = Z.of_nat (List.length revisions).
Proof.
  rewrite count_edits_tally, Zsum_tally, length_map. reflexivity.
Qed.

Lemma NoDup_keys_count_edits (revisions : list Revision) :
  NoDup (keys (count_edits revisions)).
Proof. rewrite count_edits_tally. apply NoDup_keys_tally. constructor. Qed.

(** ** ParticipationAnalyzer *)

Lemma fold_dict_set_fresh (A V : Type) (f : string * A -> V) (l : list (string * A)) :
  forall acc : dict V,
    NoDup (keys acc ++ keys l) ->
    fold_left (fun d item => dict_set d (fst item) (f item)) l acc
    = acc ++ map (fun item => (fst item, f item)) l.
Proof.
  induction l as [|item l IH]; intros acc Hnd.
  - simpl. now rewrite app_nil_r.
  - cbn [fold_left map]. cbn [keys map] in Hnd.
    rewrite dict_set_fresh.
    + rewrite IH.
      * now rewrite <- app_assoc.
      * unfold keys in *. rewrite map_app, <- app_assoc. exact Hnd.
    + apply NoDup_remove_2 in Hnd. intros Hin. apply Hnd.
      apply in_or_app. now left.
Qed.

Lemma build_experience_map (editor_edits editor_reverts : dict Z) (total : Z) :
  NoDup (keys editor_edits) ->
  build_experience editor_edits editor_reverts total
  = map (fun item => (fst item, profile_of editor_reverts total (fst item) (snd item)))
        editor_edits.
Proof.
  intros Hnd. unfold build_experience.
  now rewrite fold_dict_set_fresh by exact Hnd.
Qed.

Lemma breakdown_map (revisions : list Revision) (reverts : list Revert) :
  editor_breakdown (_analyze_editor_participation revisions reverts)
  = map (fun item =>
           (fst item,
            profile_of (count_reverts reverts) (Z.of_nat (List.length revisions))
                       (fst item) (snd item)))
        (count_edits revisions).
Proof.
  unfold _analyze_editor_participation. cbn [editor_breakdown].
  rewrite Zsum_count_edits.
  apply build_experience_map, NoDup_keys_count_edits.
Qed.


Lemma dict_get_map (A B : Type) (f : string -> A -> B) (d : dict A) (k : string) :
  dict_get (map (fun item => (fst item, f (fst item) (snd item))) d) k
  = option_map (f k) (dict_get d k).
Proof.
  induction d as [|[k' v] d IH]; simpl; [reflexivity|].
  destruct (String.eqb k' k) eqn:E; [|exact IH].
  apply String.eqb_eq in E. now subst.
Qed.

(** The profile of every editor, in closed form. *)
Lemma breakdown_get (revisions : list Revision) (reverts : list Revert) (u : string) :
  dict_get (editor_breakdown (_analyze_editor_participation revisions reverts)) u
  = if (edits_by u revisions =? 0)%Z then None
    else Some (profile_of (count_reverts reverts) (Z.of_nat (List.length revisions))
                          u (edits_by u revisions)).
Proof.
  rewrite breakdown_map.
  rewrite (dict_get_map
             (profile_of (count_reverts reverts) (Z.of_nat (List.length revisions)))).
  rewrite count_edits_get.
  now destruct (edits_by u revisions =? 0)%Z.
Qed.


Lemma tier_of_unique (n : Z) (t1 t2 : experience) :
  tier_of n t1 -> tier_of n t2 -> t1 = t2.
Proof. destruct t1, t2; simpl; intros; try reflexivity; lia. Qed.



Lemma fold_left_Qplus (l : list Q) (a : Q) :
  fold_left Qplus l a == a + fold_left Qplus l 0.
Proof.
  revert a. induction l as [|x l IH]; intros a; simpl.
  - ring.
  - rewrite IH, (IH (0 + x)). ring.
Qed.

Lemma Qsum_cons (x : Q) (l : list Q) : Qsum (x :: l) == x + Qsum l.
Proof. unfold Qsum. simpl. rewrite fold_left_Qplus. ring. Qed.

(** The shares add up to the share of the sum. *)
Lemma Qsum_shares (total : Z) (counts : list Z) :
  Qsum (map (fun c => inject_Z c / inject_Z total * inject_Z 100) counts)
  == inject_Z (Zsum counts) / inject_Z total * inject_Z 100.
Proof.
  induction counts as [|c counts IH].
  - unfold Qsum, Zsum, Qdiv. simpl. ring.
  - cbn [map]. rewrite Qsum_cons, IH, Zsum_cons, inject_Z_plus.
    unfold Qdiv. ring.
Qed.

Lemma sum_total_edits (revisions : list Revision) (reverts : list Revert) :
  Zsum (map total_edits
            (values (editor_breakdown (_analyze_editor_participation revisions reverts))))
  = Z.of_nat (List.length revisions).
Proof.
  rewrite breakdown_map. unfold values. rewrite !map_map. cbn [snd total_edits].
  change (map (fun x : string * Z => snd x) (count_edits revisions))
    with (values (count_edits revisions)).
  apply Zsum_count_edits.
Qed.

(** C6. Conservation in ParticipationAnalyzer: the [total_edits] of all
    editor profiles add up to the number of input revisions, and when there
    is at least one revision the [edit_percentage] values add up to 100
    (exactly so in rational arithmetic, which stands for the floats). *)
Theorem C6_conservation :
  forall (revisions : list Revision) (reverts : list Revert),
    let profiles :=
      values (editor_breakdown (_analyze_editor_participation revisions reverts)) in
    Zsum (map total_edits profiles) = Z.of_nat (List.length revisions) /\
    (revisions <> [] -> Qsum (map edit_percentage profiles) == 100).
Proof.
  intros revisions reverts profiles. subst profiles.
  split; [apply sum_total_edits|].
  intros Hne.
  assert (Hpos : (0 < Z.of_nat (List.length revisions))%Z)
    by (destruct revisions; [congruence | simpl List.length; lia]).
  rewrite breakdown_map. unfold values. rewrite !map_map. cbn [snd].
  unfold profile_of. cbn [edit_percentage].
  apply Z.ltb_lt in Hpos as Hb. rewrite Hb.
  rewrite <- (map_map snd
    (fun c => inject_Z c / inject_Z (Z.of_nat (List.length revisions)) * inject_Z 100)).
  rewrite Qsum_shares.
  change (map snd (count_edits revisions)) with (values (count_edits revisions)).
  rewrite Zsum_count_edits.
  change (inject_Z 100) with 100.
  field. unfold Qeq. simpl. lia.
Qed.

Lemma C6_witness :
  Qsum (map edit_percentage
            (values (editor_breakdown (_analyze_editor_participation revs_revert []))))
  == 100.
Proof.
  apply (proj2 (C6_conservation revs_revert [])).
  discriminate.
Defined.

Lemma edits_by_pos_In (u : string) (revisions : list Revision) :
  (edits_by u revisions =? 0)%Z = false <-> In u (map get_user revisions).
Proof.
  rewrite <- occurrences_pos_In. unfold edits_by.
  pose proof (occurrences_nonneg u (map get_user revisions)).
  rewrite Z.eqb_neq. lia.
Qed.



(** ** Reverts are attributed to the editors of the revisions *)

Lemma Forall2_event_users (hits : list (Revision * Revision)) (out : list Revert) :
  Forall2 event_of hits out ->
  map rv_user out = map (fun pair => get_user (snd pair)) hits.
Proof.
  induction 1 as [|pair ev hits out Hev _ IH]; simpl; [reflexivity|].
  destruct Hev as (_ & -> & _). now rewrite IH.
Qed.

Lemma occurrences_filter_le (A : Type) (f : A -> string) (q : A -> bool)
  (u : string) (l : list A) :
  (occurrences u (map f (filter q l)) <= occurrences u (map f l))%Z.
Proof.
  induction l as [|x l IH]; simpl; [lia|].
  destruct (q x); cbn [map]; rewrite ?occurrences_cons;
    destruct (String.eqb u (f x)); lia.
Qed.

Lemma map_snd_combine_tl (A : Type) (l : list A) :
  map snd (combine l (tl l)) = tl l.
Proof.
  destruct l as [|x l]; [reflexivity|]. cbn [tl].
  revert x. induction l as [|y l IH]; intros x; [reflexivity|].
  simpl. f_equal. apply IH.
Qed.

Lemma occurrences_tl_le (u : string) (l : list string) :
  (occurrences u (tl l) <= occurrences u l)%Z.
Proof.
  destruct l as [|x l]; [simpl; lia|].
  cbn [tl]. rewrite occurrences_cons. destruct (String.eqb u x); lia.
Qed.

Lemma detect_reverts_users (revisions : list Revision) (out : list Revert) (u : string) :
  Analyzer.detect_reverts revisions = Ok out ->
  (reverts_by u out <= occurrences u (map get_user (tl revisions)))%Z.
Proof.
  intros E. unfold reverts_by.
  assert (HF : Forall2 event_of
                 (filter analyzer_classifies (adjacent_pairs revisions)) out).
  { destruct revisions as [|first rest].
    - simpl in E. injection E as <-. constructor.
    - pose proof (analyzer_loop_spec rest first []) as HA. cbv zeta in HA.
      simpl in E. rewrite E in HA. now destruct HA as [_ (evs & -> & HF)]. }
  rewrite (Forall2_event_users HF).
  etransitivity; [apply occurrences_filter_le|].
  unfold adjacent_pairs.
  rewrite <- (map_map snd get_user), map_snd_combine_tl. lia.
Qed.

(** C10. When the reverts are those that [detect_reverts] derives from the
    revisions, every editor profile has [reverts <= total_edits]: the revert
    events are built, in order, from some of the revisions after the first,
    each with the editor (Anonymous default included) of its revision. *)
Theorem C10_reverts_le_edits :
  forall (revisions : list Revision) (revert_events : list Revert),
    Analyzer.detect_reverts revisions = Ok revert_events ->
    forall u p,
      dict_get (editor_breakdown (_analyze_editor_participation revisions revert_events)) u
      = Some p ->
      (reverts p <= total_edits p)%Z.
Proof.
  intros revisions revert_events Hdet u p Hget.
  rewrite breakdown_get in Hget.
  destruct (edits_by u revisions =? 0)%Z; [discriminate|].
  injection Hget as <-. unfold profile_of. cbn [reverts total_edits].
  rewrite count_reverts_get.
  pose proof (detect_reverts_users revisions u Hdet) as H1.
  pose proof (occurrences_tl_le u (map get_user revisions)) as H2.
  replace (tl (map get_user revisions)) with (map get_user (tl revisions)) in H2
    by (now destruct revisions).
  unfold edits_by. lia.
Qed.

Lemma C10_witness :
  exists p,
    dict_get (editor_breakdown
                (_analyze_editor_participation
                   revs_revert events_of_revs_revert)) "B"
    = Some p /\
    (reverts p <= total_edits p)%Z.
Proof.
  eexists. split.
  - vm_compute. reflexivity.
  - apply C10_reverts_le_edits with (revisions := revs_revert)
      (revert_events := events_of_revs_revert) (u := "B"%string).
    + vm_compute. reflexivity.
    + vm_compute. reflexivity.
Defined.

(** ** ThreeRevertRuleScanner: the inner loop *)

Lemma adjacent_pairs_cons (x y : Revision) (l : list Revision) :
  adjacent_pairs (x :: y :: l) = (x, y) :: adjacent_pairs (y :: l).
Proof. reflexivity. Qed.

Lemma adjacent_pairs_snoc (l : list Revision) (a b : Revision) :
  adjacent_pairs (l ++ [a; b]) = adjacent_pairs (l ++ [a]) ++ [(a, b)].
Proof.
  induction l as [|x l IH]; [reflexivity|].
  destruct l as [|y l]; [reflexivity|].
  change ((x :: y :: l) ++ [a; b]) with (x :: y :: (l ++ [a; b])).
  change ((x :: y :: l) ++ [a]) with (x :: y :: (l ++ [a])).
  rewrite !adjacent_pairs_cons.
  change (y :: (l ++ [a; b])) with ((y :: l) ++ [a; b]).
  change (y :: (l ++ [a])) with ((y :: l) ++ [a]).
  now rewrite IH.
Qed.

(** The size test of the program decides the size condition. *)
Lemma revert_like_decides (prev cur : Revision) :
  revert_like cur prev = size_delta_below_100b (prev, cur).
Proof.
  unfold revert_like, size_delta_below_100b. cbn [fst snd].
  destruct (size cur), (size prev); reflexivity.
Qed.

Lemma size_delta_below_100_reflect (prev cur : Revision) :
  size_delta_below_100b (prev, cur) = true <-> size_delta_below_100 prev cur.
Proof.
  unfold size_delta_below_100b, size_delta_below_100. cbn [fst snd]. split.
  - destruct (size prev) as [s_prev|], (size cur) as [s_cur|]; try discriminate.
    intros H. apply Z.ltb_lt in H. now exists s_prev, s_cur.
  - intros (s_prev & s_cur & -> & -> & H). now apply Z.ltb_lt.
Qed.

Lemma similar_pairs_snoc (l : list Revision) (a b : Revision) :
  similar_pairs (l ++ [a; b])
  = (similar_pairs (l ++ [a]) + (if revert_like b a then 1 else 0))%Z.
Proof.
  unfold similar_pairs. rewrite adjacent_pairs_snoc, filter_app, length_app.
  rewrite revert_like_decides. cbn [filter].
  destruct (size_delta_below_100b (a, b)); cbn [List.length]; lia.
Qed.

Lemma gap_within_day (t_prev t_cur : Z) :
  Qle_bool (hours_between t_cur t_prev) (24 # 1) = true
  <-> (t_cur - t_prev <= 24 * 3600)%Z.
Proof.
  rewrite Qle_bool_iff. unfold hours_between, Qle. cbn [Qnum Qden]. lia.
Qed.

Lemma fires_reflect (before : list Revision) (prev cur : Revision) (t_prev t_cur : Z) :
  timestamp prev = Some t_prev ->
  timestamp cur = Some t_cur ->
  (Qle_bool (hours_between t_cur t_prev) (24 # 1)
   && (3 <=? similar_pairs (before ++ [prev; cur]))%Z = true
   <-> fires before prev cur).
Proof.
  intros Hp Hc. rewrite andb_true_iff, gap_within_day, Z.leb_le. split.
  - intros [H1 H2]. now exists t_prev, t_cur.
  - intros (tp & tc & Hp' & Hc' & H1 & H2).
    rewrite Hp in Hp'. rewrite Hc in Hc'.
    injection Hp' as <-. injection Hc' as <-. now split.
Qed.

Lemma has_timestamp_Some (rev : Revision) :
  has_timestamp rev = true -> exists t, timestamp rev = Some t.
Proof. unfold has_timestamp. destruct (timestamp rev); [eauto | discriminate]. Qed.

(** The loop returns the violation of the first pair that fires, and
    nothing when no pair fires.  [before] are the revisions already
    passed, [c] is the running counter. *)
Lemma scan_loop_spec (editor : string) (rest : list Revision) :
  forall (before : list Revision) (prev : Revision) (c : Z),
    Forall (fun rev => has_timestamp rev = true) (prev :: rest) ->
    c = similar_pairs (before ++ [prev]) ->
    match scan_loop editor prev rest c with
    | Ok (Some v) =>
        exists mid prev' cur after,
          prev :: rest = mid ++ prev' :: cur :: after /\
          fires (before ++ mid) prev' cur /\
          violation_at editor (before ++ mid) prev' cur v /\
          forall mid' p' c' a',
            prev :: rest = mid' ++ p' :: c' :: a' ->
            (List.length mid' < List.length mid)%nat ->
            ~ fires (before ++ mid') p' c'
    | Ok None =>
        forall mid p' c' a',
          prev :: rest = mid ++ p' :: c' :: a' -> ~ fires (before ++ mid) p' c'
    | Raise _ => False
    end.
Proof.
  induction rest as [|cur rest IH]; intros before prev c Hts Hc.
  - simpl. intros mid p' c' a' E.
    apply (f_equal (@List.length _)) in E. rewrite length_app in E. simpl in E. lia.
  - inversion Hts as [|? ? Hprev Hts']; subst.
    inversion Hts' as [|? ? Hcur _]; subst.
    apply has_timestamp_Some in Hprev as [t_prev Hprev].
    apply has_timestamp_Some in Hcur as [t_cur Hcur].
    cbn [scan_loop]. rewrite Hcur, Hprev. cbn [subscript bind].
    assert (Hcount :
              (if revert_like cur prev
               then (similar_pairs (before ++ [prev]) + 1)%Z
               else similar_pairs (before ++ [prev]))
              = similar_pairs (before ++ [prev; cur])).
    { rewrite similar_pairs_snoc. destruct (revert_like cur prev); lia. }
    rewrite Hcount.
    pose proof (@fires_reflect before _ _ _ _ Hprev Hcur) as Hfire.
    destruct (Qle_bool (hours_between t_cur t_prev) (24 # 1)
              && (3 <=? similar_pairs (before ++ [prev; cur]))%Z) eqn:Hcond.
    + exists [], prev, cur, rest. rewrite app_nil_r.
      split; [reflexivity|]. split; [now apply Hfire|].
      split; [now exists t_prev, t_cur|].
      intros mid' p' c' a' _ Hlt. simpl in Hlt. lia.
    + assert (Hno : ~ fires before prev cur).
      { intros H. apply Hfire in H. discriminate. }
      specialize (IH (before ++ [prev]) cur (similar_pairs (before ++ [prev; cur])) Hts').
      rewrite <- app_assoc in IH. specialize (IH eq_refl).
      destruct (scan_loop editor cur rest (similar_pairs (before ++ [prev; cur])))
        as [[v|]|e]; [| |exact IH].
      * destruct IH as (mid & prev' & cur' & after & E & Hf & Hv & Hmin).
        exists (prev :: mid), prev', cur', after.
        rewrite <- app_assoc in Hf, Hv. simpl in Hf, Hv.
        split; [simpl; now rewrite E|]. split; [exact Hf|]. split; [exact Hv|].
        intros mid' p' c' a' E' Hlt.
        destruct mid' as [|x mid'].
        -- simpl in E'. injection E' as <- <- _. rewrite app_nil_r. exact Hno.
        -- simpl in E'. injection E' as <- E'.
           specialize (Hmin mid' p' c' a' E').
           rewrite <- app_assoc in Hmin. simpl in Hmin.
           apply Hmin. simpl in Hlt. lia.
      * intros mid p' c' a' E'.
        destruct mid as [|x mid].
        -- simpl in E'. injection E' as <- <- _. rewrite app_nil_r. exact Hno.
        -- simpl in E'. injection E' as <- E'.
           specialize (IH mid p' c' a' E').
           rewrite <- app_assoc in IH. exact IH.
Qed.

(** ** ThreeRevertRuleScanner: sorting a chronological partition *)

Lemma not_later_trans (a b c : Revision) :
  not_later a b -> not_later b c -> not_later a c.
Proof.
  intros (ta & tb & Ha & Hb & Hab) (tb' & tc & Hb' & Hc & Hbc).
  rewrite Hb in Hb'. injection Hb' as <-.
  exists ta, tc. repeat split; auto. lia.
Qed.

Lemma chronological_tail (a : Revision) (l : list Revision) :
  chronological (a :: l) -> chronological l.
Proof.
  intros [Hts Hadj]. split.
  - now inversion Hts.
  - intros before x y after E. apply (Hadj (a :: before) x y after).
    simpl. now rewrite E.
Qed.

Lemma chronological_strongly_sorted (l : list Revision) :
  chronological l -> StronglySorted not_later l.
Proof.
  intros H. apply Sorted_StronglySorted.
  - intros a b c. apply not_later_trans.
  - induction l as [|a l IH]; [constructor|].
    constructor.
    + apply IH. now apply chronological_tail in H.
    + destruct l as [|b l]; constructor.
      destruct H as [_ Hadj]. now apply (Hadj [] a b l).
Qed.

Lemma StronglySorted_filter (A : Type) (R : A -> A -> Prop) (f : A -> bool)
  (l : list A) :
  StronglySorted R l -> StronglySorted R (filter f l).
Proof.
  induction 1 as [|a l Hl IH Ha]; simpl; [constructor|].
  destruct (f a); [|exact IH].
  constructor; [exact IH|].
  rewrite Forall_forall in *. intros x Hx.
  apply filter_In in Hx as [Hx _]. auto.
Qed.

Lemma Forall_filter_keep (A : Type) (P : A -> Prop) (f : A -> bool) (l : list A) :
  Forall P l -> Forall P (filter f l).
Proof.
  rewrite !Forall_forall. intros H x Hx.
  apply filter_In in Hx as [Hx _]. auto.
Qed.

Lemma timestamp_keys_ok (l : list Revision) :
  Forall (fun rev => has_timestamp rev = true) l ->
  timestamp_keys l = Ok (map keyed l).
Proof.
  induction 1 as [|rev l Hrev _ IH]; simpl; [reflexivity|].
  apply has_timestamp_Some in Hrev as [t Ht].
  unfold keyed at 1. rewrite Ht, IH. reflexivity.
Qed.

Lemma sort_keyed_sorted (l : list Revision) :
  StronglySorted not_later l -> sort_keyed (map keyed l) = map keyed l.
Proof.
  induction 1 as [|a l Hl IH Ha]; [reflexivity|].
  cbn [map sort_keyed fold_right]. fold (sort_keyed (map keyed l)). rewrite IH.
  destruct l as [|b l]; [reflexivity|].
  cbn [map insert_keyed].
  inversion Ha as [|? ? (ta & tb & Hta & Htb & Hle) _]; subst.
  unfold keyed at 1 2. cbn [fst]. rewrite Hta, Htb. cbn [get_or].
  apply Z.leb_le in Hle. now rewrite Hle.
Qed.

Lemma sort_by_timestamp_sorted (l : list Revision) :
  Forall (fun rev => has_timestamp rev = true) l ->
  StronglySorted not_later l ->
  sort_by_timestamp l = Ok l.
Proof.
  intros Hts Hs. unfold sort_by_timestamp.
  rewrite timestamp_keys_ok by exact Hts. cbn [bind].
  rewrite sort_keyed_sorted by exact Hs.
  rewrite map_map. unfold keyed. cbn [snd]. now rewrite map_id.
Qed.

(** What the scan of one editor answers on a chronological partition. *)
Lemma scan_user_spec (editor : string) (revs : list Revision) :
  Forall (fun rev => has_timestamp rev = true) revs ->
  StronglySorted not_later revs ->
  match scan_user editor revs with
  | Ok (Some v) =>
      (4 <= List.length revs)%nat /\ first_violation editor revs v
  | Ok None =>
      (4 <= List.length revs)%nat -> ~ some_pair_fires revs
  | Raise _ => False
  end.
Proof.
  intros Hts Hs. unfold scan_user.
  destruct (4 <=? List.length revs)%nat eqn:Hlen.
  - apply Nat.leb_le in Hlen.
    rewrite sort_by_timestamp_sorted by assumption. cbn [bind].
    destruct revs as [|first rest]; [simpl in Hlen; lia|].
    pose proof (@scan_loop_spec editor rest [] first 0%Z Hts eq_refl) as H.
    destruct (scan_loop editor first rest 0) as [[v|]|e]; [| |exact H].
    + split; [exact Hlen|]. exact H.
    + intros _ (before & prev & cur & after & E & Hf). exact (H _ _ _ _ E Hf).
  - apply Nat.leb_gt in Hlen. intros H. lia.
Qed.

Lemma scan_user_editor (editor : string) (revs : list Revision) (v : Violation) :
  scan_user editor revs = Ok (Some v) -> v_user v = editor.
Proof.
  unfold scan_user. destruct (4 <=? List.length revs)%nat; [|discriminate].
  destruct (sort_by_timestamp revs) as [sorted|e]; [|discriminate].
  cbn [bind]. destruct sorted as [|first rest]; [discriminate|].
  generalize 0%Z. revert first.
  induction rest as [|cur rest IH]; intros prev c; [discriminate|].
  cbn [scan_loop].
  destruct (subscript "timestamp" (timestamp cur)) as [tc|]; [|discriminate].
  destruct (subscript "timestamp" (timestamp prev)) as [tp|]; [|discriminate].
  cbn [bind].
  match goal with |- (if ?b then _ else _) = _ -> _ => destruct b end.
  - now intros [= <-].
  - apply IH.
Qed.

(** ** ThreeRevertRuleScanner: partition by editor and the outer loop *)

Lemma group_fold_get (revisions : list Revision) :
  forall (d : dict (list Revision)) (u : string),
    dict_get (fold_left (fun user_revisions rev =>
                           dict_append user_revisions (get_user rev) rev)
                        revisions d) u
    = match revisions_of u revisions with
      | [] => dict_get d u
      | l => Some (get_or (dict_get d u) [] ++ l)
      end.
Proof.
  induction revisions as [|rev revisions IH]; intros d u; [reflexivity|].
  cbn [fold_left]. rewrite IH. unfold revisions_of. cbn [filter].
  fold (revisions_of u revisions). unfold dict_append.
  destruct (String.eqb (get_user rev) u) eqn:E.
  - apply String.eqb_eq in E. subst u. rewrite dict_get_set_same. cbn [get_or].
    destruct (revisions_of (get_user rev) revisions) as [|x l].
    + reflexivity.
    + now rewrite <- app_assoc.
  - apply String.eqb_neq in E. now rewrite dict_get_set_other by exact E.
Qed.

Lemma group_by_user_get (revisions : list Revision) (u : string) :
  dict_get (group_by_user revisions) u
  = match revisions_of u revisions with
    | [] => None
    | l => Some l
    end.
Proof. unfold group_by_user. rewrite group_fold_get. reflexivity. Qed.

Lemma NoDup_keys_group_by_user (revisions : list Revision) :
  NoDup (keys (group_by_user revisions)).
Proof.
  unfold group_by_user.
  assert (H : NoDup (keys (@nil (string * list Revision)))) by constructor.
  revert H. generalize (@nil (string * list Revision)).
  induction revisions as [|rev revisions IH]; intros d Hd; [exact Hd|].
  cbn [fold_left]. apply IH. now apply NoDup_keys_dict_set.
Qed.

Lemma group_by_user_In (revisions : list Revision) (u : string) (l : list Revision) :
  In (u, l) (group_by_user revisions) <-> l = revisions_of u revisions /\ l <> [].
Proof.
  split.
  - intros Hin. apply In_dict_get in Hin; [|apply NoDup_keys_group_by_user].
    rewrite group_by_user_get in Hin.
    destruct (revisions_of u revisions); [discriminate|].
    injection Hin as <-. split; [reflexivity | discriminate].
  - intros [-> Hne]. apply dict_get_In. rewrite group_by_user_get.
    destruct (revisions_of u revisions); [contradiction | reflexivity].
Qed.

Lemma scan_users_found (items : dict (list Revision)) :
  forall acc : list Violation,
    (forall item, In item items ->
                  exists r, scan_user (fst item) (snd item) = Ok r) ->
    scan_users items acc = Ok (acc ++ found_in items).
Proof.
  induction items as [|[u l] items IH]; intros acc Hok.
  - simpl. now rewrite app_nil_r.
  - cbn [scan_users found_in flat_map fst snd].
    destruct (Hok (u, l) (or_introl eq_refl)) as [r Hr]. cbn [fst snd] in Hr.
    rewrite Hr. cbn [bind].
    rewrite IH by (intros item Hin; apply Hok; now right).
    unfold found_in. destruct r as [v|]; [|reflexivity].
    now rewrite <- app_assoc.
Qed.

Lemma found_in_In (items : dict (list Revision)) (v : Violation) :
  In v (found_in items) <->
  exists u l, In (u, l) items /\ scan_user u l = Ok (Some v).
Proof.
  unfold found_in. rewrite in_flat_map. split.
  - intros ([u l] & Hin & Hv). cbn [fst snd] in Hv.
    destruct (scan_user u l) as [[v'|]|e] eqn:E;
      [destruct Hv as [<- | []]; now exists u, l | destruct Hv | destruct Hv].
  - intros (u & l & Hin & E). exists (u, l). split; [exact Hin|].
    cbn [fst snd]. rewrite E. now left.
Qed.

Lemma found_in_users (items : dict (list Revision)) :
  NoDup (keys items) -> NoDup (map v_user (found_in items)).
Proof.
  induction items as [|[u l] items IH]; intros Hnd; [constructor|].
  cbn [keys map fst] in Hnd. inversion Hnd as [|? ? Hnotin Hnd']; subst.
  unfold found_in. cbn [flat_map fst snd]. fold (found_in items).
  destruct (scan_user u l) as [[v|]|e] eqn:E; try (now apply IH).
  cbn [app map]. constructor; [|now apply IH].
  rewrite (scan_user_editor _ _ E).
  intros Hin. apply in_map_iff in Hin as (v' & Hu & Hv').
  apply found_in_In in Hv' as (u' & l' & Hin' & E').
  rewrite (scan_user_editor _ _ E') in Hu. subst u'.
  apply Hnotin. now apply (in_map fst) in Hin'.
Qed.

Lemma app_same_length (A : Type) (l1 l2 r1 r2 : list A) :
  List.length l1 = List.length l2 -> l1 ++ r1 = l2 ++ r2 -> l1 = l2 /\ r1 = r2.
Proof.
  revert l2. induction l1 as [|x l1 IH]; intros [|y l2] Hlen E;
    simpl in *; try discriminate; [now split|].
  injection E as -> E. injection Hlen as Hlen.
  destruct (IH l2 Hlen E) as [-> ->]. now split.
Qed.

Lemma first_violation_unique (editor : string) (revs : list Revision) (v v' : Violation) :
  first_violation editor revs v -> first_violation editor revs v' -> v = v'.
Proof.
  intros (b1 & p1 & c1 & a1 & E1 & F1 & V1 & M1) (b2 & p2 & c2 & a2 & E2 & F2 & V2 & M2).
  destruct (Nat.lt_trichotomy (List.length b1) (List.length b2)) as [H | [H | H]].
  - exfalso. exact (M2 _ _ _ _ E1 H F1).
  - rewrite E1 in E2. destruct (app_same_length _ _ _ _ H E2) as [<- E].
    injection E as <- <- _.
    destruct V1 as (tp & tc & Hp & Hc & ->), V2 as (tp' & tc' & Hp' & Hc' & ->).
    rewrite Hp in Hp'. rewrite Hc in Hc'.
    injection Hp' as <-. injection Hc' as <-. reflexivity.
  - exfalso. exact (M1 _ _ _ _ E2 H F2).
Qed.

Lemma first_violation_fires (editor : string) (revs : list Revision) (v : Violation) :
  first_violation editor revs v -> some_pair_fires revs.
Proof. intros (b & p & c & a & E & F & _). now exists b, p, c, a. Qed.

Lemma chronologicalb_correct (revisions : list Revision) :
  chronologicalb revisions = true -> chronological revisions.
Proof.
  unfold chronologicalb. intros [Hts Hasc]%andb_prop. split.
  - apply Forall_forall. now apply forallb_forall.
  - clear Hts. induction revisions as [|x l IH]; intros before a b after E.
    + now destruct before.
    + destruct l as [|y l]; [now destruct before as [|? [|? ?]]|].
      cbn [ascendingb] in Hasc. apply andb_prop in Hasc as [Hxy Hasc].
      destruct before as [|z before].
      * simpl in E. injection E as <- <- _.
        destruct (timestamp x) as [tx|] eqn:Hx; [|discriminate].
        destruct (timestamp y) as [ty|] eqn:Hy; [|discriminate].
        exists tx, ty. repeat split; auto. now apply Z.leb_le.
      * simpl in E. injection E as _ E. now apply (IH Hasc before a b after).
Qed.

Lemma partition_chronological (revisions : list Revision) (u : string) :
  chronological revisions ->
  Forall (fun rev => has_timestamp rev = true) (revisions_of u revisions) /\
  StronglySorted not_later (revisions_of u revisions).
Proof.
  intros H. split.
  - apply Forall_filter_keep. now destruct H.
  - apply StronglySorted_filter. now apply chronological_strongly_sorted.
Qed.

(** ** Claims on ThreeRevertRuleScanner *)

(** C4. On a chronologically ordered revision sequence the scanner returns,
    and its violations are exactly these: for every editor with at least 4
    revisions, walking the neighbouring pairs of that editor's revisions with
    a counter that is incremented when both sizes are present and differ by
    less than 100 bytes and that is never reset, the violation of the first
    pair whose gap is at most 24 hours (86400 seconds) while the counter is
    at least 3, with the timestamp of the pair's later revision, the value
    of the counter and the gap of the pair in hours (its seconds over 3600).
    No editor has two violations; an editor with fewer than 4 revisions has
    none; an editor with at least 4 revisions one of whose pairs meets the
    condition has one.  The size condition, the counter and the gap are
    those of [size_delta_below_100b], [similar_pairs], [fires] and
    [violation_at], which are written without the scanner's own tests. *)
Theorem C4_three_revert_scan :
  forall revisions : list Revision,
    chronological revisions ->
    exists violations,
      _detect_three_revert_violations revisions = Ok violations /\
      NoDup (map v_user violations) /\
      (forall v,
          In v violations <->
          (4 <= List.length (revisions_of (v_user v) revisions))%nat /\
          first_violation (v_user v) (revisions_of (v_user v) revisions) v) /\
      (forall u,
          (4 <= List.length (revisions_of u revisions))%nat ->
          some_pair_fires (revisions_of u revisions) ->
          exists v, In v violations /\ v_user v = u).
Proof.
  intros revisions Hchr.
  pose proof (fun u => partition_chronological u Hchr) as Hpart.
  assert (Hscan : forall u l,
             In (u, l) (group_by_user revisions) ->
             l = revisions_of u revisions /\
             match scan_user u l with
             | Ok (Some v) => (4 <= List.length l)%nat /\ first_violation u l v
             | Ok None => (4 <= List.length l)%nat -> ~ some_pair_fires l
             | Raise _ => False
             end).
  { intros u l Hin. apply group_by_user_In in Hin as [-> _].
    split; [reflexivity|]. destruct (Hpart u) as [Hts Hs].
    now apply scan_user_spec. }
  exists (found_in (group_by_user revisions)).
  split; [|split; [|split]].
  - unfold _detect_three_revert_violations.
    rewrite scan_users_found; [reflexivity|].
    intros [u l] Hin. cbn [fst snd]. destruct (Hscan u l Hin) as [_ H].
    destruct (scan_user u l) as [r|e]; [eauto | destruct H].
  - apply found_in_users, NoDup_keys_group_by_user.
  - intros v. rewrite found_in_In. split.
    + intros (u & l & Hin & E).
      destruct (Hscan u l Hin) as [-> H]. rewrite E in H.
      now rewrite (scan_user_editor _ _ E).
    + intros [Hlen Hfirst].
      set (u := v_user v) in *. set (l := revisions_of u revisions) in *.
      assert (Hin : In (u, l) (group_by_user revisions)).
      { apply group_by_user_In. split; [reflexivity|].
        intros E. rewrite E in Hlen. simpl in Hlen. lia. }
      exists u, l. split; [exact Hin|].
      destruct (Hscan u l Hin) as [_ H].
      destruct (scan_user u l) as [[v'|]|e]; [| |destruct H].
      * destruct H as [_ H]. now rewrite (first_violation_unique H Hfirst).
      * exfalso. apply (H Hlen). eapply first_violation_fires, Hfirst.
  - intros u Hlen Hfires.
    set (l := revisions_of u revisions) in *.
    assert (Hin : In (u, l) (group_by_user revisions)).
    { apply group_by_user_In. split; [reflexivity|].
      intros E. rewrite E in Hlen. simpl in Hlen. lia. }
    destruct (Hscan u l Hin) as [_ H].
    destruct (scan_user u l) as [[v|]|e] eqn:E; [| |destruct H].
    + exists v. split; [|exact (scan_user_editor _ _ E)].
      apply found_in_In. now exists u, l.
    + exfalso. exact (H Hlen Hfires).
Qed.

Lemma C4_witness :
  exists violations,
    _detect_three_revert_violations sample_history = Ok violations /\
    In {| v_user := "A"; v_timestamp := 10800; v_revert_count := 3;
          v_time_window_hours := 3600 # 3600 |} violations.
Proof.
  destruct (C4_three_revert_scan (revisions := sample_history))
    as (violations & Hrun & _ & Hexact & _).
  - apply chronologicalb_correct. reflexivity.
  - exists violations. split; [exact Hrun|].
    apply Hexact. split; [cbv; lia|].
    exists [sample_rev 0 "A" "start" (Some 1000%Z);
            sample_rev 3600 "A" "more" (Some 1005%Z)],
           (sample_rev 7200 "A" "more" (Some 1010%Z)),
           (sample_rev 10800 "A" "more" (Some 1015%Z)),
           [sample_rev 14400 "A" "more" (Some 1020%Z)].
    split; [reflexivity|]. split; [|split].
    + exists 7200%Z, 10800%Z.
      split; [reflexivity|]. split; [reflexivity|]. split; [lia|].
      cbv. discriminate.
    + exists 7200%Z, 10800%Z.
      split; [reflexivity|]. split; reflexivity.
    + intros before' prev' cur' after' E Hlt.
      intros (t_prev & t_cur & _ & _ & _ & Hcount).
      destruct before' as [|x [|y before']].
      * injection E as <- <- _. cbv in Hcount. now apply Hcount.
      * injection E as <- <- <- _. cbv in Hcount. now apply Hcount.
      * cbn [List.length] in Hlt. lia.
Defined.

Lemma group_by_user_single (editor : string) (revisions : list Revision) :
  Forall (fun rev => get_user rev = editor) revisions ->
  revisions <> [] ->
  group_by_user revisions = [(editor, revisions)].
Proof.
  intros Hall Hne.
  assert (Hfold : forall revs acc,
             Forall (fun rev => get_user rev = editor) revs ->
             fold_left (fun d rev => dict_append d (get_user rev) rev)
                       revs [(editor, acc)]
             = [(editor, acc ++ revs)]).
  { induction revs as [|rev revs IH]; intros acc Hrevs.
    - simpl. now rewrite app_nil_r.
    - inversion_clear Hrevs as [|? ? Hrev Hrevs'].
      cbn [fold_left]. unfold dict_append at 2. rewrite Hrev.
      cbn [dict_get dict_set]. rewrite String.eqb_refl. cbn [get_or].
      rewrite IH by exact Hrevs'. now rewrite <- app_assoc. }
  destruct revisions as [|rev revisions]; [contradiction|].
  inversion_clear Hall as [|? ? Hrev Hall'].
  unfold group_by_user. cbn [fold_left]. unfold dict_append at 2.
  cbn [dict_get dict_set get_or app]. rewrite Hrev.
  now rewrite Hfold.
Qed.

(** C5. One editor, five revisions in chronological order, every gap at
    most 24 hours, every size 5 bytes away from the size before: the scanner
    emits exactly one violation, at the fourth revision, where the running
    counter first reaches 3, with [revert_count = 3] and the gap between the
    third and the fourth revision. *)
Theorem C5_five_edits :
  forall (editor : string) (r0 r1 r2 r3 r4 : Revision)
         (t0 t1 t2 t3 t4 s0 s1 s2 s3 s4 : Z),
    map get_user [r0; r1; r2; r3; r4] = [editor; editor; editor; editor; editor] ->
    map timestamp [r0; r1; r2; r3; r4] = map Some [t0; t1; t2; t3; t4] ->
    map size [r0; r1; r2; r3; r4] = map Some [s0; s1; s2; s3; s4] ->
    (t0 <= t1 <= t2 /\ t2 <= t3 <= t4)%Z ->
    (hours_between t1 t0 <= 24 # 1 /\ hours_between t2 t1 <= 24 # 1 /\
     hours_between t3 t2 <= 24 # 1 /\ hours_between t4 t3 <= 24 # 1)%Q ->
    (Z.abs (s1 - s0) = 5 /\ Z.abs (s2 - s1) = 5 /\
     Z.abs (s3 - s2) = 5 /\ Z.abs (s4 - s3) = 5)%Z ->
    _detect_three_revert_violations [r0; r1; r2; r3; r4]
    = Ok [{| v_user := editor;
             v_timestamp := t3;
             v_revert_count := 3;
             v_time_window_hours := hours_between t3 t2 |}].
Proof.
  intros editor r0 r1 r2 r3 r4 t0 t1 t2 t3 t4 s0 s1 s2 s3 s4 Hu Ht Hs Hord Hgap Hdelta.
  injection Hu as U0 U1 U2 U3 U4.
  injection Ht as T0 T1 T2 T3 T4.
  injection Hs as S0 S1 S2 S3 S4.
  destruct Hgap as (G1 & G2 & G3 & G4).
  destruct Hdelta as (D1 & D2 & D3 & D4).
  unfold _detect_three_revert_violations.
  rewrite (@group_by_user_single editor) by (repeat constructor; assumption) || discriminate.
  cbn [scan_users scan_user List.length Nat.leb].
  rewrite sort_by_timestamp_sorted.
  - cbn [bind scan_loop]. rewrite T0, T1, T2, T3. cbn [subscript bind].
    unfold revert_like. rewrite S0, S1, S2, S3, D1, D2, D3.
    apply Qle_bool_iff in G1, G2, G3. rewrite G1, G2, G3.
    reflexivity.
  - unfold has_timestamp. repeat constructor; rewrite ?T0, ?T1, ?T2, ?T3, ?T4; reflexivity.
  - assert (N : forall a b ta tb,
               timestamp a = Some ta -> timestamp b = Some tb -> (ta <= tb)%Z ->
               not_later a b)
      by (intros a b ta tb Ha Hb Hab; now exists ta, tb).
    repeat (apply SSorted_cons || apply SSorted_nil
            || apply Forall_cons || apply Forall_nil);
      eapply N; eauto; lia.
Qed.

Lemma C5_witness :
  _detect_three_revert_violations (revisions_of "A" sample_history)
  = Ok [{| v_user := "A"; v_timestamp := 10800; v_revert_count := 3;
           v_time_window_hours := hours_between 10800 7200 |}].
Proof.
  apply (@C5_five_edits "A"%string _ _ _ _ _
           0 3600 7200 10800 14400 1000 1005 1010 1015 1020)%Z.
  - reflexivity.
  - reflexivity.
  - reflexivity.
  - lia.
  - vm_compute. repeat split; discriminate.
  - vm_compute. repeat split.
Defined.

(** * Further properties of the engine and of its callers *)

(** ** EpisodeGrouper: nothing is lost, nothing is reordered *)

Section GroupingPartition.

Variable R : Type.
Variable tm : R -> Z.
Variable win : Q.
Variable thr : Z.

Lemma close_group_zero (cur : list R) (groups : list (list R)) :
  close_group 0 cur groups = groups ++ [cur].
Proof.
  unfold close_group.
  destruct (0 <=? Z.of_nat (List.length cur))%Z eqn:E; [reflexivity|].
  apply Z.leb_gt in E. lia.
Qed.

Lemma close_group_filter (cur : list R) (groups : list (list R)) :
  close_group thr cur (filter (long_enough thr) groups)
  = filter (long_enough thr) (close_group 0 cur groups).
Proof.
  rewrite close_group_zero, filter_app. unfold close_group. cbn [filter].
  change (long_enough thr cur) with (thr <=? Z.of_nat (List.length cur))%Z.
  destruct (thr <=? Z.of_nat (List.length cur))%Z; [reflexivity|].
  now rewrite app_nil_r.
Qed.

Lemma group_loop_filter (rest : list R) :
  forall (prev : R) (cur : list R) (groups : list (list R)),
    group_loop tm win thr prev rest cur (filter (long_enough thr) groups)
    = filter (long_enough thr) (group_loop tm win 0 prev rest cur groups).
Proof.
  induction rest as [|r rest IH]; intros prev cur groups; cbn [group_loop].
  - apply close_group_filter.
  - destruct (Qle_bool (hours_between (tm r) (tm prev)) win).
    + apply IH.
    + rewrite close_group_filter. apply IH.
Qed.

Lemma group_loop_concat (rest : list R) :
  forall (prev : R) (cur : list R) (groups : list (list R)),
    List.concat (group_loop tm win 0 prev rest cur groups)
    = List.concat groups ++ cur ++ rest.
Proof.
  induction rest as [|r rest IH]; intros prev cur groups; cbn [group_loop].
  - rewrite close_group_zero, concat_app. simpl. now rewrite !app_nil_r.
  - destruct (Qle_bool (hours_between (tm r) (tm prev)) win).
    + rewrite IH. now rewrite <- app_assoc.
    + rewrite IH, close_group_zero, concat_app. simpl.
      now rewrite app_nil_r, <- app_assoc.
Qed.

Lemma filter_all_true (A : Type) (f : A -> bool) (l : list A) :
  (forall x, In x l -> f x = true) -> filter f l = l.
Proof.
  induction l as [|x l IH]; intros H; [reflexivity|].
  simpl. rewrite (H x (or_introl eq_refl)). f_equal. apply IH.
  intros y Hy. apply H. now right.
Qed.

End GroupingPartition.

(** X1. [_group_reverts_by_time] neither loses nor reorders reverts: run
    with threshold 0 it cuts the input into consecutive non-empty groups
    whose concatenation is the input, and run with any threshold it returns
    exactly those of these groups that have at least [revert_threshold]
    members, in the same order.  So with a threshold of at most 1 the groups
    concatenate to the input. *)
Theorem X1_grouping_partition :
  forall (R : Type) (time_of : R -> Z) (window_hours : Q) (revert_threshold : Z)
         (reverts : list R),
    let runs := _group_reverts_by_time time_of window_hours 0 reverts in
    List.concat runs = reverts /\
    (forall g, In g runs -> g <> []) /\
    _group_reverts_by_time time_of window_hours revert_threshold reverts
    = filter (long_enough revert_threshold) runs /\
    ((revert_threshold <= 1)%Z ->
     List.concat (_group_reverts_by_time time_of window_hours revert_threshold reverts)
     = reverts).
Proof.
  intros R time_of window_hours revert_threshold reverts runs.
  assert (Hcat : List.concat runs = reverts).
  { subst runs. destruct reverts as [|first rest]; [reflexivity|].
    cbn [_group_reverts_by_time]. now rewrite group_loop_concat. }
  assert (Hne : forall g, In g runs -> g <> []).
  { intros g Hin. apply group_reverts_spec in Hin as [_ (b & a & _ & H & _)].
    exact H. }
  assert (Hfil : _group_reverts_by_time time_of window_hours revert_threshold reverts
                 = filter (long_enough revert_threshold) runs).
  { subst runs. destruct reverts as [|first rest]; [reflexivity|].
    cbn [_group_reverts_by_time].
    now rewrite <- group_loop_filter. }
  repeat split; auto.
  intros Hthr. rewrite Hfil, filter_all_true; [exact Hcat|].
  intros g Hin. apply Hne in Hin. unfold long_enough. apply Z.leb_le.
  destruct g; [contradiction | simpl List.length; lia].
Qed.

Lemma X1_witness :
  List.concat (_group_reverts_by_time rv_timestamp (24 # 1) 1 sample_war_then_one)
  = sample_war_then_one.
Proof.
  apply (X1_grouping_partition rv_timestamp (24 # 1) 1 sample_war_then_one).
  lia.
Defined.

(** ** RevertClassifier: order and size of the output *)

Lemma analyzer_detect_Forall2 (revisions : list Revision) (out : list Revert) :
  Analyzer.detect_reverts revisions = Ok out ->
  Forall2 event_of (filter analyzer_classifies (adjacent_pairs revisions)) out.
Proof.
  intros E. destruct revisions as [|first rest].
  - simpl in E. injection E as <-. constructor.
  - pose proof (analyzer_loop_spec rest first []) as HA. cbv zeta in HA.
    simpl in E. rewrite E in HA. now destruct HA as [_ (evs & -> & HF)].
Qed.

Lemma quick_detect_Forall2 (revisions : list Revision) (out : list QuickRevert) :
  Quick.detect_reverts_quick revisions = Ok out ->
  Forall2 quick_event_of (filter Quick.is_revert (tl revisions)) out.
Proof.
  intros E. destruct revisions as [|first rest].
  - simpl in E. injection E as <-. constructor.
  - pose proof (quick_loop_spec rest first []) as HQ.
    simpl in E. rewrite E in HQ. now destruct HQ as [_ (evs & -> & HF)].
Qed.

Lemma Forall2_length_eq (A B : Type) (P : A -> B -> Prop) (l : list A) (l' : list B) :
  Forall2 P l l' -> List.length l = List.length l'.
Proof. induction 1; simpl; congruence. Qed.

Lemma filter_length_le (A : Type) (f : A -> bool) (l : list A) :
  (List.length (filter f l) <= List.length l)%nat.
Proof. induction l as [|x l IH]; simpl; [lia|]. destruct (f x); simpl; lia. Qed.

Lemma adjacent_pairs_length (revisions : list Revision) :
  List.length (adjacent_pairs revisions) = List.length (tl revisions).
Proof.
  unfold adjacent_pairs. rewrite length_combine.
  destruct revisions; cbn [tl List.length]; lia.
Qed.

Lemma analyzer_detect_length (revisions : list Revision) (out : list Revert) :
  Analyzer.detect_reverts revisions = Ok out ->
  (List.length out <= List.length (tl revisions))%nat.
Proof.
  intros E. apply analyzer_detect_Forall2, Forall2_length_eq in E.
  rewrite <- E, <- adjacent_pairs_length. apply filter_length_le.
Qed.

Lemma quick_detect_length (revisions : list Revision) (out : list QuickRevert) :
  Quick.detect_reverts_quick revisions = Ok out ->
  (List.length out <= List.length (tl revisions))%nat.
Proof.
  intros E. apply quick_detect_Forall2, Forall2_length_eq in E.
  rewrite <- E. apply filter_length_le.
Qed.

Lemma StronglySorted_map (A B : Type) (R : B -> B -> Prop) (g : A -> B) (l : list A) :
  StronglySorted (fun a b => R (g a) (g b)) l <-> StronglySorted R (map g l).
Proof.
  induction l as [|x l IH]; simpl.
  - split; constructor.
  - split; intros H; inversion H as [|? ? Hl Hx]; subst; constructor.
    + now apply IH.
    + rewrite Forall_forall in *. intros y Hy.
      apply in_map_iff in Hy as (z & <- & Hz). auto.
    + now apply IH.
    + rewrite Forall_forall in *. intros y Hy. apply Hx. now apply in_map.
Qed.

Lemma StronglySorted_weaken (A : Type) (R R' : A -> A -> Prop) (l : list A) :
  (forall a b, R a b -> R' a b) -> StronglySorted R l -> StronglySorted R' l.
Proof.
  intros Himp. induction 1 as [|x l Hl IH Hx]; constructor; [exact IH|].
  eapply Forall_impl; [|exact Hx]. auto.
Qed.

Lemma StronglySorted_tl (A : Type) (R : A -> A -> Prop) (l : list A) :
  StronglySorted R l -> StronglySorted R (tl l).
Proof. intros H. destruct l; [constructor | now inversion H]. Qed.

Lemma not_later_times (a b : Revision) :
  not_later a b -> (time_or_zero a <= time_or_zero b)%Z.
Proof.
  intros (ta & tb & Ha & Hb & Hle). unfold time_or_zero. now rewrite Ha, Hb.
Qed.

Lemma chronological_times (revisions : list Revision) :
  chronological revisions ->
  StronglySorted (fun a b => (time_or_zero a <= time_or_zero b)%Z) revisions.
Proof.
  intros H. apply chronological_strongly_sorted in H.
  eapply StronglySorted_weaken; [|exact H]. apply not_later_times.
Qed.

Lemma Forall2_event_times (hits : list (Revision * Revision)) (out : list Revert) :
  Forall2 event_of hits out ->
  map rv_timestamp out = map (fun pair => time_or_zero (snd pair)) hits.
Proof.
  induction 1 as [|pair ev hits out Hev _ IH]; simpl; [reflexivity|].
  destruct Hev as (Ht & _). unfold time_or_zero at 1. rewrite Ht. simpl.
  now rewrite IH.
Qed.

Lemma Forall2_quick_event_times (hits : list Revision) (out : list QuickRevert) :
  Forall2 quick_event_of hits out ->
  map q_timestamp out = map time_or_zero hits.
Proof.
  induction 1 as [|rev ev hits out Hev _ IH]; simpl; [reflexivity|].
  destruct Hev as (Ht & _). unfold time_or_zero at 1. rewrite Ht. simpl.
  now rewrite IH.
Qed.

(** X2. The classifiers keep the order of the history: on a chronologically
    ordered revision sequence the timestamps of the revert events returned
    by [EditWarAnalyzer.detect_reverts] and by [detect_reverts_quick] are in
    non-decreasing order, which is what the grouping loops rely on. *)
Theorem X2_reverts_chronological :
  forall revisions : list Revision,
    chronological revisions ->
    (forall out, Analyzer.detect_reverts revisions = Ok out ->
                 StronglySorted Z.le (map rv_timestamp out)) /\
    (forall out, Quick.detect_reverts_quick revisions = Ok out ->
                 StronglySorted Z.le (map q_timestamp out)).
Proof.
  intros revisions Hchr. apply chronological_times in Hchr.
  apply StronglySorted_tl in Hchr. split; intros out E.
  - apply analyzer_detect_Forall2 in E.
    rewrite (Forall2_event_times E).
    apply (proj1 (StronglySorted_map Z.le _ _)), StronglySorted_filter.
    apply (proj2 (StronglySorted_map Z.le (fun pair => time_or_zero (snd pair)) _)).
    unfold adjacent_pairs.
    rewrite <- (map_map snd time_or_zero), map_snd_combine_tl.
    now apply (proj1 (StronglySorted_map Z.le time_or_zero _)).
  - apply quick_detect_Forall2 in E.
    rewrite (Forall2_quick_event_times E).
    apply (proj1 (StronglySorted_map Z.le _ _)), StronglySorted_filter.
    exact Hchr.
Qed.

Lemma X2_witness :
  exists events quick_events,
    Analyzer.detect_reverts sample_revert_chain = Ok events /\
    Quick.detect_reverts_quick sample_revert_chain = Ok quick_events /\
    map rv_timestamp events = [3600; 7200; 10800]%Z /\
    map q_timestamp quick_events = [3600; 7200; 10800]%Z /\
    StronglySorted Z.le (map rv_timestamp events) /\
    StronglySorted Z.le (map q_timestamp quick_events).
Proof.
  destruct (@X2_reverts_chronological sample_revert_chain
              (chronologicalb_correct sample_revert_chain eq_refl))
    as [Hanalyzer Hquick].
  destruct (Analyzer.detect_reverts sample_revert_chain) as [events|e] eqn:Ea;
    [|vm_compute in Ea; discriminate].
  destruct (Quick.detect_reverts_quick sample_revert_chain)
    as [quick_events|e] eqn:Eq; [|vm_compute in Eq; discriminate].
  exists events, quick_events.
  split; [reflexivity|]. split; [reflexivity|].
  split; [vm_compute in Ea; now injection Ea as <-|].
  split; [vm_compute in Eq; now injection Eq as <-|].
  split; [now apply Hanalyzer | now apply Hquick].
Defined.

Lemma Forall2_In_r (A B : Type) (P : A -> B -> Prop) (l : list A) (l' : list B) (y : B) :
  Forall2 P l l' -> In y l' -> exists x, In x l /\ P x y.
Proof.
  induction 1 as [|a b l l' Hab _ IH]; intros Hin; [destruct Hin|].
  destruct Hin as [<- | Hin].
  - exists a. split; [now left | exact Hab].
  - destruct (IH Hin) as (x & Hx & Hp). exists x. split; [now right | exact Hp].
Qed.

Lemma Forall2_In_l (A B : Type) (P : A -> B -> Prop) (l : list A) (l' : list B) (x : A) :
  Forall2 P l l' -> In x l -> exists y, In y l' /\ P x y.
Proof.
  induction 1 as [|a b l l' Hab _ IH]; intros Hin; [destruct Hin|].
  destruct Hin as [<- | Hin].
  - exists b. split; [now left | exact Hab].
  - destruct (IH Hin) as (y & Hy & Hp). exists y. split; [now right | exact Hp].
Qed.

Lemma filter_length_mono (A : Type) (f g : A -> bool) (l : list A) :
  (forall x, f x = true -> g x = true) ->
  (List.length (filter f l) <= List.length (filter g l))%nat.
Proof.
  intros Himp. induction l as [|x l IH]; simpl; [lia|].
  destruct (f x) eqn:E.
  - rewrite (Himp x E). simpl. lia.
  - destruct (g x); simpl; lia.
Qed.

Lemma filter_map_length (A B : Type) (g : B -> bool) (h : A -> B) (l : list A) :
  List.length (filter (fun x => g (h x)) l) = List.length (filter g (map h l)).
Proof.
  induction l as [|x l IH]; simpl; [reflexivity|].
  destruct (g (h x)); simpl; now rewrite IH.
Qed.

Lemma analyzer_classifies_is_revert (pair : Revision * Revision) :
  analyzer_classifies pair = true -> Quick.is_revert (snd pair) = true.
Proof.
  unfold analyzer_classifies. rewrite <- analyzer_is_revert_quick.
  destruct (size (snd pair)), (size (fst pair)); try discriminate.
  now intros [_ H]%andb_prop.
Qed.

(** X3. Whatever [EditWarAnalyzer.detect_reverts] classifies as a revert,
    [detect_reverts_quick] classifies as well: when both return on the same
    history, every event of the former has a counterpart with the same
    timestamp, editor, comment and size among the events of the latter, and
    the former has no more events than the latter. *)
Theorem X3_analyzer_within_quick :
  forall (revisions : list Revision) (strict : list Revert) (loose : list QuickRevert),
    Analyzer.detect_reverts revisions = Ok strict ->
    Quick.detect_reverts_quick revisions = Ok loose ->
    (List.length strict <= List.length loose)%nat /\
    forall ev, In ev strict ->
      exists qv, In qv loose /\
                 q_timestamp qv = rv_timestamp ev /\
                 q_user qv = rv_user ev /\
                 q_comment qv = rv_comment ev /\
                 q_size qv = rv_size ev.
Proof.
  intros revisions strict loose Ha Hq.
  apply analyzer_detect_Forall2 in Ha. apply quick_detect_Forall2 in Hq.
  split.
  - rewrite <- (Forall2_length_eq Ha), <- (Forall2_length_eq Hq).
    etransitivity;
      [apply (filter_length_mono _ (fun pair => Quick.is_revert (snd pair)));
       apply analyzer_classifies_is_revert|].
    rewrite filter_map_length. unfold adjacent_pairs.
    now rewrite map_snd_combine_tl.
  - intros ev Hev.
    destruct (Forall2_In_r ev Ha Hev) as ([prev cur] & Hpair & Hevent).
    apply filter_In in Hpair as [Hpair Hcls].
    apply analyzer_classifies_is_revert in Hcls. cbn [snd] in Hcls.
    apply in_combine_r in Hpair.
    assert (Hcur : In cur (filter Quick.is_revert (tl revisions)))
      by (apply filter_In; now split).
    destruct (Forall2_In_l cur Hq Hcur) as (qv & Hqv & Ht & Hu & Hc & Hs).
    destruct Hevent as (Ht' & Hu' & Hc' & Hs' & _). cbn [snd] in *.
    exists qv. split; [exact Hqv|].
    rewrite Ht' in Ht. injection Ht as Ht.
    rewrite Hu, Hc, Hs, Hu', Hc', Hs'. cbn [get_or]. auto.
Qed.

Lemma X3_witness :
  (List.length events_of_revs_revert
   <= List.length [{| q_timestamp := 60; q_user := "B";
                      q_comment := "Undo revision 6"; q_size := 1001 |}])%nat.
Proof.
  apply (fun Ha Hq => proj1 (@X3_analyzer_within_quick revs_revert _ _ Ha Hq));
    reflexivity.
Defined.

(** ** ThreeRevertRuleScanner on arbitrary input *)

Lemma insert_keyed_In (x y : Z * Revision) (s : list (Z * Revision)) :
  In y (insert_keyed x s) <-> y = x \/ In y s.
Proof.
  induction s as [|z s IH]; simpl.
  - split; [intros [<- | []]; now left | intros [-> | []]; now left].
  - destruct (fst x <=? fst z)%Z; simpl; [intuition congruence|].
    rewrite IH. tauto.
Qed.

Lemma sort_keyed_In (y : Z * Revision) (l : list (Z * Revision)) :
  In y (sort_keyed l) <-> In y l.
Proof.
  induction l as [|x l IH]; simpl; [tauto|].
  fold (sort_keyed l). rewrite insert_keyed_In, IH. intuition congruence.
Qed.

Lemma insert_keyed_length (x : Z * Revision) (s : list (Z * Revision)) :
  List.length (insert_keyed x s) = S (List.length s).
Proof.
  induction s as [|z s IH]; simpl; [reflexivity|].
  destruct (fst x <=? fst z)%Z; simpl; [reflexivity | now rewrite IH].
Qed.

Lemma sort_keyed_length (l : list (Z * Revision)) :
  List.length (sort_keyed l) = List.length l.
Proof.
  induction l as [|x l IH]; simpl; [reflexivity|].
  fold (sort_keyed l). now rewrite insert_keyed_length, IH.
Qed.

Lemma insert_keyed_sorted (x : Z * Revision) (s : list (Z * Revision)) :
  Sorted (fun a b => (fst a <= fst b)%Z) s ->
  Sorted (fun a b => (fst a <= fst b)%Z) (insert_keyed x s).
Proof.
  induction s as [|z s IH]; intros Hs; simpl.
  - repeat constructor.
  - destruct (fst x <=? fst z)%Z eqn:E.
    + apply Z.leb_le in E. constructor; [exact Hs | now constructor].
    + apply Z.leb_gt in E. inversion Hs as [|? ? Hs' Hhd]; subst.
      constructor; [now apply IH|].
      destruct s as [|w s]; simpl.
      * constructor. lia.
      * destruct (fst x <=? fst w)%Z; constructor; [lia|].
        now inversion Hhd.
Qed.

Lemma sort_keyed_is_sorted (l : list (Z * Revision)) :
  Sorted (fun a b => (fst a <= fst b)%Z) (sort_keyed l).
Proof.
  induction l as [|x l IH]; simpl; [constructor|].
  fold (sort_keyed l). now apply insert_keyed_sorted.
Qed.

Lemma timestamp_keys_status (l : list Revision) :
  match timestamp_keys l with
  | Ok ks => forallb has_timestamp l = true /\ ks = map keyed l
  | Raise e => forallb has_timestamp l = false /\ e = KeyError "timestamp"
  end.
Proof.
  induction l as [|rev l IH]; [simpl; now split|].
  cbn [timestamp_keys forallb map].
  assert (Hk : forall t, timestamp rev = Some t -> keyed rev = (t, rev))
    by (intros t Ht; unfold keyed; now rewrite Ht).
  assert (Hh : has_timestamp rev
               = match timestamp rev with Some _ => true | None => false end)
    by reflexivity.
  rewrite !Hh.
  destruct (timestamp rev) as [t|]; cbn [subscript bind andb]; [|now split].
  rewrite (Hk t eq_refl).
  destruct (timestamp_keys l) as [ks|e]; cbn [bind].
  - destruct IH as [-> ->]. now split.
  - exact IH.
Qed.

(** The sorted partition: same revisions, all with timestamp, in
    non-decreasing order of time. *)
Lemma sort_by_timestamp_status (l : list Revision) :
  match sort_by_timestamp l with
  | Ok sorted =>
      forallb has_timestamp l = true /\
      List.length sorted = List.length l /\
      (forall rev, In rev sorted <-> In rev l) /\
      Sorted (fun a b => (time_or_zero a <= time_or_zero b)%Z) sorted
  | Raise e => forallb has_timestamp l = false /\ e = KeyError "timestamp"
  end.
Proof.
  unfold sort_by_timestamp. pose proof (timestamp_keys_status l) as H.
  destruct (timestamp_keys l) as [ks|e]; cbn [bind]; [|exact H].
  destruct H as [Hts ->]. split; [exact Hts|].
  split; [now rewrite length_map, sort_keyed_length, length_map|].
  split.
  - intros rev. rewrite in_map_iff. split.
    + intros ([k r] & <- & Hin). apply sort_keyed_In, in_map_iff in Hin.
      destruct Hin as (r' & [= _ <-] & Hr'). exact Hr'.
    + intros Hin. exists (keyed rev). split; [reflexivity|].
      apply sort_keyed_In. now apply in_map.
  - pose proof (sort_keyed_is_sorted (map keyed l)) as Hs.
    assert (Hk : forall k, In k (sort_keyed (map keyed l)) -> k = keyed (snd k)).
    { intros k Hin. apply sort_keyed_In, in_map_iff in Hin.
      now destruct Hin as (r & <- & _). }
    induction Hs as [|k s Hs IH Hhd]; [constructor|].
    cbn [map]. constructor.
    + apply IH. intros k' Hk'. apply Hk. now right.
    + destruct Hhd as [|k' s' Hle]; constructor.
      rewrite (Hk k (or_introl eq_refl)), (Hk k' (or_intror (or_introl eq_refl))) in Hle.
      exact Hle.
Qed.

Lemma scan_loop_total (editor : string) (rest : list Revision) :
  forall (prev : Revision) (c : Z),
    forallb has_timestamp (prev :: rest) = true ->
    exists r, scan_loop editor prev rest c = Ok r.
Proof.
  induction rest as [|cur rest IH]; intros prev c Hts; [simpl; eauto|].
  cbn [forallb] in Hts. apply andb_prop in Hts as [Hp Hts].
  pose proof Hts as Hts'. cbn [forallb] in Hts'. apply andb_prop in Hts' as [Hc _].
  apply has_timestamp_Some in Hp as [tp Hp].
  apply has_timestamp_Some in Hc as [tc Hc].
  cbn [scan_loop]. rewrite Hc, Hp. cbn [subscript bind].
  match goal with |- exists r, (if ?b then _ else _) = _ => destruct b end;
    [eauto | apply IH, Hts].
Qed.

(** What a violation returned by the inner loop looks like. *)
Lemma scan_loop_bounds (editor : string) (rest : list Revision) :
  forall (prev : Revision) (c : Z) (v : Violation),
    Sorted (fun a b => (time_or_zero a <= time_or_zero b)%Z) (prev :: rest) ->
    scan_loop editor prev rest c = Ok (Some v) ->
    (3 <= v_revert_count v <= c + Z.of_nat (List.length rest))%Z /\
    (0 <= v_time_window_hours v <= 24 # 1)%Q /\
    exists rev, In rev rest /\ timestamp rev = Some (v_timestamp v).
Proof.
  induction rest as [|cur rest IH]; intros prev c v Hs E; [discriminate|].
  cbn [scan_loop] in E.
  destruct (timestamp cur) as [tc|] eqn:Hc; [|discriminate].
  destruct (timestamp prev) as [tp|] eqn:Hp; [|discriminate].
  cbn [subscript bind] in E.
  inversion Hs as [|? ? Hs' Hhd]; subst. inversion Hhd as [|? ? Hle]; subst.
  unfold time_or_zero in Hle. rewrite Hc, Hp in Hle. cbn [get_or] in Hle.
  set (c' := if revert_like cur prev then (c + 1)%Z else c) in *.
  assert (Hc' : (c <= c' <= c + 1)%Z)
    by (subst c'; destruct (revert_like cur prev); lia).
  destruct (Qle_bool (hours_between tc tp) (24 # 1) && (3 <=? c')%Z) eqn:Hcond.
  - injection E as <-. cbn [v_revert_count v_time_window_hours v_timestamp].
    apply andb_prop in Hcond as [Hgap Hcount].
    apply Qle_bool_iff in Hgap. apply Z.leb_le in Hcount.
    split; [cbn [List.length]; lia|]. split.
    + split; [|exact Hgap]. unfold hours_between, Qle. simpl. lia.
    + exists cur. split; [now left | exact Hc].
  - destruct (IH cur c' v Hs' E) as (Hcount & Hwin & rev & Hin & Hrev).
    split; [cbn [List.length]; lia|]. split; [exact Hwin|].
    exists rev. split; [now right | exact Hrev].
Qed.

Lemma scan_user_status (editor : string) (revs : list Revision) :
  match scan_user editor revs with
  | Ok _ =>
      (4 <= List.length revs)%nat -> forallb has_timestamp revs = true
  | Raise e =>
      (4 <= List.length revs)%nat /\ forallb has_timestamp revs = false /\
      e = KeyError "timestamp"
  end.
Proof.
  unfold scan_user.
  destruct (4 <=? List.length revs)%nat eqn:Hlen.
  - apply Nat.leb_le in Hlen.
    pose proof (sort_by_timestamp_status revs) as Hsort.
    destruct (sort_by_timestamp revs) as [sorted|e]; cbn [bind].
    + destruct Hsort as (Hts & _ & Hin & _).
      assert (Hts' : forallb has_timestamp sorted = true).
      { apply forallb_forall. intros rev Hrev. apply Hin in Hrev.
        now apply (proj1 (forallb_forall _ _) Hts). }
      destruct sorted as [|first rest]; [auto|].
      destruct (scan_loop_total editor rest first 0 Hts') as [r ->]. auto.
    + destruct Hsort as [Hts ->]. auto.
  - apply Nat.leb_gt in Hlen. intros H. lia.
Qed.

Lemma scan_users_status (items : dict (list Revision)) :
  forall acc : list Violation,
    match scan_users items acc with
    | Ok violations =>
        violations = acc ++ found_in items /\
        forall u l, In (u, l) items ->
                    (4 <= List.length l)%nat -> forallb has_timestamp l = true
    | Raise e =>
        e = KeyError "timestamp" /\
        exists u l, In (u, l) items /\ (4 <= List.length l)%nat /\
                    forallb has_timestamp l = false
    end.
Proof.
  induction items as [|[u l] items IH]; intros acc.
  - simpl. split; [now rewrite app_nil_r | intros u l []].
  - cbn [scan_users]. pose proof (scan_user_status u l) as Hst.
    unfold found_in. cbn [flat_map fst snd]. fold (found_in items).
    destruct (scan_user u l) as [found|e]; cbn [bind].
    + specialize (IH (match found with Some v => acc ++ [v] | None => acc end)).
      destruct (scan_users items _) as [violations|e].
      * destruct IH as [-> Hall]. split.
        -- destruct found; [now rewrite <- app_assoc | reflexivity].
        -- intros u' l' [[= <- <-] | Hin]; [exact Hst | now apply (Hall u' l')].
      * destruct IH as [-> (u' & l' & Hin & H)]. split; [reflexivity|].
        exists u', l'. split; [now right | exact H].
    + destruct Hst as (Hlen & Hts & ->). split; [reflexivity|].
      exists u, l. split; [now left | now split].
Qed.

(** X4. [_detect_three_revert_violations] returns exactly when every editor
    with at least 4 revisions has a timestamp on each of them; otherwise it
    raises [KeyError('timestamp')], from the sort of that editor's
    revisions.  A missing timestamp on a revision of an editor with fewer
    than 4 revisions goes unnoticed. *)
Theorem X4_scanner_failures :
  forall revisions : list Revision,
    (is_ok (_detect_three_revert_violations revisions) = true <->
     forall u, (4 <= List.length (revisions_of u revisions))%nat ->
               forallb has_timestamp (revisions_of u revisions) = true) /\
    (forall e, _detect_three_revert_violations revisions = Raise e ->
               e = KeyError "timestamp").
Proof.
  intros revisions. unfold _detect_three_revert_violations.
  pose proof (scan_users_status (group_by_user revisions) []) as H.
  destruct (scan_users (group_by_user revisions) []) as [violations|e]; cbn [is_ok].
  - destruct H as [_ Hall]. split; [|discriminate].
    split; [|reflexivity]. intros _ u Hlen.
    apply (Hall u); [|exact Hlen].
    apply group_by_user_In. split; [reflexivity|].
    intros E. rewrite E in Hlen. simpl in Hlen. lia.
  - destruct H as [-> (u & l & Hin & Hlen & Hts)]. split.
    + split; [discriminate|]. intros Hall.
      apply group_by_user_In in Hin as [-> _].
      rewrite (Hall u Hlen) in Hts. discriminate.
    + now intros e' [= <-].
Qed.

Lemma X4_witness :
  forallb has_timestamp (revisions_of "A" sample_history) = true.
Proof.
  apply (proj1 (proj1 (X4_scanner_failures sample_history)) eq_refl "A"%string).
  simpl. lia.
Defined.

Lemma scan_user_bounds (editor : string) (revs : list Revision) (v : Violation) :
  scan_user editor revs = Ok (Some v) ->
  (4 <= List.length revs)%nat /\
  (3 <= v_revert_count v <= Z.of_nat (List.length revs) - 1)%Z /\
  (0 <= v_time_window_hours v <= 24 # 1)%Q /\
  exists rev, In rev revs /\ timestamp rev = Some (v_timestamp v).
Proof.
  unfold scan_user.
  destruct (4 <=? List.length revs)%nat eqn:Hlen; [|discriminate].
  apply Nat.leb_le in Hlen.
  pose proof (sort_by_timestamp_status revs) as Hsort.
  destruct (sort_by_timestamp revs) as [sorted|e]; cbn [bind]; [|discriminate].
  destruct Hsort as (_ & Hsame & Hin & Hsorted).
  destruct sorted as [|first rest]; [discriminate|].
  intros E.
  destruct (@scan_loop_bounds editor rest first 0%Z v Hsorted E)
    as (Hcount & Hwin & rev & Hrev & Ht).
  split; [exact Hlen|]. split.
  - rewrite <- Hsame. cbn [List.length]. lia.
  - split; [exact Hwin|]. exists rev. split; [|exact Ht].
    apply Hin. now right.
Qed.

(** X5. Whatever the order of the input, every violation returned by
    [_detect_three_revert_violations] names an editor with at least 4
    revisions, carries the timestamp of one of that editor's revisions, a
    [revert_count] between 3 and the number of that editor's revisions minus
    one, and a [time_window_hours] between 0 and 24; and no editor is named
    twice. *)
Theorem X5_violation_bounds :
  forall (revisions : list Revision) (violations : list Violation),
    _detect_three_revert_violations revisions = Ok violations ->
    NoDup (map v_user violations) /\
    forall v, In v violations ->
      let own := revisions_of (v_user v) revisions in
      (4 <= List.length own)%nat /\
      (3 <= v_revert_count v <= Z.of_nat (List.length own) - 1)%Z /\
      (0 <= v_time_window_hours v <= 24 # 1)%Q /\
      exists rev, In rev own /\ timestamp rev = Some (v_timestamp v).
Proof.
  intros revisions violations E. unfold _detect_three_revert_violations in E.
  pose proof (scan_users_status (group_by_user revisions) []) as H.
  rewrite E in H. destruct H as [-> _]. cbn [app]. split.
  - apply found_in_users, NoDup_keys_group_by_user.
  - intros v Hv.
    apply found_in_In in Hv as (u & l & Hin & Hscan).
    apply group_by_user_In in Hin as [-> _].
    rewrite (scan_user_editor _ _ Hscan).
    now apply scan_user_bounds in Hscan.
Qed.

Lemma X5_witness :
  NoDup (map v_user [{| v_user := "A"; v_timestamp := 10800; v_revert_count := 3;
                        v_time_window_hours := 3600 # 3600 |}]).
Proof.
  apply (@X5_violation_bounds sample_history). reflexivity.
Defined.

(** ** EpisodeStatistics: duration and intervals *)

Lemma Qsum_snoc (l : list Q) (x : Q) : Qsum (l ++ [x]) == Qsum l + x.
Proof.
  unfold Qsum. rewrite fold_left_app. simpl. reflexivity.
Qed.

Lemma minutes_between_chain (a b c : Z) :
  minutes_between b a + minutes_between c b == minutes_between c a.
Proof. unfold minutes_between, Qeq, Qplus. simpl. lia. Qed.

Lemma hours_to_minutes (a b : Z) :
  hours_between b a * 60 == minutes_between b a.
Proof. unfold hours_between, minutes_between, Qeq, Qmult. simpl. lia. Qed.

Lemma last_cons_default (A : Type) (rest : list A) :
  forall r d : A, last (r :: rest) d = last rest r.
Proof.
  induction rest as [|x rest IH]; intros r d; [reflexivity|].
  change (last (r :: x :: rest) d) with (last (x :: rest) d).
  now rewrite !IH.
Qed.

Lemma intervals_loop_sum (R : Type) (tm : R -> Z) (rest : list R) :
  forall (prev : R) (intervals : list Q),
    Qsum (intervals_loop tm prev rest intervals)
    == Qsum intervals + minutes_between (tm (last rest prev)) (tm prev).
Proof.
  induction rest as [|r rest IH]; intros prev intervals.
  - simpl. unfold minutes_between. rewrite Z.sub_diag.
    unfold Qeq, Qplus. simpl. lia.
  - cbn [intervals_loop]. rewrite IH, Qsum_snoc.
    rewrite last_cons_default.
    rewrite <- Qplus_assoc. now rewrite minutes_between_chain.
Qed.

(** The record built for a non-empty group. *)
Lemma analyze_group_record (first : Revert) (rest : list Revert) :
  let intervals := intervals_of rv_timestamp (first :: rest) in
  exists avg median mn mx,
    (if truthy intervals then py_max intervals else Ok 0) = Ok mx /\
    _analyze_edit_war_group (first :: rest)
    = Ok {| start_time := rv_timestamp first;
            end_time := rv_timestamp (last rest first);
            duration_hours :=
              hours_between (rv_timestamp (last rest first)) (rv_timestamp first);
            revert_count := S (List.length rest);
            unique_editors :=
              List.length (unique (map rv_user (first :: rest)));
            editors := unique (map rv_user (first :: rest));
            avg_interval_minutes := avg;
            median_interval_minutes := median;
            min_interval_minutes := mn;
            max_interval_minutes := mx |}.
Proof.
  intros intervals. unfold _analyze_edit_war_group. fold intervals.
  destruct (guarded_min_ok intervals) as [mn Hmn].
  destruct (guarded_max_ok intervals) as [mx Hmx].
  rewrite Hmn, Hmx. cbn [bind]. rewrite last_cons_default.
  do 4 eexists. split; reflexivity.
Qed.

(** In exact arithmetic the duration is the sum of the intervals; the
    bounds below follow from it. *)
Lemma group_duration_sum (first : Revert) (rest : list Revert) :
  hours_between (rv_timestamp (last rest first)) (rv_timestamp first) * 60
  == Qsum (intervals_of rv_timestamp (first :: rest)).
Proof.
  cbn [intervals_of]. rewrite intervals_loop_sum, hours_to_minutes.
  unfold Qsum. simpl. ring.
Qed.

Lemma intervals_loop_In (R : Type) (tm : R -> Z) (rest : list R) :
  forall (prev : R) (intervals : list Q) (x : Q),
    In x (intervals_loop tm prev rest intervals) ->
    In x intervals \/
    exists l1 a b l2,
      prev :: rest = l1 ++ a :: b :: l2 /\ x = minutes_between (tm b) (tm a).
Proof.
  induction rest as [|r rest IH]; intros prev intervals x Hin; [now left|].
  cbn [intervals_loop] in Hin. apply IH in Hin as [Hin | (l1 & a & b & l2 & E & ->)].
  - apply in_app_or in Hin as [Hin | [<- | []]]; [now left|].
    right. now exists [], prev, r, rest.
  - right. exists (prev :: l1), a, b, l2. split; [simpl; now rewrite E | reflexivity].
Qed.

Lemma fold_max_bound (b : Q) (l : list Q) :
  forall m, m <= b -> (forall x, In x l -> x <= b) ->
            fold_left (fun m y => if Qlt_bool m y then y else m) l m <= b.
Proof.
  induction l as [|y l IH]; intros m Hm Hall; [exact Hm|].
  cbn [fold_left]. apply IH.
  - destruct (Qlt_bool m y); [apply Hall; now left | exact Hm].
  - intros x Hx. apply Hall. now right.
Qed.

Lemma Qsum_bound (b : Q) (l : list Q) :
  (forall x, In x l -> x <= b) ->
  Qsum l <= inject_Z (Z.of_nat (List.length l)) * b.
Proof.
  induction l as [|x l IH]; intros Hall.
  - unfold Qsum. simpl. rewrite Qmult_0_l. apply Qle_refl.
  - rewrite Qsum_cons. simpl List.length. rewrite Nat2Z.inj_succ.
    unfold Z.succ. rewrite inject_Z_plus.
    setoid_replace ((inject_Z (Z.of_nat (List.length l)) + inject_Z 1) * b)
      with (b + inject_Z (Z.of_nat (List.length l)) * b) by ring.
    apply Qplus_le_compat; [apply Hall; now left|].
    apply IH. intros y Hy. apply Hall. now right.
Qed.

(** X7. The wars found by the grouper are tight: when the window is not
    negative, in the record that [_analyze_edit_war_group] builds for a group
    returned by [_group_reverts_by_time], every interval and so
    [max_interval_minutes] is at most [60 * time_window_hours], and
    [duration_hours] is at most [(revert_count - 1) * time_window_hours]. *)
Theorem X7_emitted_wars_are_tight :
  forall (window_hours : Q) (min_reverts : Z) (reverts g : list Revert),
    0 <= window_hours ->
    In g (_group_reverts_by_time rv_timestamp window_hours min_reverts reverts) ->
    exists w,
      _analyze_edit_war_group g = Ok w /\
      (forall x, In x (intervals_of rv_timestamp g) -> x <= 60 * window_hours) /\
      max_interval_minutes w <= 60 * window_hours /\
      duration_hours w
      <= (inject_Z (Z.of_nat (revert_count w)) - 1) * window_hours.
Proof.
  intros window_hours min_reverts reverts g Hwin Hin.
  apply group_reverts_spec in Hin as [_ (before & after & _ & Hne & Hch & _)].
  destruct g as [|first rest]; [contradiction|].
  assert (Hint : forall x, In x (intervals_of rv_timestamp (first :: rest)) ->
                           x <= 60 * window_hours).
  { intros x Hx. cbn [intervals_of] in Hx.
    apply intervals_loop_In in Hx as [[] | (l1 & a & b & l2 & E & ->)].
    specialize (Hch l1 a b l2 E). unfold within in Hch.
    rewrite <- hours_to_minutes, Qmult_comm.
    apply Qmult_le_l; [reflexivity | exact Hch]. }
  destruct (analyze_group_record first rest) as (avg & median & mn & mx & Hmx & ->).
  eexists. split; [reflexivity|]. split; [exact Hint|].
  cbn [max_interval_minutes duration_hours revert_count]. split.
  - destruct (intervals_of rv_timestamp (first :: rest)) as [|x l] eqn:El.
    + cbn [truthy] in Hmx. injection Hmx as <-.
      setoid_replace 0 with (60 * 0) by ring.
      apply Qmult_le_l; [reflexivity | exact Hwin].
    + cbn [truthy py_max] in Hmx. injection Hmx as <-.
      apply fold_max_bound; [apply Hint; now left|].
      intros y Hy. apply Hint. now right.
  - apply Qmult_lt_0_le_reg_r with (z := 60); [reflexivity|].
    rewrite group_duration_sum.
    eapply Qle_trans; [apply (@Qsum_bound (60 * window_hours)), Hint|].
    cbn [intervals_of]. rewrite intervals_loop_length. cbn [List.length plus].
    rewrite Nat2Z.inj_succ. unfold Z.succ. rewrite inject_Z_plus.
    apply Qle_lteq. right. ring.
Qed.

Lemma X7_witness :
  exists w,
    _analyze_edit_war_group sample_war = Ok w /\
    max_interval_minutes w <= 60 * (24 # 1).
Proof.
  destruct (@X7_emitted_wars_are_tight (24 # 1) 3 sample_war_then_one sample_war)
    as (w & Hw & _ & Hmax & _).
  - unfold Qle. simpl. lia.
  - vm_compute. left. reflexivity.
  - exists w. split; assumption.
Defined.

(** ** ParticipationAnalyzer: the reverts are conserved too *)

Lemma Zsum_indicator (ks : list string) (x : string) :
  NoDup ks -> In x ks ->
  Zsum (map (fun u => if String.eqb u x then 1 else 0)%Z ks) = 1%Z.
Proof.
  induction 1 as [|k ks Hk Hnd IH]; intros Hin; [destruct Hin|].
  cbn [map]. rewrite Zsum_cons. destruct Hin as [-> | Hin].
  - rewrite String.eqb_refl.
    assert (H0 : Zsum (map (fun u => if String.eqb u x then 1 else 0)%Z ks) = 0%Z).
    { clear IH Hnd. induction ks as [|k ks IH]; [reflexivity|].
      cbn [map]. rewrite Zsum_cons.
      destruct (String.eqb k x) eqn:E.
      - apply String.eqb_eq in E. subst. exfalso. apply Hk. now left.
      - rewrite IH; [reflexivity|]. intros H. apply Hk. now right. }
    rewrite H0. reflexivity.
  - destruct (String.eqb k x) eqn:E.
    + apply String.eqb_eq in E. subst. contradiction.
    + rewrite (IH Hin). reflexivity.
Qed.

Lemma Zsum_map_add (A : Type) (f g : A -> Z) (l : list A) :
  Zsum (map (fun x => f x + g x)%Z l) = (Zsum (map f l) + Zsum (map g l))%Z.
Proof.
  induction l as [|x l IH]; [reflexivity|].
  cbn [map]. rewrite !Zsum_cons, IH. lia.
Qed.

Lemma Zsum_occurrences (ks names : list string) :
  NoDup ks -> (forall x, In x names -> In x ks) ->
  Zsum (map (fun u => occurrences u names) ks) = Z.of_nat (List.length names).
Proof.
  intros Hnd. induction names as [|x names IH]; intros Hall.
  - cbn [List.length]. clear Hnd Hall. induction ks as [|k ks IHk]; [reflexivity|].
    cbn [map]. now rewrite Zsum_cons, occurrences_nil, IHk.
  - rewrite (map_ext _ (fun u => (if String.eqb u x then 1 else 0)
                                 + occurrences u names)%Z)
      by (intros u; apply occurrences_cons).
    rewrite Zsum_map_add, Zsum_indicator, IH.
    + cbn [List.length]. lia.
    + intros y Hy. apply Hall. now right.
    + exact Hnd.
    + apply Hall. now left.
Qed.

Lemma keys_count_edits_In (revisions : list Revision) (u : string) :
  In u (keys (count_edits revisions)) <-> In u (map get_user revisions).
Proof.
  rewrite <- edits_by_pos_In.
  pose proof (count_edits_get revisions u) as Hget.
  pose proof (dict_get_None_keys (count_edits revisions) u) as Hnone.
  destruct (edits_by u revisions =? 0)%Z.
  - split; [|discriminate]. intros Hin. exfalso. now apply Hnone.
  - split; [reflexivity|]. intros _.
    destruct (in_dec string_dec u (keys (count_edits revisions))) as [H|H]; [exact H|].
    apply Hnone in H. congruence.
Qed.

(** X8. When the reverts are those that [detect_reverts] derives from the
    revisions, the [reverts] fields of the editor profiles add up to the
    number of revert events: every revert is counted for exactly one
    profile. *)
Theorem X8_reverts_conserved :
  forall (revisions : list Revision) (revert_events : list Revert),
    Analyzer.detect_reverts revisions = Ok revert_events ->
    Zsum (map reverts
              (values (editor_breakdown
                         (_analyze_editor_participation revisions revert_events))))
    = Z.of_nat (List.length revert_events).
Proof.
  intros revisions revert_events Hdet.
  rewrite breakdown_map. unfold values. rewrite !map_map. cbn [snd fst].
  unfold profile_of. cbn [reverts].
  rewrite (map_ext _ (fun item => occurrences (fst item) (map rv_user revert_events)))
    by (intros item; apply count_reverts_get).
  rewrite <- (map_map fst (fun u => occurrences u (map rv_user revert_events))).
  fold (keys (count_edits revisions)).
  rewrite Zsum_occurrences, length_map; [reflexivity | apply NoDup_keys_count_edits |].
  intros x Hx. apply keys_count_edits_In.
  apply analyzer_detect_Forall2 in Hdet.
  rewrite (Forall2_event_users Hdet) in Hx.
  apply in_map_iff in Hx as ([prev cur] & <- & Hpair).
  apply filter_In in Hpair as [Hpair _]. apply in_combine_r in Hpair.
  cbn [snd]. apply in_map. destruct revisions; [destruct Hpair | now right].
Qed.

Lemma X8_witness :
  Zsum (map reverts
            (values (editor_breakdown
                       (_analyze_editor_participation revs_revert
                                                      events_of_revs_revert))))
  = Z.of_nat (List.length events_of_revs_revert).
Proof.
  apply X8_reverts_conserved. reflexivity.
Defined.

(** ** [detect_edit_wars] *)

Lemma analyzer_detect_error (revisions : list Revision) (e : exn) :
  Analyzer.detect_reverts revisions = Raise e ->
  e = KeyError "timestamp" \/ e = KeyError "revid".
Proof.
  destruct revisions as [|first rest]; [discriminate|].
  pose proof (analyzer_loop_spec rest first []) as HA. cbv zeta in HA.
  cbn [Analyzer.detect_reverts]. intros E. rewrite E in HA. now destruct HA.
Qed.

Lemma analyzer_detect_total (revisions : list Revision) :
  forallb has_timestamp revisions = true ->
  forallb has_revid revisions = true ->
  exists out, Analyzer.detect_reverts revisions = Ok out.
Proof.
  intros Ht Hr. destruct revisions as [|first rest]; [simpl; eauto|].
  pose proof (analyzer_loop_spec rest first []) as HA. cbv zeta in HA.
  cbn [Analyzer.detect_reverts].
  destruct (Analyzer.detect_loop first rest []) as [out|e]; [eauto|].
  destruct HA as [HA _].
  pose proof (complete_adjacent_pairs (first :: rest) Ht Hr) as Hc.
  unfold adjacent_pairs in Hc. cbn [tl] in Hc.
  now rewrite (forallb_filter_weaken _ _ _ Hc) in HA.
Qed.

Lemma groups_nonempty_long (window_hours : Q) (thr : Z) (reverts g : list Revert) :
  In g (_group_reverts_by_time rv_timestamp window_hours thr reverts) ->
  (thr <= Z.of_nat (List.length g))%Z /\ g <> [] /\
  (List.length g <= List.length reverts)%nat.
Proof.
  intros Hin. apply group_reverts_spec in Hin as [Hlen Hrun].
  split; [exact Hlen|]. split.
  - now destruct Hrun as (b & a & _ & Hne & _).
  - now apply maximal_run_length in Hrun.
Qed.

Lemma groups_nil_when_few (window_hours : Q) (thr : Z) (reverts : list Revert) :
  (Z.of_nat (List.length reverts) < thr)%Z ->
  _group_reverts_by_time rv_timestamp window_hours thr reverts = [].
Proof.
  intros Hlt.
  destruct (_group_reverts_by_time _ _ _ reverts) as [|g gs] eqn:E; [reflexivity|].
  assert (Hin : In g (_group_reverts_by_time rv_timestamp window_hours thr reverts))
    by (rewrite E; now left).
  apply groups_nonempty_long in Hin as (H1 & _ & H2). lia.
Qed.

Lemma analyze_groups_spec (thr : Z) (groups : list (list Revert)) :
  forall acc : list WarData,
    (forall g, In g groups -> (thr <= Z.of_nat (List.length g))%Z /\ g <> []) ->
    exists wars,
      analyze_groups thr groups acc = Ok (acc ++ wars) /\
      Forall2 (fun g w => _analyze_edit_war_group g = Ok w) groups wars.
Proof.
  induction groups as [|g groups IH]; intros acc Hall.
  - exists []. simpl. now rewrite app_nil_r.
  - destruct (Hall g (or_introl eq_refl)) as [Hlen Hne].
    cbn [analyze_groups]. apply Z.leb_le in Hlen. rewrite Hlen.
    destruct g as [|first rest]; [contradiction|].
    assert (Hw : exists w, _analyze_edit_war_group (first :: rest) = Ok w).
    { destruct (analyze_group_record first rest) as (a & m & mn & mx & _ & Hw).
      eauto. }
    destruct Hw as [w Hw]. rewrite Hw. cbn [bind].
    destruct (IH (acc ++ [w]) (fun g' H => Hall g' (or_intror H)))
      as (wars & -> & HF).
    exists (w :: wars). rewrite <- app_assoc. split; [reflexivity|].
    constructor; [exact Hw | exact HF].
Qed.

Lemma true_div_length_ok (a : Q) (A : Type) (l : list A) :
  l <> [] ->
  true_div a (Z.of_nat (List.length l)) = Ok (a / inject_Z (Z.of_nat (List.length l))).
Proof.
  intros Hne. unfold true_div.
  destruct (Z.of_nat (List.length l) =? 0)%Z eqn:E; [|reflexivity].
  apply Z.eqb_eq in E. destruct l; [contradiction | simpl in E; lia].
Qed.

Lemma scanner_error (revisions : list Revision) (e : exn) :
  _detect_three_revert_violations revisions = Raise e -> e = KeyError "timestamp".
Proof.
  unfold _detect_three_revert_violations. intros E.
  pose proof (scan_users_status (group_by_user revisions) []) as H.
  rewrite E in H. now destruct H.
Qed.

Lemma scanner_total (revisions : list Revision) :
  forallb has_timestamp revisions = true ->
  exists violations, _detect_three_revert_violations revisions = Ok violations.
Proof.
  intros Hts. unfold _detect_three_revert_violations.
  pose proof (scan_users_status (group_by_user revisions) []) as H.
  destruct (scan_users (group_by_user revisions) []) as [vs|e]; [eauto|].
  destruct H as [_ (u & l & Hin & _ & Hno)].
  apply group_by_user_In in Hin as [-> _].
  unfold revisions_of in Hno.
  now rewrite (forallb_filter_weaken _ _ _ Hts) in Hno.
Qed.

Lemma truthy_nonempty (A : Type) (l : list A) : negb (truthy l) = false -> l <> [].
Proof. destruct l; [discriminate | discriminate]. Qed.

Lemma rate_in_unit_interval (a b : nat) :
  (a < b)%nat ->
  0 <= inject_Z (Z.of_nat a) / inject_Z (Z.of_nat b) /\
  inject_Z (Z.of_nat a) / inject_Z (Z.of_nat b) < 1.
Proof.
  intros Hlt.
  assert (Hb : 0 < inject_Z (Z.of_nat b))
    by (change 0 with (inject_Z 0); rewrite <- Zlt_Qlt; lia).
  split.
  - apply Qle_shift_div_l; [exact Hb|]. rewrite Qmult_0_l.
    change 0 with (inject_Z 0). rewrite <- Zle_Qle. lia.
  - apply Qlt_shift_div_r; [exact Hb|]. rewrite Qmult_1_l.
    rewrite <- Zlt_Qlt. lia.
Qed.

(** X9. What [detect_edit_wars] reports for a page with revisions: the
    counts are those of the revisions and of the reverts that [detect_reverts]
    finds in them, with fewer reverts than revisions, so the revert rate
    [total_reverts / total_revisions] lies in [0, 1); the edit wars are the
    records of the groups of [_group_reverts_by_time], one per group and in
    order, so neither the test on the number of reverts nor the second test
    on the size of a group ever discards anything; every war has between
    [revert_threshold] and [total_reverts] reverts; participation and
    violations are those of the two analyses on the same revisions. *)
Theorem X9_detect_edit_wars_result :
  forall (get_page_revisions : string -> list Revision)
         (revert_threshold : Z) (time_window_hours : Q)
         (title : string) (data : EditWarData),
    detect_edit_wars get_page_revisions revert_threshold time_window_hours title
    = Ok (Some data) ->
    exists revert_events,
      Analyzer.detect_reverts (get_page_revisions title) = Ok revert_events /\
      total_revisions data = List.length (get_page_revisions title) /\
      total_reverts data = List.length revert_events /\
      (total_reverts data < total_revisions data)%nat /\
      revert_rate data
      = inject_Z (Z.of_nat (total_reverts data))
        / inject_Z (Z.of_nat (total_revisions data)) /\
      (0 <= revert_rate data /\ revert_rate data < 1) /\
      Forall2 (fun g w => _analyze_edit_war_group g = Ok w)
              (_group_reverts_by_time rv_timestamp time_window_hours
                                      revert_threshold revert_events)
              (edit_wars data) /\
      (forall g, In g (_group_reverts_by_time rv_timestamp time_window_hours
                                              revert_threshold revert_events) ->
                 (revert_threshold <= Z.of_nat (List.length g))%Z /\
                 (List.length g <= total_reverts data)%nat) /\
      editor_participation data
      = _analyze_editor_participation (get_page_revisions title) revert_events /\
      _detect_three_revert_violations (get_page_revisions title)
      = Ok (three_revert_violations data).
Proof.
  intros fetch thr win title data. unfold detect_edit_wars.
  destruct (negb (truthy (fetch title))) eqn:Hempty; [discriminate|].
  apply truthy_nonempty in Hempty.
  destruct (Analyzer.detect_reverts (fetch title)) as [evs|e] eqn:Hdet;
    cbn [bind]; [|discriminate].
  assert (Htruthy : truthy (fetch title) = true)
    by (destruct (fetch title); [contradiction | reflexivity]).
  rewrite Htruthy, true_div_length_ok by exact Hempty. cbn [bind].
  pose proof (analyzer_detect_length _ Hdet) as Hlen.
  assert (Hlt : (List.length evs < List.length (fetch title))%nat)
    by (destruct (fetch title); [contradiction | simpl in *; lia]).
  set (groups := _group_reverts_by_time rv_timestamp win thr evs).
  assert (Hgroups : forall g, In g groups ->
                      (thr <= Z.of_nat (List.length g))%Z /\ g <> [] /\
                      (List.length g <= List.length evs)%nat)
    by (intros g; apply groups_nonempty_long).
  assert (Hwars : exists wars,
             (if (thr <=? Z.of_nat (List.length evs))%Z
              then analyze_groups thr groups [] else Ok [])
             = Ok wars /\
             Forall2 (fun g w => _analyze_edit_war_group g = Ok w) groups wars).
  { destruct (thr <=? Z.of_nat (List.length evs))%Z eqn:Hthr.
    - destruct (@analyze_groups_spec thr groups [])
        as (wars & Hw & HF); [intros g Hg; split; now apply Hgroups|].
      exists wars. split; [exact Hw | exact HF].
    - apply Z.leb_gt in Hthr. exists []. split; [reflexivity|].
      subst groups. rewrite groups_nil_when_few by exact Hthr. constructor. }
  destruct Hwars as (wars & -> & HF). cbn [bind].
  destruct (_detect_three_revert_violations (fetch title)) as [vs|e] eqn:Hscan;
    cbn [bind]; [|discriminate].
  intros [= <-]. exists evs.
  cbn [total_revisions total_reverts revert_rate edit_wars editor_participation
       three_revert_violations].
  repeat (split; [first [reflexivity | exact Hlt | exact HF]|]).
  split; [|split; [exact HF|split; [|split; reflexivity]]].
  - now apply rate_in_unit_interval.
  - intros g Hg. destruct (Hgroups g Hg) as (H1 & _ & H2). now split.
Qed.

Lemma X9_witness :
  exists data revert_events,
    detect_edit_wars (fun _ => revs_revert) 1 (24 # 1) "Page" = Ok (Some data) /\
    Analyzer.detect_reverts revs_revert = Ok revert_events /\
    total_reverts data = List.length revert_events.
Proof.
  destruct (detect_edit_wars (fun _ => revs_revert) 1 (24 # 1) "Page")
    as [[data|]|e] eqn:E.
  - destruct (X9_detect_edit_wars_result _ _ _ _ E)
      as (evs & Hdet & _ & Hrev & _).
    exists data, evs. split; [reflexivity|]. split; assumption.
  - vm_compute in E. discriminate.
  - vm_compute in E. discriminate.
Defined.

(** X10. [detect_edit_wars] fails only with [KeyError('timestamp')] or
    [KeyError('revid')]: neither the division for the revert rate nor the
    statistics of a group can raise.  It returns whenever every revision of
    the page has a timestamp and a revision id, and it returns the empty
    answer exactly when the page has no revisions. *)
Theorem X10_detect_edit_wars_failures :
  forall (get_page_revisions : string -> list Revision)
         (revert_threshold : Z) (time_window_hours : Q) (title : string),
    let answer :=
      detect_edit_wars get_page_revisions revert_threshold time_window_hours title in
    (forall e, answer = Raise e ->
               e = KeyError "timestamp" \/ e = KeyError "revid") /\
    (forallb has_timestamp (get_page_revisions title) = true ->
     forallb has_revid (get_page_revisions title) = true ->
     exists r, answer = Ok r) /\
    (answer = Ok None <-> get_page_revisions title = []).
Proof.
  intros fetch thr win title answer. subst answer. unfold detect_edit_wars.
  destruct (fetch title) as [|first rest] eqn:Hfetch.
  { cbn [truthy negb]. split; [discriminate|]. split; [eauto|]. now split. }
  cbn [truthy negb]. rewrite <- Hfetch.
  assert (Hne : fetch title <> []) by (rewrite Hfetch; discriminate).
  assert (Hwars : forall evs, exists wars,
             (if (thr <=? Z.of_nat (List.length evs))%Z
              then analyze_groups thr
                     (_group_reverts_by_time rv_timestamp win thr evs) []
              else Ok [])
             = Ok wars).
  { intros evs. destruct (thr <=? Z.of_nat (List.length evs))%Z; [|eauto].
    destruct (@analyze_groups_spec thr
                (_group_reverts_by_time rv_timestamp win thr evs) [])
      as (wars & Hw & _); [|eauto].
    intros g Hg. apply groups_nonempty_long in Hg. tauto. }
  destruct (Analyzer.detect_reverts (fetch title)) as [evs|e'] eqn:Hdet;
    cbn [bind].
  - rewrite true_div_length_ok by exact Hne. cbn [bind].
    destruct (Hwars evs) as [wars ->]. cbn [bind].
    destruct (_detect_three_revert_violations (fetch title)) as [vs|e'] eqn:Hscan;
      cbn [bind].
    + split; [discriminate|]. split; [eauto|].
      split; [discriminate | intros H; congruence].
    + split; [|split].
      * intros e [= <-]. left. exact (scanner_error _ Hscan).
      * intros Hts _. destruct (scanner_total _ Hts) as [vs Hvs]. congruence.
      * split; [discriminate | intros H; congruence].
  - split; [|split].
    + intros e [= <-]. exact (analyzer_detect_error _ Hdet).
    + intros Hts Hid. destruct (analyzer_detect_total _ Hts Hid) as [evs Hevs].
      congruence.
    + split; [discriminate | intros H; congruence].
Qed.

Lemma X10_witness :
  exists r, detect_edit_wars (fun _ => sample_history) 3 (24 # 1) "Page" = Ok r.
Proof.
  apply (proj1 (proj2 (X10_detect_edit_wars_failures
                         (fun _ => sample_history) 3 (24 # 1) "Page")));
    reflexivity.
Defined.

(** ** The quick analysis of a page *)

Lemma unique_In (x : string) (l : list string) : In x (unique l) <-> In x l.
Proof.
  induction l as [|y l IH]; simpl; [tauto|].
  rewrite filter_In, IH. destruct (String.eqb x y) eqn:E.
  - apply String.eqb_eq in E. subst. split; [intros _; now left | now left].
  - apply String.eqb_neq in E. simpl. split.
    + intros [-> | [H _]]; [now left | now right].
    + intros [-> | H]; [now left | right; now split].
Qed.

Lemma unique_NoDup (l : list string) : NoDup (unique l).
Proof.
  induction l as [|y l IH]; simpl; [constructor|].
  constructor.
  - rewrite filter_In, String.eqb_refl. simpl. intros [_ H]. discriminate.
  - now apply NoDup_filter.
Qed.

Lemma unique_length (l : list string) :
  (List.length (unique l) <= List.length l)%nat.
Proof.
  induction l as [|y l IH]; simpl; [lia|].
  pose proof (filter_length_le (fun e' => negb (String.eqb e' y)) (unique l)). lia.
Qed.

Lemma quick_war_data_record (first : QuickRevert) (rest : list QuickRevert) :
  exists avg,
    quick_war_data (first :: rest)
    = Ok {| qw_revert_count := S (List.length rest);
            qw_duration_hours :=
              hours_between (q_timestamp (last rest first)) (q_timestamp first);
            qw_unique_editors := List.length (unique (map q_user (first :: rest)));
            qw_editors := unique (map q_user (first :: rest));
            qw_avg_interval_minutes := avg;
            qw_start_time := q_timestamp first;
            qw_end_time := q_timestamp (last rest first) |}.
Proof.
  unfold quick_war_data.
  destruct (guarded_div_ok (intervals_of q_timestamp (first :: rest))) as [avg ->].
  cbn [bind]. rewrite last_cons_default. eexists. reflexivity.
Qed.

Lemma mapM_quick_war_data (groups : list (list QuickRevert)) :
  (forall g, In g groups -> g <> []) ->
  exists wars,
    mapM quick_war_data groups = Ok wars /\
    Forall2 (fun g w => quick_war_data g = Ok w) groups wars.
Proof.
  induction groups as [|g groups IH]; intros Hne.
  - exists []. split; [reflexivity | constructor].
  - destruct g as [|first rest]; [now destruct (Hne [] (or_introl eq_refl))|].
    destruct (quick_war_data_record first rest) as [avg Hw].
    destruct (IH (fun g' H => Hne g' (or_intror H))) as (wars & Hm & HF).
    cbn [mapM]. rewrite Hw, Hm. cbn [bind]. eexists. split; [reflexivity|].
    constructor; [exact Hw | exact HF].
Qed.

Lemma quick_groups_facts (reverts : list QuickRevert) (groups : list (list QuickRevert)) :
  Summary.revert_groups reverts = Some groups ->
  (3 <= List.length reverts)%nat /\ groups <> [] /\
  forall g, In g groups ->
            g <> [] /\ (3 <= List.length g <= List.length reverts)%nat.
Proof.
  intros Hsome. pose proof (summary_groups_inv _ Hsome) as Hinv.
  unfold Summary.revert_groups in Hsome.
  destruct (List.length reverts <? 3)%nat eqn:Hlen; [discriminate|].
  apply Nat.ltb_ge in Hlen. split; [exact Hlen|]. split.
  - destruct reverts as [|first rest]; [discriminate|].
    destruct (group_loop _ _ _ _ _ _ _); [discriminate|].
    injection Hsome as <-. discriminate.
  - intros g Hg. subst groups. apply group_reverts_spec in Hg as [H3 Hrun].
    pose proof (maximal_run_length Hrun) as Hle.
    destruct Hrun as (b & a & _ & Hne & _). split; [exact Hne | lia].
Qed.

Lemma quick_detect_error (revisions : list Revision) (e : exn) :
  Quick.detect_reverts_quick revisions = Raise e -> e = KeyError "timestamp".
Proof.
  destruct revisions as [|first rest]; [discriminate|].
  pose proof (quick_loop_spec rest first []) as HQ.
  cbn [Quick.detect_reverts_quick]. intros E. rewrite E in HQ. now destruct HQ.
Qed.

(** X11. When [analyze_edit_war_patterns_quick] (and likewise
    [EditWarSummary.analyze_edit_war_patterns]) returns an analysis of a
    page, the page has at least 3 reverts and more revisions than reverts,
    so its revert rate [total_reverts / total_revisions] lies in [0, 1);
    there is at least one edit war, the wars are the records of the revert
    groups in order, and every war has between 3 and [total_reverts]
    reverts and between 1 and [revert_count] distinct editors, listed
    without repetition. *)
Theorem X11_quick_analysis_result :
  forall (get_page_revisions_quick : string -> list Revision)
         (title : string) (analysis : QuickAnalysis),
    analyze_edit_war_patterns_quick get_page_revisions_quick title
    = Ok (Some analysis) ->
    exists revert_events revert_groups,
      Quick.detect_reverts_quick (get_page_revisions_quick title) = Ok revert_events /\
      Summary.revert_groups revert_events = Some revert_groups /\
      qa_total_revisions analysis = List.length (get_page_revisions_quick title) /\
      qa_total_reverts analysis = List.length revert_events /\
      (3 <= qa_total_reverts analysis < qa_total_revisions analysis)%nat /\
      qa_revert_rate analysis
      = inject_Z (Z.of_nat (qa_total_reverts analysis))
        / inject_Z (Z.of_nat (qa_total_revisions analysis)) /\
      (0 <= qa_revert_rate analysis /\ qa_revert_rate analysis < 1) /\
      qa_edit_wars analysis <> [] /\
      Forall2 (fun g w => quick_war_data g = Ok w)
              revert_groups (qa_edit_wars analysis) /\
      forall w, In w (qa_edit_wars analysis) ->
        (3 <= qw_revert_count w <= qa_total_reverts analysis)%nat /\
        (1 <= qw_unique_editors w <= qw_revert_count w)%nat /\
        qw_unique_editors w = List.length (qw_editors w) /\
        NoDup (qw_editors w).
Proof.
  intros fetch title analysis. unfold analyze_edit_war_patterns_quick.
  destruct (negb (truthy (fetch title))) eqn:Hempty; [discriminate|].
  apply truthy_nonempty in Hempty.
  destruct (Quick.detect_reverts_quick (fetch title)) as [evs|e] eqn:Hdet;
    cbn [bind]; [|discriminate].
  destruct (Summary.revert_groups evs) as [groups|] eqn:Hgroups; [|discriminate].
  destruct (quick_groups_facts _ Hgroups) as (H3 & Hne & Hall).
  destruct (mapM_quick_war_data groups (fun g H => proj1 (Hall g H)))
    as (wars & -> & HF).
  cbn [bind]. rewrite true_div_length_ok by exact Hempty. cbn [bind].
  intros [= <-]. exists evs, groups.
  cbn [qa_total_revisions qa_total_reverts qa_revert_rate qa_edit_wars].
  pose proof (quick_detect_length _ Hdet) as Hlen.
  assert (Hlt : (List.length evs < List.length (fetch title))%nat)
    by (destruct (fetch title); [contradiction | simpl in *; lia]).
  split; [reflexivity|]. split; [exact Hgroups|]. split; [reflexivity|].
  split; [reflexivity|]. split; [lia|]. split; [reflexivity|].
  split; [now apply rate_in_unit_interval|].
  split; [inversion HF; subst; [contradiction | discriminate]|].
  split; [exact HF|].
  intros w Hw. destruct (Forall2_In_r w HF Hw) as (g & Hg & Hgw).
  destruct (Hall g Hg) as [Hgne Hglen].
  destruct g as [|first rest]; [contradiction|].
  destruct (quick_war_data_record first rest) as [avg Hrec].
  rewrite Hrec in Hgw.
  apply (f_equal (fun r => match r with Ok x => x | Raise _ => w end)) in Hgw.
  cbv beta iota in Hgw. subst w.
  cbn [qw_revert_count qw_unique_editors qw_editors].
  split; [simpl in Hglen; lia|]. split; [|split; [reflexivity | apply unique_NoDup]].
  pose proof (unique_length (map q_user (first :: rest))) as Hu.
  rewrite length_map in Hu. cbn [List.length] in Hu. split; [|exact Hu].
  simpl. lia.
Qed.

Lemma X11_witness :
  exists analysis,
    analyze_edit_war_patterns_quick (fun _ => sample_contested) "Page"
    = Ok (Some analysis) /\
    qa_edit_wars analysis <> [].
Proof.
  destruct (analyze_edit_war_patterns_quick (fun _ => sample_contested) "Page")
    as [[analysis|]|e] eqn:E.
  - destruct (X11_quick_analysis_result _ _ E)
      as (evs & groups & _ & _ & _ & _ & _ & _ & _ & Hne & _).
    exists analysis. split; [reflexivity | exact Hne].
  - vm_compute in E. discriminate.
  - vm_compute in E. discriminate.
Defined.

(** X12. [analyze_edit_war_patterns_quick] fails exactly when
    [detect_reverts_quick] fails on the revisions of the page, and then with
    [KeyError('timestamp')]: the unguarded division by the number of
    revisions, the subscripts [group[0]] and [group[-1]] and the guarded mean
    never raise.  In particular it returns when every revision has a
    timestamp. *)
Theorem X12_quick_analysis_failures :
  forall (get_page_revisions_quick : string -> list Revision) (title : string),
    let answer := analyze_edit_war_patterns_quick get_page_revisions_quick title in
    is_ok answer = is_ok (Quick.detect_reverts_quick (get_page_revisions_quick title)) /\
    (forall e, answer = Raise e -> e = KeyError "timestamp") /\
    (forallb has_timestamp (get_page_revisions_quick title) = true ->
     exists r, answer = Ok r).
Proof.
  intros fetch title answer. subst answer.
  assert (Hmain :
            match analyze_edit_war_patterns_quick fetch title with
            | Ok _ => exists evs, Quick.detect_reverts_quick (fetch title) = Ok evs
            | Raise e => Quick.detect_reverts_quick (fetch title) = Raise e
            end).
  { unfold analyze_edit_war_patterns_quick.
    destruct (fetch title) as [|first rest] eqn:Hfetch.
    { cbn [truthy negb]. exists []. reflexivity. }
    cbn [truthy negb]. rewrite <- Hfetch.
    assert (Hne : fetch title <> []) by (rewrite Hfetch; discriminate).
    destruct (Quick.detect_reverts_quick (fetch title)) as [evs|e] eqn:Hdet;
      cbn [bind]; [|reflexivity].
    destruct (Summary.revert_groups evs) as [groups|] eqn:Hgroups; [|eauto].
    destruct (quick_groups_facts _ Hgroups) as (_ & _ & Hall).
    destruct (mapM_quick_war_data groups (fun g H => proj1 (Hall g H)))
      as (wars & -> & _).
    cbn [bind]. rewrite true_div_length_ok by exact Hne. cbn [bind]. eauto. }
  destruct (analyze_edit_war_patterns_quick fetch title) as [r|e].
  - destruct Hmain as [evs Hevs]. rewrite Hevs. cbn [is_ok].
    split; [reflexivity|]. split; [discriminate | eauto].
  - rewrite Hmain. cbn [is_ok]. split; [reflexivity|]. split.
    + intros e' [= <-]. exact (quick_detect_error _ Hmain).
    + intros Hts. exfalso.
      destruct (fetch title) as [|first rest]; [discriminate|].
      pose proof (quick_loop_spec rest first []) as HQ.
      cbn [Quick.detect_reverts_quick] in Hmain. rewrite Hmain in HQ.
      destruct HQ as [HQ _]. apply forallb_tl in Hts. cbn [tl] in Hts.
      now rewrite (forallb_filter_weaken _ _ _ Hts) in HQ.
Qed.

Lemma X12_witness :
  exists r, analyze_edit_war_patterns_quick (fun _ => sample_contested) "Page" = Ok r.
Proof.
  apply (proj2 (proj2 (X12_quick_analysis_failures
                         (fun _ => sample_contested) "Page"))).
  reflexivity.
Defined.

(** ** The quick three-revert check and the editor statistics *)

Lemma occurrences_NoDup (k : string) (names : list string) :
  NoDup names -> (occurrences k names <= 1)%Z.
Proof.
  induction 1 as [|x names Hx Hnd IH].
  - rewrite occurrences_nil. lia.
  - rewrite occurrences_cons. destruct (String.eqb k x) eqn:E; [|lia].
    apply String.eqb_eq in E. subst x.
    pose proof (occurrences_pos_In k names) as Hpos.
    pose proof (occurrences_nonneg k names).
    assert (occurrences k names = 0)%Z by (destruct (Z.eq_dec (occurrences k names) 0);
      [assumption | exfalso; apply Hx, Hpos; lia]).
    lia.
Qed.

(** The items of [Counter(names)] are the names with their numbers of
    occurrences. *)
Lemma Counter_In (names : list string) (k : string) (n : Z) :
  In (k, n) (Counter names) -> n = occurrences k names /\ (1 <= n)%Z.
Proof.
  intros Hin. unfold Counter in *.
  apply In_dict_get in Hin; [|apply NoDup_keys_tally; constructor].
  rewrite tally_get in Hin. cbn [dict_get get_or] in Hin.
  pose proof (occurrences_nonneg k names).
  destruct (occurrences k names =? 0)%Z eqn:E; [discriminate|].
  apply Z.eqb_neq in E. injection Hin as <-. split; lia.
Qed.

Lemma war_violations_NoDup (article : QuickAnalysis) (war : QuickWarData)
  (violations : list QuickViolation) :
  NoDup (qw_editors war) -> war_violations article war violations = violations.
Proof.
  intros Hnd. unfold war_violations.
  assert (Hall : forall item, In item (Counter (qw_editors war)) ->
                              (3 <=? snd item)%Z = false).
  { intros [k n] Hin. apply Counter_In in Hin as [-> _]. cbn [snd].
    apply Z.leb_gt. pose proof (occurrences_NoDup k Hnd). lia. }
  induction (Counter (qw_editors war)) as [|item items IH]; [reflexivity|].
  cbn [fold_left]. rewrite (Hall item (or_introl eq_refl)).
  apply IH. intros item' H. apply Hall. now right.
Qed.

Lemma quick_analysis_editors (fetch : string -> list Revision) (title : string)
  (analysis : QuickAnalysis) (w : QuickWarData) :
  analyze_edit_war_patterns_quick fetch title = Ok (Some analysis) ->
  In w (qa_edit_wars analysis) -> NoDup (qw_editors w).
Proof.
  unfold analyze_edit_war_patterns_quick.
  destruct (negb (truthy (fetch title))); [discriminate|].
  destruct (Quick.detect_reverts_quick (fetch title)) as [evs|e];
    cbn [bind]; [|discriminate].
  destruct (Summary.revert_groups evs) as [groups|] eqn:Hgroups; [|discriminate].
  destruct (quick_groups_facts _ Hgroups) as (_ & _ & Hall).
  destruct (mapM_quick_war_data groups (fun g H => proj1 (Hall g H)))
    as (wars & -> & HF).
  cbn [bind]. destruct (true_div _ _); cbn [bind]; [|discriminate].
  intros [= <-] Hw. cbn [qa_edit_wars] in Hw.
  destruct (Forall2_In_r w HF Hw) as ([|first rest] & Hg & Hgw); [discriminate|].
  destruct (quick_war_data_record first rest) as [avg Hrec].
  rewrite Hrec in Hgw.
  apply (f_equal (fun r => match r with Ok x => x | Raise _ => w end)) in Hgw.
  cbv beta iota in Hgw. subst w. apply unique_NoDup.
Qed.

Lemma quick_violations_nil (contested_articles : list QuickAnalysis) :
  (forall article w, In article contested_articles ->
                     In w (qa_edit_wars article) -> NoDup (qw_editors w)) ->
  detect_three_revert_violations_quick contested_articles = [].
Proof.
  intros Hall. unfold detect_three_revert_violations_quick.
  generalize (@nil QuickViolation) as violations.
  induction contested_articles as [|article articles IH]; intros violations;
    [reflexivity|].
  cbn [fold_left].
  assert (Hwars : forall wars vs,
             (forall w, In w wars -> NoDup (qw_editors w)) ->
             fold_left (fun violations war => war_violations article war violations)
                       wars vs = vs).
  { induction wars as [|w wars IHw]; intros vs Hnd; [reflexivity|].
    cbn [fold_left]. rewrite war_violations_NoDup by (apply Hnd; now left).
    apply IHw. intros w' H. apply Hnd. now right. }
  rewrite Hwars.
  - apply IH. intros a w Ha Hw. apply (Hall a w); [now right | exact Hw].
  - intros w Hw. apply (Hall article w); [now left | exact Hw].
Qed.

(** X13. [detect_three_revert_violations_quick] can never report a
    violation on articles analysed by [analyze_edit_war_patterns_quick]: it
    counts the names in [war['editors']], which that analysis built with
    [list(set(...))], so every count is 1 and the test [count >= 3] fails. *)
Theorem X13_quick_violations_empty :
  forall contested_articles : list QuickAnalysis,
    (forall article, In article contested_articles ->
       exists get_page_revisions_quick title,
         analyze_edit_war_patterns_quick get_page_revisions_quick title
         = Ok (Some article)) ->
    detect_three_revert_violations_quick contested_articles = [].
Proof.
  intros articles Hall. apply quick_violations_nil.
  intros article w Ha Hw.
  destruct (Hall article Ha) as (fetch & title & E).
  exact (@quick_analysis_editors fetch title article w E Hw).
Qed.

Lemma X13_witness :
  exists analysis,
    analyze_edit_war_patterns_quick (fun _ => sample_contested) "Page"
    = Ok (Some analysis) /\
    detect_three_revert_violations_quick [analysis] = [].
Proof.
  destruct (analyze_edit_war_patterns_quick (fun _ => sample_contested) "Page")
    as [[analysis|]|e] eqn:E.
  - exists analysis. split; [reflexivity|].
    apply X13_quick_violations_empty.
    intros article [<- | []]. now exists (fun _ => sample_contested), "Page"%string.
  - vm_compute in E. discriminate.
  - vm_compute in E. discriminate.
Defined.

Lemma collect_wars_from (wars : list QuickWarData) :
  forall l : list string,
    fold_left
      (fun state war =>
         (fst state ++ qw_editors war,
          fold_left counter_incr (qw_editors war) (snd state)))
      wars (l, fold_left counter_incr l [])
    = (l ++ flat_map qw_editors wars,
       fold_left counter_incr (l ++ flat_map qw_editors wars) []).
Proof.
  induction wars as [|w wars IH]; intros l.
  - simpl. now rewrite app_nil_r.
  - cbn [fold_left fst snd flat_map]. rewrite <- fold_left_app, IH.
    now rewrite <- app_assoc.
Qed.

Lemma collect_articles_from (contested_articles : list QuickAnalysis) :
  forall l : list string,
    fold_left
      (fun state article =>
         fold_left
           (fun state war =>
              (fst state ++ qw_editors war,
               fold_left counter_incr (qw_editors war) (snd state)))
           (qa_edit_wars article) state)
      contested_articles (l, fold_left counter_incr l [])
    = (l ++ war_editors contested_articles,
       fold_left counter_incr (l ++ war_editors contested_articles) []).
Proof.
  induction contested_articles as [|article articles IH]; intros l.
  - simpl. now rewrite app_nil_r.
  - cbn [fold_left]. rewrite collect_wars_from, IH.
    unfold war_editors. cbn [flat_map]. now rewrite <- app_assoc.
Qed.

Lemma collect_editors_spec (contested_articles : list QuickAnalysis) :
  collect_editors contested_articles
  = (war_editors contested_articles, Counter (war_editors contested_articles)).
Proof. exact (collect_articles_from contested_articles []). Qed.

Lemma Counter_keys_In (names : list string) (u : string) :
  In u (keys (Counter names)) <-> In u names.
Proof.
  unfold Counter. rewrite <- (occurrences_pos_In u names).
  pose proof (tally_get names [] u) as Hget. cbn [dict_get] in Hget.
  pose proof (dict_get_None_keys (fold_left counter_incr names []) u) as Hnone.
  pose proof (occurrences_nonneg u names).
  destruct (occurrences u names =? 0)%Z eqn:E.
  - apply Z.eqb_eq in E. split; [|intros ?; exfalso; lia].
    intros Hin. exfalso. apply Hnone in Hget. contradiction.
  - apply Z.eqb_neq in E. split; [intros _; lia|]. intros _.
    destruct (in_dec string_dec u (keys (fold_left counter_incr names [])))
      as [Hin|Hin]; [exact Hin|].
    apply Hnone in Hin. congruence.
Qed.

Lemma Counter_length (names : list string) :
  List.length (Counter names) = List.length (unique names).
Proof.
  rewrite <- (length_map fst (Counter names)). fold (keys (Counter names)).
  apply Nat.le_antisymm; apply NoDup_incl_length.
  - unfold Counter. apply NoDup_keys_tally. constructor.
  - intros u Hu. apply unique_In. now apply Counter_keys_In.
  - apply unique_NoDup.
  - intros u Hu. apply Counter_keys_In. now apply unique_In.
Qed.

Lemma split_counts (counts : list Z) :
  (forall n, In n counts -> (1 <= n)%Z) ->
  (List.length (filter (fun e => (e =? 1)%Z) counts)
   + List.length (filter (fun e => (1 <? e)%Z) counts)
   = List.length counts)%nat.
Proof.
  induction counts as [|n counts IH]; intros Hall; [reflexivity|].
  pose proof (Hall n (or_introl eq_refl)) as Hn.
  cbn [filter].
  destruct (n =? 1)%Z eqn:E1; destruct (1 <? n)%Z eqn:E2;
    cbn [List.length]; rewrite <- (IH (fun m H => Hall m (or_intror H)));
    lia.
Qed.

Lemma insert_by_count_In (x y : string * Z) (s : list (string * Z)) :
  In y (insert_by_count x s) <-> y = x \/ In y s.
Proof.
  induction s as [|z s IH]; simpl.
  - split; [intros [<- | []]; now left | intros [-> | []]; now left].
  - destruct (snd z <=? snd x)%Z; simpl; [intuition congruence|].
    rewrite IH. tauto.
Qed.

Lemma insert_by_count_sorted (x : string * Z) (s : list (string * Z)) :
  Sorted (fun a b => (snd b <= snd a)%Z) s ->
  Sorted (fun a b => (snd b <= snd a)%Z) (insert_by_count x s).
Proof.
  induction s as [|z s IH]; intros Hs; simpl.
  - repeat constructor.
  - destruct (snd z <=? snd x)%Z eqn:E.
    + apply Z.leb_le in E. constructor; [exact Hs | now constructor].
    + apply Z.leb_gt in E. inversion Hs as [|? ? Hs' Hhd]; subst.
      constructor; [now apply IH|].
      destruct s as [|w s]; simpl.
      * constructor. lia.
      * destruct (snd w <=? snd x)%Z; constructor; [lia|].
        now inversion Hhd.
Qed.

Lemma Sorted_firstn (A : Type) (R : A -> A -> Prop) (n : nat) (l : list A) :
  Sorted R l -> Sorted R (firstn n l).
Proof.
  revert l. induction n as [|n IH]; intros l Hs; [constructor|].
  destruct l as [|x l]; [constructor|].
  inversion Hs as [|? ? Hs' Hhd]; subst. cbn [firstn].
  constructor; [now apply IH|].
  destruct n; [constructor|].
  destruct Hhd; cbn [firstn]; now constructor.
Qed.

Lemma In_firstn (A : Type) (n : nat) (l : list A) (x : A) :
  In x (firstn n l) -> In x l.
Proof.
  revert l. induction n as [|n IH]; intros l Hin; [destruct Hin|].
  destruct l as [|y l]; [destruct Hin|].
  destruct Hin as [-> | Hin]; [now left | right; now apply IH].
Qed.

Lemma most_common_spec (n : nat) (counter : dict Z) :
  (List.length (most_common n counter) <= n)%nat /\
  (forall item, In item (most_common n counter) -> In item counter) /\
  Sorted (fun a b => (snd b <= snd a)%Z) (most_common n counter).
Proof.
  unfold most_common. split; [apply firstn_le_length|]. split.
  - intros item Hin. apply In_firstn in Hin.
    induction counter as [|x counter IH]; [destruct Hin|].
    cbn [fold_right] in Hin. apply insert_by_count_In in Hin as [-> | Hin];
      [now left | right; now apply IH].
  - apply Sorted_firstn.
    induction counter as [|x counter IH]; [constructor|].
    cbn [fold_right]. now apply insert_by_count_sorted.
Qed.

(** X14. In the answer of [analyze_editor_behavior_quick], the editors with
    one edit war and the editors with several add up to the total, which is
    the number of distinct names in the editor lists of the wars; the two
    rankings [most_active_editors] and [editor_revert_counts] are the same;
    a ranking has at most 5 entries, in order of decreasing count, and the
    count of an editor is the number of times the name occurs in the editor
    lists of the wars. *)
Theorem X14_editor_behavior :
  forall contested_articles : list QuickAnalysis,
    let behavior := analyze_editor_behavior_quick contested_articles in
    let names := war_editors contested_articles in
    (eb_new_editors behavior + eb_repeat_editors behavior
     = eb_total_unique_editors behavior)%nat /\
    eb_total_unique_editors behavior = List.length (unique names) /\
    eb_editor_revert_counts behavior = eb_most_active_editors behavior /\
    (List.length (eb_most_active_editors behavior) <= 5)%nat /\
    Sorted (fun a b => (snd b <= snd a)%Z) (eb_most_active_editors behavior) /\
    forall u n, In (u, n) (eb_most_active_editors behavior) ->
                n = occurrences u names /\ (1 <= n)%Z.
Proof.
  intros articles behavior names. subst behavior names.
  unfold analyze_editor_behavior_quick. rewrite collect_editors_spec.
  cbn [fst snd eb_new_editors eb_repeat_editors eb_total_unique_editors
       eb_editor_revert_counts eb_most_active_editors].
  destruct (most_common_spec 5 (Counter (war_editors articles)))
    as (Hlen & Hin & Hsorted).
  split; [|split; [apply Counter_length|split; [reflexivity|split;
            [exact Hlen|split; [exact Hsorted|]]]]].
  - rewrite split_counts; [unfold values; now rewrite length_map|].
    intros n Hn. unfold values in Hn. apply in_map_iff in Hn as ([k n'] & <- & Hk).
    now apply Counter_In in Hk.
  - intros u n Hun. apply Hin in Hun. now apply Counter_In.
Qed.

(** ** [get_talk_page_activity] *)

Section TalkPageFacts.

Variable clock : nat -> Z.

Lemma recent_loop_spec (revs : list Revision) :
  forall (k : nat) (acc : Z),
    match recent_loop clock k revs acc with
    | Ok recent =>
        forallb has_timestamp revs = true /\
        (acc <= recent <= acc + Z.of_nat (List.length revs))%Z /\
        forall now, (forall i, clock i = now) ->
          recent
          = (acc + Z.of_nat
                     (List.length
                        (filter (fun rev => (now - 2678400 <? time_or_zero rev)%Z)
                                revs)))%Z
    | Raise e =>
        forallb has_timestamp revs = false /\ e = KeyError "timestamp"
    end.
Proof.
  induction revs as [|rev revs IH]; intros k acc.
  - simpl. split; [reflexivity|]. split; [lia|]. intros; lia.
  - cbn [recent_loop forallb].
    assert (Hh : has_timestamp rev
                 = match timestamp rev with Some _ => true | None => false end)
      by reflexivity.
    rewrite Hh. unfold time_or_zero at 1.
    destruct (timestamp rev) as [t|] eqn:Ht; cbn [subscript bind andb]; [|now split].
    set (acc' := if ((clock k - t) / 86400 <=? 30)%Z then (acc + 1)%Z else acc).
    assert (Hacc : (acc <= acc' <= acc + 1)%Z)
      by (subst acc'; destruct ((clock k - t) / 86400 <=? 30)%Z; lia).
    specialize (IH (S k) acc').
    destruct (recent_loop clock (S k) revs acc') as [recent|e]; [|exact IH].
    destruct IH as (Hts & Hbound & Hconst). split; [exact Hts|].
    split; [cbn [List.length]; lia|].
    intros now Hnow. rewrite (Hconst now Hnow). cbn [filter].
    unfold time_or_zero at 1. rewrite Ht. cbn [get_or].
    subst acc'. rewrite Hnow.
    assert (Hiff : ((now - t) / 86400 <=? 30)%Z = (now - 2678400 <? t)%Z).
    { apply eq_true_iff_eq. rewrite Z.leb_le, Z.ltb_lt.
      pose proof (Z.div_mod (now - t) 86400) as Hdm.
      pose proof (Z.mod_pos_bound (now - t) 86400) as Hmod.
      split; intros H; lia. }
    rewrite Hiff. destruct (now - 2678400 <? t)%Z; cbn [List.length]; lia.
Qed.

End TalkPageFacts.

Lemma skipn_last_In (A : Type) (l : list A) :
  forall (n : nat) (d : A), (n < List.length l)%nat -> In (last l d) (skipn n l).
Proof.
  induction l as [|x l IH]; intros n d Hn; [simpl in Hn; lia|].
  destruct n as [|n].
  - cbn [skipn]. clear IH Hn. revert x.
    induction l as [|y l IHl]; intros x; [now left|].
    right. change (last (x :: y :: l) d) with (last (y :: l) d). apply IHl.
  - cbn [skipn]. destruct l as [|y l]; [simpl in Hn; lia|].
    change (last (x :: y :: l) d) with (last (y :: l) d).
    apply IH. simpl in Hn |- *. lia.
Qed.

Lemma last_ten_length (A : Type) (l : list A) :
  List.length (last_ten l) = Nat.min 10 (List.length l).
Proof. unfold last_ten. rewrite length_skipn. lia. Qed.

(** X15. [get_talk_page_activity] answers "no talk page" exactly when the
    fetch gives no revisions.  Otherwise it reads the timestamps of the last
    ten revisions only: it returns exactly when each of these has one and
    raises [KeyError('timestamp')] if not, whatever the older revisions look
    like.  In the answer, [total_revisions] is the number of revisions,
    [recent_activity] lies between 0 and [min(10, total_revisions)], the
    level is high from 5, medium from 2 to 4 and low below 2, and
    [last_edit] is the timestamp of the last revision.  With a clock that
    stands still, [recent_activity] counts the revisions among the last ten
    that are less than 31 days (2678400 seconds) old. *)
Theorem X15_talk_page_activity :
  forall (get_page_revisions : string -> list Revision) (clock : nat -> Z)
         (title : string),
    let talk_revisions := get_page_revisions ("Talk:" ++ title)%string in
    let answer := get_talk_page_activity get_page_revisions clock title in
    (answer = Ok NoTalkPage <-> talk_revisions = []) /\
    (talk_revisions <> [] ->
     is_ok answer = forallb has_timestamp (last_ten talk_revisions)) /\
    (forall e, answer = Raise e -> e = KeyError "timestamp") /\
    (forall total recent level last_edit,
        answer = Ok (TalkPage total recent level last_edit) ->
        total = List.length talk_revisions /\
        (0 <= recent <= Z.of_nat (Nat.min 10 total))%Z /\
        (level = activity_high <-> (5 <= recent)%Z) /\
        (level = activity_medium <-> (2 <= recent < 5)%Z) /\
        (level = activity_low <-> (recent < 2)%Z) /\
        (forall first, timestamp (last talk_revisions first) = Some last_edit) /\
        forall now, (forall i, clock i = now) ->
          recent
          = Z.of_nat
              (List.length
                 (filter (fun rev => (now - 2678400 <? time_or_zero rev)%Z)
                         (last_ten talk_revisions)))).
Proof.
  intros fetch clock title talk_revisions answer. subst answer.
  unfold get_talk_page_activity. fold talk_revisions.
  destruct talk_revisions as [|first rest] eqn:Hrevs.
  { split; [now split|]. split; [contradiction|]. split; discriminate. }
  rewrite <- Hrevs.
  assert (Hne : talk_revisions <> []) by (subst talk_revisions; congruence).
  assert (Hlast : In (last talk_revisions first) (last_ten talk_revisions)).
  { unfold last_ten. apply skipn_last_In.
    destruct talk_revisions; [contradiction | simpl; lia]. }
  pose proof (recent_loop_spec clock (last_ten talk_revisions) 0 0) as Hloop.
  destruct (recent_loop clock 0 (last_ten talk_revisions) 0) as [recent|e];
    cbn [bind].
  - destruct Hloop as (Hts & Hbound & Hconst).
    pose proof (proj1 (forallb_forall _ _) Hts _ Hlast) as Hlt.
    apply has_timestamp_Some in Hlt as [t Ht]. rewrite Ht. cbn [subscript bind].
    split; [split; [discriminate | intros H; rewrite H in Hrevs; discriminate]|].
    split; [intros _; now rewrite Hts|]. split; [discriminate|].
    intros total recent' level last_edit [= <- <- <- <-].
    split; [reflexivity|]. rewrite last_ten_length in Hbound.
    split; [lia|].
    assert (Hd : forall d, last talk_revisions d = last talk_revisions first).
    { intros d. destruct talk_revisions as [|x l]; [contradiction|].
      now rewrite !last_cons_default. }
    destruct (5 <=? recent)%Z eqn:E5; [|destruct (2 <=? recent)%Z eqn:E2].
    + apply Z.leb_le in E5.
      repeat split; try discriminate; try lia; try (intros; lia);
        try (intros d; now rewrite Hd).
      intros now Hnow. now rewrite (Hconst now Hnow).
    + apply Z.leb_gt in E5. apply Z.leb_le in E2.
      repeat split; try discriminate; try lia; try (intros; lia);
        try (intros d; now rewrite Hd).
      intros now Hnow. now rewrite (Hconst now Hnow).
    + apply Z.leb_gt in E5. apply Z.leb_gt in E2.
      repeat split; try discriminate; try lia; try (intros; lia);
        try (intros d; now rewrite Hd).
      intros now Hnow. now rewrite (Hconst now Hnow).
  - destruct Hloop as [Hts ->].
    split; [split; [discriminate | intros H; rewrite H in Hrevs; discriminate]|].
    split; [intros _; now rewrite Hts|]. split; [now intros e [= <-]|].
    discriminate.
Qed.

Lemma X15_witness :
  is_ok (get_talk_page_activity (fun _ => sample_history) (fun _ => 20000%Z) "Page")
  = forallb has_timestamp (last_ten sample_history).
Proof.
  apply (proj1 (proj2 (X15_talk_page_activity
                         (fun _ => sample_history) (fun _ => 20000%Z) "Page"))).
  discriminate.
Defined.

(** ** The searches for contested articles *)

Section SortDescendingFacts.

Variable A : Type.
Variable key : A -> Q.

Lemma insert_desc_In (x y : A) (s : list A) :
  In y (insert_desc key x s) <-> y = x \/ In y s.
Proof.
  induction s as [|z s IH]; simpl.
  - split; [intros [<- | []]; now left | intros [-> | []]; now left].
  - destruct (Qle_bool (key z) (key x)); simpl; [intuition congruence|].
    rewrite IH. tauto.
Qed.

Lemma sort_desc_In (y : A) (l : list A) : In y (sort_desc key l) <-> In y l.
Proof.
  induction l as [|x l IH]; simpl; [tauto|].
  fold (sort_desc key l). rewrite insert_desc_In, IH. intuition congruence.
Qed.

Lemma insert_desc_length (x : A) (s : list A) :
  List.length (insert_desc key x s) = S (List.length s).
Proof.
  induction s as [|z s IH]; simpl; [reflexivity|].
  destruct (Qle_bool (key z) (key x)); simpl; [reflexivity | now rewrite IH].
Qed.

Lemma sort_desc_length (l : list A) : List.length (sort_desc key l) = List.length l.
Proof.
  induction l as [|x l IH]; simpl; [reflexivity|].
  fold (sort_desc key l). now rewrite insert_desc_length, IH.
Qed.

Lemma Qle_bool_false (x y : Q) : Qle_bool x y = false -> y <= x.
Proof.
  intros H. apply Qlt_le_weak, Qnot_le_lt. intros Hle.
  apply Qle_bool_iff in Hle. congruence.
Qed.

Lemma insert_desc_sorted (x : A) (s : list A) :
  Sorted (fun a b => key b <= key a) s ->
  Sorted (fun a b => key b <= key a) (insert_desc key x s).
Proof.
  induction s as [|z s IH]; intros Hs; simpl.
  - repeat constructor.
  - destruct (Qle_bool (key z) (key x)) eqn:E.
    + apply Qle_bool_iff in E. constructor; [exact Hs | now constructor].
    + apply Qle_bool_false in E. inversion Hs as [|? ? Hs' Hhd]; subst.
      constructor; [now apply IH|].
      destruct s as [|w s]; simpl.
      * now constructor.
      * destruct (Qle_bool (key w) (key x)); constructor; [exact E|].
        now inversion Hhd.
Qed.

Lemma sort_desc_sorted (l : list A) :
  Sorted (fun a b => key b <= key a) (sort_desc key l).
Proof.
  induction l as [|x l IH]; simpl; [constructor|].
  fold (sort_desc key l). now apply insert_desc_sorted.
Qed.

End SortDescendingFacts.

Section ContestedQuickFacts.

Variable fetch : string -> list Revision.

Lemma contested_step_spec (page : option string) (contested contested' : list QuickAnalysis) :
  contested_step fetch page contested = Ok contested' ->
  contested' = contested \/
  exists article, contested' = contested ++ [article] /\ quick_found fetch [page] article.
Proof.
  unfold contested_step. destruct page as [title|]; cbn [subscript bind]; [|discriminate].
  destruct (analyze_edit_war_patterns_quick fetch title) as [[a|]|e] eqn:E;
    cbn [bind]; try discriminate.
  - destruct (qa_edit_wars a) as [|w ws] eqn:Hw; cbn [truthy]; intros [= <-].
    + now left.
    + right. exists a. split; [reflexivity|]. split; [rewrite Hw; discriminate|].
      exists title. split; [now left | exact E].
  - intros [= <-]. now left.
Qed.

Lemma contested_loop_spec (pages : list (option string)) :
  forall contested : list QuickAnalysis,
    (List.length contested < 10)%nat ->
    exists more,
      contested_loop fetch pages contested = contested ++ more /\
      (List.length (contested ++ more) <= 10)%nat /\
      Forall (quick_found fetch pages) more.
Proof.
  induction pages as [|page pages IH]; intros contested Hlen.
  - exists []. rewrite app_nil_r. simpl. repeat split; [lia | constructor].
  - cbn [contested_loop].
    destruct (contested_step fetch page contested) as [contested'|e] eqn:Hstep.
    + assert (Hweaken : forall a, quick_found fetch [page] a -> quick_found fetch (page :: pages) a).
      { intros a (Hw & title & [Hin | []] & Ha). split; [exact Hw|].
        exists title. split; [now left | exact Ha]. }
      assert (Hlater : forall a, quick_found fetch pages a -> quick_found fetch (page :: pages) a).
      { intros a (Hw & title & Hin & Ha). split; [exact Hw|].
        exists title. split; [now right | exact Ha]. }
      apply contested_step_spec in Hstep as [-> | (article & -> & Hart)].
      * destruct (10 <=? List.length contested)%nat eqn:E;
          [apply Nat.leb_le in E; lia|].
        destruct (IH contested Hlen) as (more & -> & Hle & Hall).
        exists more. repeat split; auto.
        eapply Forall_impl; [exact Hlater | exact Hall].
      * destruct (10 <=? List.length (contested ++ [article]))%nat eqn:E.
        -- exists [article]. split; [reflexivity|]. split.
           ++ rewrite length_app. simpl. lia.
           ++ constructor; [now apply Hweaken | constructor].
        -- apply Nat.leb_gt in E.
           destruct (IH (contested ++ [article]) E) as (more & -> & Hle & Hall).
           exists (article :: more). rewrite <- app_assoc in *. cbn [app] in *.
           repeat split; auto. constructor; [now apply Hweaken|].
           eapply Forall_impl; [exact Hlater | exact Hall].
    + exists []. rewrite app_nil_r. repeat split; [lia | constructor].
Qed.

End ContestedQuickFacts.

(** X16. [find_contested_articles_quick] returns at most ten articles, in
    order of decreasing revert rate; each is the analysis that
    [analyze_edit_war_patterns_quick] gives for one of the listed pages and
    has at least one edit war; and, as in [main],
    [detect_three_revert_violations_quick] finds no violation on them. *)
Theorem X16_find_contested_quick :
  forall (get_page_revisions_quick : string -> list Revision)
         (pages : list (option string)),
    let found := find_contested_articles_quick get_page_revisions_quick pages in
    (List.length found <= 10)%nat /\
    Sorted (fun a b => qa_revert_rate b <= qa_revert_rate a) found /\
    (forall article, In article found ->
                     quick_found get_page_revisions_quick pages article) /\
    detect_three_revert_violations_quick found = [].
Proof.
  intros fetch pages found. subst found. unfold find_contested_articles_quick.
  destruct (@contested_loop_spec fetch pages [])
    as (more & Hloop & Hlen & Hall); [simpl; lia|].
  cbn [app] in Hloop, Hlen. rewrite Hloop.
  assert (Hfound : forall article, In article (sort_desc qa_revert_rate more) ->
                                   quick_found fetch pages article).
  { intros article Hin. apply sort_desc_In in Hin.
    now apply (proj1 (Forall_forall _ _) Hall). }
  split; [now rewrite sort_desc_length|].
  split; [apply sort_desc_sorted|]. split; [exact Hfound|].
  apply quick_violations_nil. intros article w Ha Hw.
  destruct (Hfound article Ha) as (_ & title & _ & E).
  exact (@quick_analysis_editors fetch title article w E Hw).
Qed.

Lemma X16_witness :
  exists article,
    In article (find_contested_articles_quick (fun _ => sample_contested)
                                              [Some "Page"%string]) /\
    qa_edit_wars article <> [].
Proof.
  destruct (find_contested_articles_quick (fun _ => sample_contested)
                                          [Some "Page"%string])
    as [|article rest] eqn:E.
  - vm_compute in E. discriminate.
  - exists article. split; [now left|].
    destruct (X16_find_contested_quick (fun _ => sample_contested)
                                       [Some "Page"%string])
      as (_ & _ & Hfound & _).
    rewrite E in Hfound. apply (Hfound article). now left.
Defined.

Lemma detect_edit_wars_rate (fetch : string -> list Revision) (thr : Z) (win : Q)
  (title : string) (data : EditWarData) :
  detect_edit_wars fetch thr win title = Ok (Some data) ->
  0 <= revert_rate data /\ revert_rate data < 1.
Proof.
  unfold detect_edit_wars.
  destruct (negb (truthy (fetch title))) eqn:Hempty; [discriminate|].
  apply truthy_nonempty in Hempty.
  destruct (Analyzer.detect_reverts (fetch title)) as [evs|e] eqn:Hdet;
    cbn [bind]; [|discriminate].
  assert (Htruthy : truthy (fetch title) = true)
    by (destruct (fetch title); [contradiction | reflexivity]).
  rewrite Htruthy, true_div_length_ok by exact Hempty. cbn [bind].
  pose proof (analyzer_detect_length _ Hdet) as Hlen.
  assert (Hlt : (List.length evs < List.length (fetch title))%nat)
    by (destruct (fetch title); [contradiction | simpl in *; lia]).
  destruct (if (thr <=? Z.of_nat (List.length evs))%Z then _ else _);
    cbn [bind]; [|discriminate].
  destruct (_detect_three_revert_violations (fetch title)); cbn [bind];
    [|discriminate].
  intros [= <-]. cbn [revert_rate]. now apply rate_in_unit_interval.
Qed.

Section ContestedFacts.

Variable fetch : string -> list Revision.
Variable thr : Z.
Variable win : Q.
Variable page_protected : string -> bool.
Variable clock : string -> nat -> Z.

Lemma analyzer_contested_step_spec (page : option string)
  (contested contested' : list ContestedArticle) :
  analyzer_contested_step fetch thr win page_protected clock page contested
  = Ok contested' ->
  contested' = contested \/
  exists article,
    contested' = contested ++ [article] /\
    analyzer_found fetch thr win page_protected clock [page] article.
Proof.
  unfold analyzer_contested_step.
  destruct page as [title|]; cbn [subscript bind]; [|discriminate].
  destruct (detect_edit_wars fetch thr win title) as [[data|]|e] eqn:E;
    cbn [bind]; try discriminate.
  - destruct (edit_wars data) as [|w ws] eqn:Hw; cbn [truthy].
    + intros [= <-]. now left.
    + destruct (get_talk_page_activity fetch (clock title) title) as [talk|e] eqn:Ht;
        cbn [bind]; [|discriminate].
      intros [= <-]. right. eexists. split; [reflexivity|].
      split; [cbn [ca_edit_wars]; discriminate|].
      exists data. cbn [ca_title ca_edit_wars ca_total_reverts ca_revert_rate
                        ca_editor_participation ca_three_revert_violations
                        ca_protected ca_talk_activity].
      rewrite Hw. repeat split; auto. now left.
  - intros [= <-]. now left.
Qed.

Lemma analyzer_found_weaken (pages pages' : list (option string))
  (article : ContestedArticle) :
  (forall p, In p pages -> In p pages') ->
  analyzer_found fetch thr win page_protected clock pages article ->
  analyzer_found fetch thr win page_protected clock pages' article.
Proof.
  intros Hincl (Hw & data & Hin & Hrest). split; [exact Hw|].
  exists data. split; [now apply Hincl | exact Hrest].
Qed.

Lemma analyzer_contested_loop_spec (pages : list (option string)) :
  forall contested : list ContestedArticle,
    exists more,
      analyzer_contested_loop fetch thr win page_protected clock pages contested
      = contested ++ more /\
      (List.length more <= List.length pages)%nat /\
      Forall (analyzer_found fetch thr win page_protected clock pages) more.
Proof.
  induction pages as [|page pages IH]; intros contested.
  - exists []. rewrite app_nil_r. simpl. repeat split; [lia | constructor].
  - cbn [analyzer_contested_loop].
    destruct (analyzer_contested_step fetch thr win page_protected clock page contested)
      as [contested'|e] eqn:Hstep.
    + apply analyzer_contested_step_spec in Hstep as [-> | (article & -> & Hart)].
      * destruct (IH contested) as (more & -> & Hle & Hall).
        exists more. split; [reflexivity|]. split; [simpl; lia|].
        eapply Forall_impl; [|exact Hall].
        intros a. apply analyzer_found_weaken. intros p Hp. now right.
      * destruct (IH (contested ++ [article])) as (more & -> & Hle & Hall).
        exists (article :: more). rewrite <- app_assoc. cbn [app].
        split; [reflexivity|]. split; [simpl; lia|].
        constructor.
        -- eapply analyzer_found_weaken; [|exact Hart].
           intros p [<- | []]. now left.
        -- eapply Forall_impl; [|exact Hall].
           intros a. apply analyzer_found_weaken. intros p Hp. now right.
    + exists []. rewrite app_nil_r. repeat split; [simpl; lia | constructor].
Qed.

End ContestedFacts.

(** X17. [EditWarAnalyzer.find_contested_articles] returns at most one
    article per listed page, in order of decreasing revert rate.  Each
    article is assembled from the answers of [detect_edit_wars], of the
    protection query and of [get_talk_page_activity] for one of the pages, has
    at least one edit war, and has a revert rate in [0, 1). *)
Theorem X17_find_contested :
  forall (get_page_revisions : string -> list Revision)
         (revert_threshold : Z) (time_window_hours : Q)
         (page_protected : string -> bool) (clock : string -> nat -> Z)
         (pages : list (option string)),
    let found :=
      find_contested_articles get_page_revisions revert_threshold time_window_hours
                              page_protected clock pages in
    (List.length found <= List.length pages)%nat /\
    Sorted (fun a b => ca_revert_rate b <= ca_revert_rate a) found /\
    forall article, In article found ->
      analyzer_found get_page_revisions revert_threshold time_window_hours
                     page_protected clock pages article /\
      0 <= ca_revert_rate article /\ ca_revert_rate article < 1.
Proof.
  intros fetch thr win page_protected clock pages found. subst found.
  unfold find_contested_articles.
  destruct (analyzer_contested_loop_spec fetch thr win page_protected clock pages [])
    as (more & Hloop & Hlen & Hall).
  cbn [app] in Hloop. rewrite Hloop.
  split; [now rewrite sort_desc_length|]. split; [apply sort_desc_sorted|].
  intros article Hin. apply sort_desc_In in Hin.
  pose proof (proj1 (Forall_forall _ _) Hall article Hin) as Hfound.
  split; [exact Hfound|].
  destruct Hfound as (_ & data & _ & Hdata & _ & _ & -> & _).
  exact (detect_edit_wars_rate _ _ _ _ Hdata).
Qed.

Lemma X17_witness :
  exists article,
    In article (find_contested_articles (fun _ => revs_revert) 1 (24 # 1)
                  (fun _ => false) (fun _ _ => 20000%Z) [Some "Page"%string]) /\
    ca_revert_rate article < 1.
Proof.
  destruct (find_contested_articles (fun _ => revs_revert) 1 (24 # 1)
              (fun _ => false) (fun _ _ => 20000%Z) [Some "Page"%string])
    as [|article rest] eqn:E.
  - vm_compute in E. discriminate.
  - exists article. split; [now left|].
    pose proof (X17_find_contested (fun _ => revs_revert) 1 (24 # 1)
                  (fun _ => false) (fun _ _ => 20000%Z) [Some "Page"%string])
      as (_ & _ & Hfound).
    rewrite E in Hfound. apply (Hfound article). now left.
Defined.

(** ** The report *)

Lemma guarded_mean_ok (x : nat) (contested : list ContestedArticle) :
  contested <> [] ->
  guarded_mean x contested
  = Ok (inject_Z (Z.of_nat x) / inject_Z (Z.of_nat (List.length contested))).
Proof.
  intros Hne. unfold guarded_mean.
  rewrite true_div_length_ok by exact Hne.
  destruct contested; [contradiction | reflexivity].
Qed.

Lemma guarded_rate_ok (x : nat) (contested : list ContestedArticle) :
  contested <> [] ->
  guarded_rate x contested
  = Ok (inject_Z (Z.of_nat x) / inject_Z (Z.of_nat (List.length contested)) * 100).
Proof.
  intros Hne. unfold guarded_rate.
  rewrite true_div_length_ok by exact Hne.
  destruct contested; [contradiction | reflexivity].
Qed.

Lemma mean_bounds (x n : nat) :
  (0 < n)%nat ->
  0 <= inject_Z (Z.of_nat x) / inject_Z (Z.of_nat n) /\
  inject_Z (Z.of_nat x) / inject_Z (Z.of_nat n) <= inject_Z (Z.of_nat x) /\
  ((n <= x)%nat -> 1 <= inject_Z (Z.of_nat x) / inject_Z (Z.of_nat n)).
Proof.
  intros Hn.
  assert (Hpos : 0 < inject_Z (Z.of_nat n))
    by (change 0 with (inject_Z 0); rewrite <- Zlt_Qlt; lia).
  split; [|split].
  - apply Qle_shift_div_l; [exact Hpos|]. rewrite Qmult_0_l.
    change 0 with (inject_Z 0). rewrite <- Zle_Qle. lia.
  - apply Qle_shift_div_r; [exact Hpos|].
    rewrite <- inject_Z_mult, <- Zle_Qle. nia.
  - intros Hle. apply Qle_shift_div_l; [exact Hpos|]. rewrite Qmult_1_l.
    rewrite <- Zle_Qle. lia.
Qed.

Lemma percentage_bounds (x n : nat) :
  (x <= n)%nat -> (0 < n)%nat ->
  0 <= inject_Z (Z.of_nat x) / inject_Z (Z.of_nat n) * 100 /\
  inject_Z (Z.of_nat x) / inject_Z (Z.of_nat n) * 100 <= 100.
Proof.
  intros Hle Hn.
  assert (Hpos : 0 < inject_Z (Z.of_nat n))
    by (change 0 with (inject_Z 0); rewrite <- Zlt_Qlt; lia).
  assert (H0 : 0 <= inject_Z (Z.of_nat x) / inject_Z (Z.of_nat n)).
  { apply Qle_shift_div_l; [exact Hpos|]. rewrite Qmult_0_l.
    change 0 with (inject_Z 0). rewrite <- Zle_Qle. lia. }
  assert (H1 : inject_Z (Z.of_nat x) / inject_Z (Z.of_nat n) <= 1).
  { apply Qle_shift_div_r; [exact Hpos|]. rewrite Qmult_1_l.
    rewrite <- Zle_Qle. lia. }
  split.
  - apply Qmult_le_0_compat; [exact H0 | discriminate].
  - setoid_replace 100 with (1 * 100) at 2 by ring.
    apply Qmult_le_compat_r; [exact H1 | discriminate].
Qed.

Lemma list_sum_at_least (A : Type) (f : A -> nat) (l : list A) :
  (forall x, In x l -> (1 <= f x)%nat) ->
  (List.length l <= list_sum (map f l))%nat.
Proof.
  induction l as [|x l IH]; intros Hall; [simpl; lia|].
  cbn [map List.length].
  change (list_sum (f x :: map f l)) with (f x + list_sum (map f l))%nat.
  pose proof (Hall x (or_introl eq_refl)).
  pose proof (IH (fun y H => Hall y (or_intror H))). lia.
Qed.

Lemma Counter_values_positive (names : list string) (n : Z) :
  In n (values (Counter names)) -> (1 <= n)%Z.
Proof.
  intros Hn. unfold values in Hn. apply in_map_iff in Hn as ([k n'] & <- & Hk).
  now apply Counter_In in Hk.
Qed.

Lemma find_contested_has_wars (fetch : string -> list Revision) (thr : Z) (win : Q)
  (page_protected : string -> bool) (clock : string -> nat -> Z)
  (pages : list (option string)) (article : ContestedArticle) :
  In article (find_contested_articles fetch thr win page_protected clock pages) ->
  ca_edit_wars article <> [].
Proof.
  unfold find_contested_articles. intros Hin. apply sort_desc_In in Hin.
  destruct (analyzer_contested_loop_spec fetch thr win page_protected clock pages [])
    as (more & Hloop & _ & Hall).
  cbn [app] in Hloop. rewrite Hloop in Hin.
  now destruct (proj1 (Forall_forall _ _) Hall article Hin) as [Hw _].
Qed.

Lemma report_editors_fold (contested : list ContestedArticle) :
  forall l : list string,
    fold_left (fun all_editors article =>
                 fold_left (fun all_editors war => all_editors ++ editors war)
                           (ca_edit_wars article) all_editors)
              contested l
    = l ++ report_editors contested.
Proof.
  assert (Hwars : forall (wars : list WarData) (l : list string),
             fold_left (fun all_editors war => all_editors ++ editors war) wars l
             = l ++ flat_map editors wars).
  { induction wars as [|war wars IH]; intros l.
    - simpl. now rewrite app_nil_r.
    - cbn [fold_left flat_map]. rewrite IH. now rewrite <- app_assoc. }
  induction contested as [|article contested IH]; intros l.
  - simpl. now rewrite app_nil_r.
  - cbn [fold_left]. rewrite Hwars, IH.
    unfold report_editors. cbn [flat_map]. now rewrite <- app_assoc.
Qed.

Lemma compute_statistics_spec (contested : list ContestedArticle) :
  contested <> [] ->
  (forall article, In article contested -> ca_edit_wars article <> []) ->
  exists s,
    compute_statistics contested = Ok s /\
    let n := List.length contested in
    let names := report_editors contested in
    let overall := overall_statistics s in
    let patterns := editor_behavior_patterns s in
    articles_analyzed overall = n /\
    articles_with_edit_wars overall = n /\
    (n <= total_edit_wars overall)%nat /\
    (0 <= avg_reverts_per_article overall /\
     avg_reverts_per_article overall
     <= inject_Z (Z.of_nat (os_total_reverts overall))) /\
    (1 <= avg_edit_wars_per_article overall /\
     avg_edit_wars_per_article overall
     <= inject_Z (Z.of_nat (total_edit_wars overall))) /\
    total_unique_editors patterns = List.length (unique names) /\
    (single_war patterns + multiple_wars patterns
     = total_unique_editors patterns)%nat /\
    (List.length (most_active_editors patterns) <= 10)%nat /\
    Sorted (fun a b => (snd b <= snd a)%Z) (most_active_editors patterns) /\
    (forall u k, In (u, k) (most_active_editors patterns) ->
                 k = occurrences u names /\ (1 <= k)%Z) /\
    (protected_articles (protection_analysis s) <= n)%nat /\
    (0 <= protection_rate (protection_analysis s) /\
     protection_rate (protection_analysis s) <= 100) /\
    (articles_with_talk_activity (talk_page_correlation s) <= n)%nat /\
    (0 <= talk_activity_rate (talk_page_correlation s) /\
     talk_activity_rate (talk_page_correlation s) <= 100).
Proof.
  intros Hne Hwars. unfold compute_statistics.
  rewrite !guarded_mean_ok, !guarded_rate_ok by exact Hne. cbn [bind].
  rewrite report_editors_fold. cbn [app].
  eexists. split; [reflexivity|].
  assert (Hn : (0 < List.length contested)%nat)
    by (destruct contested; [contradiction | simpl; lia]).
  assert (Htotal : (List.length contested
                    <= list_sum (map (fun article => List.length (ca_edit_wars article))
                                     contested))%nat).
  { apply list_sum_at_least. intros a Ha. specialize (Hwars a Ha).
    destruct (ca_edit_wars a); [contradiction | simpl; lia]. }
  destruct (most_common_spec 10 (Counter (report_editors contested)))
    as (Hlen & Hin & Hsorted).
  cbn [overall_statistics editor_behavior_patterns protection_analysis
       talk_page_correlation articles_analyzed articles_with_edit_wars
       total_edit_wars os_total_reverts avg_reverts_per_article
       avg_edit_wars_per_article single_war multiple_wars total_unique_editors
       most_active_editors protected_articles protection_rate
       articles_with_talk_activity talk_activity_rate].
  split; [reflexivity|]. split.
  { rewrite filter_all_true; [reflexivity|].
    intros a Ha. specialize (Hwars a Ha). now destruct (ca_edit_wars a). }
  split; [exact Htotal|].
  split.
  { destruct (@mean_bounds (list_sum (map ca_total_reverts contested)) _ Hn)
      as (H0 & H1 & _). now split. }
  split.
  { destruct (@mean_bounds
                (list_sum (map (fun article => List.length (ca_edit_wars article))
                               contested)) _ Hn) as (_ & H1 & H2).
    split; [now apply H2 | exact H1]. }
  split; [apply Counter_length|].
  split.
  { rewrite split_counts; [unfold values; now rewrite length_map|].
    apply Counter_values_positive. }
  split; [exact Hlen|]. split; [exact Hsorted|].
  split.
  { intros u k Huk. apply Hin in Huk. now apply Counter_In. }
  split; [apply filter_length_le|].
  split; [apply percentage_bounds; [apply filter_length_le | exact Hn]|].
  split; [apply filter_length_le|].
  apply percentage_bounds; [apply filter_length_le | exact Hn].
Qed.

(** X18. [generate_edit_war_report] never fails.  It carries the articles of
    [find_contested_articles]; its four statistics dictionaries are filled
    exactly when there is at least one article, and then:
    [articles_with_edit_wars] equals [articles_analyzed], the number of
    articles, since every article found has an edit war, and
    [total_edit_wars] is at least that number; the average number of reverts
    lies between 0 and the total, the average number of edit wars between 1
    and the total; [total_unique_editors] is the number of distinct names in
    the editor lists of the wars, and [single_war] and [multiple_wars] add up
    to it; the ranking of editors has at most 10 entries, in order of
    decreasing count, the count of an editor being the number of times the
    name occurs in the editor lists of the wars; and the protection and
    talk-activity rates lie between 0 and 100. *)
Theorem X18_report_statistics :
  forall (get_page_revisions : string -> list Revision)
         (revert_threshold : Z) (time_window_hours : Q) (min_editors : Z)
         (page_protected : string -> bool) (clock : string -> nat -> Z)
         (now_isoformat : string) (pages : list (option string)),
    exists report,
      generate_edit_war_report get_page_revisions revert_threshold time_window_hours
                               min_editors page_protected clock now_isoformat pages
      = Ok report /\
      contested_articles report
      = find_contested_articles get_page_revisions revert_threshold
                                time_window_hours page_protected clock pages /\
      (report_statistics report = None <-> contested_articles report = []) /\
      forall s, report_statistics report = Some s ->
        let n := List.length (contested_articles report) in
        let names := report_editors (contested_articles report) in
        let overall := overall_statistics s in
        let patterns := editor_behavior_patterns s in
        articles_analyzed overall = n /\
        articles_with_edit_wars overall = n /\
        (n <= total_edit_wars overall)%nat /\
        (0 <= avg_reverts_per_article overall /\
         avg_reverts_per_article overall
         <= inject_Z (Z.of_nat (os_total_reverts overall))) /\
        (1 <= avg_edit_wars_per_article overall /\
         avg_edit_wars_per_article overall
         <= inject_Z (Z.of_nat (total_edit_wars overall))) /\
        total_unique_editors patterns = List.length (unique names) /\
        (single_war patterns + multiple_wars patterns
         = total_unique_editors patterns)%nat /\
        (List.length (most_active_editors patterns) <= 10)%nat /\
        Sorted (fun a b => (snd b <= snd a)%Z) (most_active_editors patterns) /\
        (forall u k, In (u, k) (most_active_editors patterns) ->
                     k = occurrences u names /\ (1 <= k)%Z) /\
        (protected_articles (protection_analysis s) <= n)%nat /\
        (0 <= protection_rate (protection_analysis s) /\
         protection_rate (protection_analysis s) <= 100) /\
        (articles_with_talk_activity (talk_page_correlation s) <= n)%nat /\
        (0 <= talk_activity_rate (talk_page_correlation s) /\
         talk_activity_rate (talk_page_correlation s) <= 100).
Proof.
  intros fetch thr win min_editors page_protected clock now pages.
  unfold generate_edit_war_report.
  pose proof (@find_contested_has_wars fetch thr win page_protected clock pages)
    as Hwars.
  destruct (find_contested_articles fetch thr win page_protected clock pages)
    as [|article rest] eqn:Hfound.
  - cbn [truthy bind]. eexists. split; [reflexivity|].
    cbn [contested_articles report_statistics].
    split; [reflexivity|]. split; [now split | discriminate].
  - cbn [truthy].
    destruct (@compute_statistics_spec (article :: rest)) as (s & -> & Hs);
      [discriminate | exact Hwars |].
    cbn [bind]. eexists. split; [reflexivity|].
    cbn [contested_articles report_statistics].
    split; [reflexivity|]. split; [split; discriminate|].
    intros s' [= <-]. exact Hs.
Qed.
